(** * poc_cv_workflow: a shallow embedding of the CV pipeline

    The repository is a five-stage pipeline over Python dictionaries
    (text extraction, field extraction, category matching,
    transformation, load), an orchestrator that records the progress of a
    run in a process-wide registry, and a cache of the reference
    catalog.  Each source module has a module of the same name below;
    the theorems come after all the definitions.

    Conventions of the embedding.
    - A Python value is a [value]; a [dict] with string keys is a
      [gmap string value].  Insertion order of dictionaries is not kept:
      no property stated here reads it.
    - A [str] is a Rocq [string], one [ascii] per character (code points
      below 256).  The French messages of the source are constants that
      no operation inspects; they are written as in the source.  The
      placeholder of the API key, which the source compares with the
      configured key, is written with its code points.
    - A [float] is the rational it denotes; rounding is not modelled.
    - Code that can raise returns a [res]; an exception carries the text
      that [str(e)] yields.  The texts of the interpreter's own
      exceptions follow CPython.
    - What the outside world decides (clock, PDF library, environment,
      OpenAI service, JSON decoder, file system, UUID generator) is read
      from an [oracle]. *)

From Stdlib Require Import ZArith QArith Lqa String Ascii List Bool.
From stdpp Require Import gmap strings list fin_maps pretty.
Import ListNotations.

#[local] Set Warnings "-register-all".
Close Scope Q_scope.
Local Open Scope string_scope.

(** ** Python values and the operations the source applies to them *)

Module Py.

Inductive value : Type :=
| VNone
| VBool (b : bool)
| VInt (z : Z)
| VFloat (q : Q)
| VStr (s : string)
| VList (l : list value)
| VDict (d : gmap string value).

Inductive exn_kind :=
| AttributeError | TypeError | KeyError | ValueError | OtherError.

Record exn := Exn { exn_kind_of : exn_kind; str_of_exn : string }.

Inductive res (A : Type) : Type :=
| Ok (a : A)
| Raise (e : exn).
Arguments Ok {A} a.
Arguments Raise {A} e.

#[global] Instance res_ret : MRet res := fun A a => Ok a.

(** Sequencing: the first exception raised ends the computation. *)
#[global] Instance res_bind : MBind res := fun A B k m =>
  match m with
  | Ok a => k a
  | Raise e => Raise e
  end.

(** [try: m except Exception as e: h e] *)
Definition try_except {A} (m : res A) (h : exn -> res A) : res A :=
  match m with
  | Ok a => Ok a
  | Raise e => h e
  end.

Definition type_name (v : value) : string :=
  match v with
  | VNone => "NoneType"
  | VBool _ => "bool"
  | VInt _ => "int"
  | VFloat _ => "float"
  | VStr _ => "str"
  | VList _ => "list"
  | VDict _ => "dict"
  end.

Definition no_attribute (v : value) (attr : string) : exn :=
  Exn AttributeError ("'" ++ type_name v ++ "' object has no attribute '" ++ attr ++ "'").

Definition not_iterable (v : value) : exn :=
  Exn TypeError ("'" ++ type_name v ++ "' object is not iterable").

Definition not_container (v : value) : exn :=
  Exn TypeError ("argument of type '" ++ type_name v ++ "' is not iterable").

Definition not_subscriptable (v : value) : exn :=
  Exn TypeError ("'" ++ type_name v ++ "' object is not subscriptable").

Definition has_no_len (v : value) : exn :=
  Exn TypeError ("object of type '" ++ type_name v ++ "' has no len()").

(** Truth value of an object, as tested by [if x] and [not x]. *)
Definition truthy (v : value) : bool :=
  match v with
  | VNone => false
  | VBool b => b
  | VInt z => negb (z =? 0)%Z
  | VFloat q => negb (Qeq_bool q 0)
  | VStr s => negb (String.eqb s "")
  | VList l => match l with [] => false | _ => true end
  | VDict d => match map_to_list d with [] => false | _ => true end
  end.

Definition has_key (d : gmap string value) (k : string) : bool :=
  match d !! k with Some _ => true | None => false end.

(** [d.get(k, dflt)] on a dictionary. *)
Definition dict_get (d : gmap string value) (k : string) (dflt : value) : value :=
  default dflt (d !! k).

(** [v.get(k, dflt)] on an arbitrary object: only a [dict] has [get]. *)
Definition py_get (v : value) (k : string) (dflt : value) : res value :=
  match v with
  | VDict d => Ok (dict_get d k dflt)
  | _ => Raise (no_attribute v "get")
  end.

Definition is_dict (v : value) : bool :=
  match v with VDict _ => true | _ => false end.

Definition is_list (v : value) : bool :=
  match v with VList _ => true | _ => false end.

(** [v == s] for a string [s]. *)
Definition eq_str (v : value) (s : string) : bool :=
  match v with VStr s' => String.eqb s' s | _ => false end.

Fixpoint is_prefix (p s : string) : bool :=
  match p, s with
  | EmptyString, _ => true
  | String a p', String b s' => Ascii.eqb a b && is_prefix p' s'
  | String _ _, EmptyString => false
  end.

(** [p in s] on strings. *)
Fixpoint is_substring (p s : string) : bool :=
  is_prefix p s ||
  match s with
  | EmptyString => false
  | String _ s' => is_substring p s'
  end.

(** [k in v] for a string [k]. *)
Definition py_in (k : string) (v : value) : res bool :=
  match v with
  | VDict d => Ok (has_key d k)
  | VStr s => Ok (is_substring k s)
  | VList l => Ok (existsb (fun x => eq_str x k) l)
  | _ => Raise (not_container v)
  end.

Fixpoint chars (s : string) : list value :=
  match s with
  | EmptyString => []
  | String c s' => VStr (String c EmptyString) :: chars s'
  end.

(** The elements a [for] loop visits.  A dictionary yields its keys. *)
Definition py_iter (v : value) : res (list value) :=
  match v with
  | VList l => Ok l
  | VStr s => Ok (chars s)
  | VDict d => Ok (VStr <$> (map_to_list d).*1)
  | _ => Raise (not_iterable v)
  end.

(** [v[k]] for a string [k]. *)
Definition py_getitem (v : value) (k : string) : res value :=
  match v with
  | VDict d =>
      match d !! k with
      | Some x => Ok x
      | None => Raise (Exn KeyError ("'" ++ k ++ "'"))
      end
  | VStr _ => Raise (Exn TypeError "string indices must be integers, not 'str'")
  | VList _ => Raise (Exn TypeError "list indices must be integers or slices, not str")
  | _ => Raise (not_subscriptable v)
  end.

Fixpoint prefix_chars (n : nat) (s : string) : string :=
  match n, s with
  | S n', String c s' => String c (prefix_chars n' s')
  | _, _ => EmptyString
  end.

(** [v[:n]] *)
Definition py_slice_to (n : nat) (v : value) : res value :=
  match v with
  | VList l => Ok (VList (take n l))
  | VStr s => Ok (VStr (prefix_chars n s))
  | VDict _ => Raise (Exn TypeError "unhashable type: 'slice'")
  | _ => Raise (not_subscriptable v)
  end.

(** [str.isspace] on one character: the separators of [str.split()]. *)
Definition is_space (c : ascii) : bool :=
  let n := nat_of_ascii c in
  (((9 <=? n) && (n <=? 13)) || ((28 <=? n) && (n <=? 32)) || (n =? 133) || (n =? 160))%nat.

(** [s.split()]: the maximal runs of characters that are not separators. *)
Fixpoint split_from (cur : string) (s : string) : list string :=
  match s with
  | EmptyString => match cur with EmptyString => [] | _ => [cur] end
  | String c s' =>
      if is_space c
      then match cur with
           | EmptyString => split_from EmptyString s'
           | _ => cur :: split_from EmptyString s'
           end
      else split_from (cur ++ String c EmptyString) s'
  end.

Definition split (s : string) : list string := split_from EmptyString s.

Definition lower_char (c : ascii) : ascii :=
  let n := nat_of_ascii c in
  if (((65 <=? n) && (n <=? 90)) || ((192 <=? n) && (n <=? 222) && negb (n =? 215)))%nat
  then ascii_of_nat (n + 32)
  else c.

(** [s.lower()] *)
Fixpoint lower (s : string) : string :=
  match s with
  | EmptyString => EmptyString
  | String c s' => String (lower_char c) (lower s')
  end.

(** [s.replace(a, b)] for single characters [a] and [b]. *)
Fixpoint replace_char (a b : ascii) (s : string) : string :=
  match s with
  | EmptyString => EmptyString
  | String c s' => String (if Ascii.eqb c a then b else c) (replace_char a b s')
  end.

(** [collections.Counter(words)]: the counts, in order of first occurrence. *)
Fixpoint count_add (w : string) (acc : list (string * nat)) : list (string * nat) :=
  match acc with
  | [] => [(w, 1)]
  | (w', n) :: acc' =>
      if String.eqb w w' then (w', S n) :: acc' else (w', n) :: count_add w acc'
  end.

Definition Counter (words : list string) : list (string * nat) :=
  fold_left (fun acc w => count_add w acc) words [].

(** Stable insertion by decreasing count: an item goes after the items
    that count at least as much. *)
Fixpoint insert_by_count (x : string * nat) (l : list (string * nat)) : list (string * nat) :=
  match l with
  | [] => [x]
  | y :: l' =>
      if (x.2 <=? y.2)%nat then y :: insert_by_count x l' else x :: y :: l'
  end.

(** [counter.most_common(n)]: decreasing count, ties in order of first
    occurrence. *)
Definition most_common (n : nat) (c : list (string * nat)) : list (string * nat) :=
  take n (fold_left (fun sorted x => insert_by_count x sorted) c []).

End Py.
Import Py.

Abbreviation dict := (gmap string value).

(** [{k1: v1, ..., **data}]: the entries of [data] are written last, so
    they replace a literal entry with the same key. *)
Definition spread_last (literal data : dict) : dict := data ∪ literal.

(** ** The outside world *)

Module World.

(** What [PyPDF2] makes of the payload.  [PdfFault msg]: decoding or
    reading raised, [msg] being [str(e)].  [PdfDocument size info pages]:
    the byte size, the document information ([None] when the reader has
    none) and the text of each page.  The keys of the document
    information are PDF names, which the library writes with their
    leading slash: an entry [(n, v)] stands for the key ["/" ++ n]. *)
Inductive pdf_read :=
| PdfFault (msg : string)
| PdfDocument (size : Z) (info : option (list (string * value))) (pages : list string).

(** A row of [csv.DictReader]: a dict with the cells under the names of
    the header (a cell that the row lacks is [None]) and, when the row
    is longer than the header, the surplus cells as a list under the key
    [None]. *)
Record csv_row := CsvRow {
  cells : dict;
  surplus : option (list string)
}.

(** Reading the reference file under one encoding: [list(csv.DictReader(f))]. *)
Inductive csv_read :=
| UnicodeDecodeError (msg : string)
| CsvFault (msg : string)
| CsvRows (rows : list csv_row).

Record oracle := {
  (** [time.time()] at the call site of each module *)
  time_extraction : Q;
  time_openai_extraction : Q;
  time_matching : Q;
  time_transformation : Q;
  time_chargement : Q;
  (** [base64.b64decode] followed by [PyPDF2.PdfReader] and [extract_text] *)
  read_pdf : value -> pdf_read;
  (** [os.environ.get("OPENAI_API_KEY")] *)
  OPENAI_API_KEY : option string;
  (** The chat completion asked by the Field Extractor for a text:
      an exception, or [response.choices[0].message.content]. *)
  chat_extraction : string -> value -> res (option string);
  (** The chat completion asked by the Category Matcher for a title,
      an organisation, a description and the catalog. *)
  chat_matching : string -> value -> value -> value -> list value -> res (option string);
  (** [json.loads]; [None] when it raises. *)
  json_loads : string -> option value;
  (** [float(x)]; [None] when it raises. *)
  float_of : value -> option Q;
  (** [os.path.getmtime(METIERS_FILE_PATH)]; [None] for [OSError]. *)
  getmtime : option Q;
  (** [os.path.exists(METIERS_FILE_PATH)] *)
  path_exists : bool;
  (** [os.path.getsize(METIERS_FILE_PATH)]; [None] when it raises. *)
  getsize : option Z;
  (** The reference file read under an encoding. *)
  read_csv : string -> csv_read;
  (** [uuid.uuid4()], printed *)
  uuid4 : string;
  (** [str(x)] of an object that is not a string *)
  str_of : value -> string;
  (** [int(os.environ.get("METIERS_CACHE_TTL", DEFAULT_CACHE_TTL))] *)
  CACHE_TTL : Z
}.

(** [str(x)], as an f-string prints a field *)
Definition py_str (o : oracle) (v : value) : string :=
  match v with
  | VStr s => s
  | _ => str_of o v
  end.

End World.
Import World.

(** ** app/tasks/extraction/pdf_extraction.py *)

Module PdfExtraction.

(** [k.lower().replace('/', '_')] *)
Definition normalize_key (k : string) : string :=
  replace_char "/"%char "_"%char (lower k).

(** [{k.lower().replace('/', '_'): v for k, v in metadata.items()}] *)
Definition normalize_metadata (items : list (string * value)) : dict :=
  fold_left (fun acc kv => <[normalize_key ("/" ++ kv.1) := kv.2]> acc) items ∅.

(** [pdf_text += page.extract_text() + "\n\n"] over the pages *)
Definition page_separator : string :=
  String (ascii_of_nat 10) (String (ascii_of_nat 10) EmptyString).

Definition join_pages (pages : list string) : string :=
  fold_left (fun text page => text ++ page ++ page_separator) pages "".

Definition extraction (o : oracle) (data : dict) : dict :=
  match data !! "pdf_content_b64" with
  | Some payload =>
      match read_pdf o payload with
      | PdfDocument size info pages =>
          let pdf_metadata :=
            match info with
            | Some (_ :: _ as items) => normalize_metadata items
            | _ => ∅
            end in
          {[ "extracted" := VDict
               {[ "pdf_filename" := dict_get data "pdf_filename" (VStr "document.pdf");
                  "content_type" := dict_get data "content_type" (VStr "application/pdf");
                  "pdf_size_bytes" := VInt size;
                  "num_pages" := VInt (Z.of_nat (length pages));
                  "text_content" := VStr (join_pages pages);
                  "metadata" := VDict
                    (<["extraction_time" := VFloat (time_extraction o)]>
                       (<["source" := VStr "pdf_upload"]> pdf_metadata)) ]};
             "step" := VStr "extraction";
             "pdf_available" := VBool true ]}
      | PdfFault msg =>
          {[ "extracted" := VDict
               {[ "pdf_filename" := dict_get data "pdf_filename" (VStr "document.pdf");
                  "error" := VStr msg;
                  "metadata" := VDict
                    {[ "source" := VStr "pdf_upload";
                       "extraction_time" := VFloat (time_extraction o);
                       "extraction_success" := VBool false ]} ]};
             "step" := VStr "extraction";
             "pdf_available" := VBool true;
             "extraction_error" := VStr msg ]}
      end
  | None =>
      {[ "extracted" := VDict data;
         "step" := VStr "extraction";
         "pdf_available" := VBool false ]}
  end.

End PdfExtraction.
Import PdfExtraction.

(** ** app/tasks/extraction/openai_extraction.py *)

Module OpenAIExtraction.

Definition ERROR_NO_PDF_DATA : string :=
  "Pas de données PDF disponibles ou erreur lors de l'extraction initiale".
Definition ERROR_NO_TEXT_CONTENT : string :=
  "Aucun contenu textuel disponible pour l'analyse".
Definition ERROR_API_KEY_MISSING : string :=
  "Clé API OpenAI non configurée dans le fichier .env".

Definition FORMATION_SCHEMA : list string :=
  ["periode"; "diplome"; "etablissement"; "description"].
Definition EXPERIENCE_SCHEMA : list string :=
  ["periode"; "poste"; "entreprise"; "description"; "competences"].

Definition _create_error_response (error_message : string) (original_data : dict) : dict :=
  spread_last
    {[ "openai_extracted" := VDict
         {[ "error" := VStr error_message; "status" := VStr "error" ]};
       "step" := VStr "openai_extraction";
       "success" := VBool false ]}
    original_data.

(** One turn of the loop of [_validate_formations]: what is appended. *)
Definition validate_formation (formation : value) : list value :=
  match formation with
  | VDict f =>
      let validated_formation : dict :=
        {[ "periode" := dict_get f "periode" (VStr "");
           "diplome" := dict_get f "diplome" (VStr "");
           "etablissement" := dict_get f "etablissement" (VStr "");
           "description" := dict_get f "description" (VStr "") ]} in
      if forallb (has_key validated_formation) FORMATION_SCHEMA
      then [VDict validated_formation]
      else []
  | _ => []
  end.

Definition _validate_formations (formations : value) : res (list value) :=
  items ← py_iter formations;
  Ok (concat (validate_formation <$> items)).

Definition validate_experience (experience : value) : list value :=
  match experience with
  | VDict e =>
      let competences :=
        let c := dict_get e "competences" (VList []) in
        if is_list c then c else VList [] in
      let validated_experience : dict :=
        {[ "periode" := dict_get e "periode" (VStr "");
           "poste" := dict_get e "poste" (VStr "");
           "entreprise" := dict_get e "entreprise" (VStr "");
           "description" := dict_get e "description" (VStr "");
           "competences" := competences ]} in
      if forallb (has_key validated_experience) EXPERIENCE_SCHEMA
      then [VDict validated_experience]
      else []
  | _ => []
  end.

Definition _validate_experiences (experiences : value) : res (list value) :=
  items ← py_iter experiences;
  Ok (concat (validate_experience <$> items)).

Definition empty_extraction : dict :=
  {[ "formations" := VList []; "experiences_professionnelles" := VList [] ]}.

Definition parse_openai_response (o : oracle) (response_content : string) : dict :=
  match json_loads o response_content with
  | None => empty_extraction
  | Some (VDict extracted_data) =>
      let validated :=
        validated_formations ← _validate_formations (dict_get extracted_data "formations" (VList []));
        validated_experiences ← _validate_experiences
          (dict_get extracted_data "experiences_professionnelles" (VList []));
        Ok ({[ "formations" := VList validated_formations;
               "experiences_professionnelles" := VList validated_experiences ]} : dict) in
      match validated with
      | Ok d => d
      | Raise _ => empty_extraction
      end
  | Some _ => empty_extraction
  end.

Definition _perform_openai_extraction
    (o : oracle) (api_key : string) (text_content : value) : res dict :=
  response_content ← chat_extraction o api_key text_content;
  match response_content with
  | None => Raise (Exn ValueError "La réponse de l'API OpenAI est vide")
  | Some content => Ok (parse_openai_response o content)
  end.

(** The placeholder of the sample environment file, the literal of
    line 57: 24 characters, the ninth being e with an acute accent (code
    point 233). *)
Definition PLACEHOLDER_API_KEY : string :=
  "votre_cl" ++ String (ascii_of_nat 233) "_api_openai_ici".

(** [not api_key or api_key == "votre_cl\u00e9_api_openai_ici"] *)
Definition key_missing (api_key : option string) : bool :=
  match api_key with
  | None => true
  | Some k => String.eqb k "" || String.eqb k PLACEHOLDER_API_KEY
  end.

Definition openai_extraction (o : oracle) (data : dict) : res dict :=
  if negb (truthy (dict_get data "pdf_available" (VBool false)))
     || has_key data "extraction_error"
  then Ok (_create_error_response ERROR_NO_PDF_DATA data)
  else
    let extracted_data := dict_get data "extracted" (VDict ∅) in
    text_content ← py_get extracted_data "text_content" (VStr "");
    if negb (truthy text_content)
    then Ok (_create_error_response ERROR_NO_TEXT_CONTENT data)
    else
      if key_missing (OPENAI_API_KEY o)
      then Ok (_create_error_response ERROR_API_KEY_MISSING data)
      else
        match _perform_openai_extraction o (default "" (OPENAI_API_KEY o)) text_content with
        | Ok extracted =>
            Ok (spread_last
                  {[ "openai_extracted" := VDict
                       {[ "formations" := dict_get extracted "formations" (VList []);
                          "experiences_professionnelles" :=
                            dict_get extracted "experiences_professionnelles" (VList []);
                          "status" := VStr "success";
                          "extraction_time" := VFloat (time_openai_extraction o) ]};
                     "step" := VStr "openai_extraction";
                     "success" := VBool true ]}
                  data)
        | Raise e =>
            Ok (_create_error_response
                  ("Erreur lors de l'extraction avec OpenAI: " ++ str_of_exn e) data)
        end.

End OpenAIExtraction.
Import OpenAIExtraction.

(** ** app/tasks/extraction/openai_matching.py *)

Module OpenAIMatching.

(** The two module-level variables of the cache. *)
Record cache := Cache {
  _metiers_cache : list value;
  _metiers_cache_timestamp : Q
}.

(** Their values when the module is imported. *)
Definition cache_at_import : cache := Cache [] 0.

Definition encodings : list string :=
  ["utf-8"; "utf-8-sig"; "latin-1"; "iso-8859-1"; "cp1252"].

(** The loop over the encodings: the rows of the first one that reads,
    the empty list when none does. *)
Fixpoint read_with (o : oracle) (encs : list string) : list csv_row :=
  match encs with
  | [] => []
  | encoding :: rest =>
      match read_csv o encoding with
      | CsvRows rows => rows
      | UnicodeDecodeError _ | CsvFault _ => read_with o rest
      end
  end.

(** [', '.join(sample.keys())] in the log of the first row: [join]
    takes strings only, and the key of the surplus cells, the last of
    the row, is [None]. *)
Definition join_keys (sample : csv_row) : res unit :=
  match surplus sample with
  | None => Ok tt
  | Some _ =>
      Raise (Exn TypeError
               ("sequence item " ++ pretty (size (cells sample))
                  ++ ": expected str instance, NoneType found"))
  end.

(** The analysis of the format of the data: it only logs, but it can
    raise. *)
Definition log_sample (metiers_data : list csv_row) : res unit :=
  match metiers_data with
  | sample :: _ => join_keys sample
  | [] => Ok tt
  end.

(** One turn of the standardising loop: what is appended.  A row of the
    reader is a dict, and ["code_rome"] is looked up among all its keys;
    the key of the surplus cells is not a string. *)
Definition standardize (metier : csv_row) : list value :=
  let m := cells metier in
  if has_key m "code_rome"
  then [VDict {[ "id" := dict_get m "code_rome" VNone;
                 "code_rome" := dict_get m "code_rome" VNone;
                 "libelle" := dict_get m "libelle_rome" VNone;
                 "definition" := VStr "";
                 "appellations" := VList [] ]}]
  else [].

(** Every exception is caught by the outer handler, which returns the
    empty list. *)
Definition load_metiers_reference (o : oracle) : list value :=
  if negb (path_exists o) then []
  else
    match getsize o with
    | None => []
    | Some _ =>
        match read_with o encodings with
        | [] => []
        | metiers_data =>
            match log_sample metiers_data with
            | Raise _ => []
            | Ok _ => concat (standardize <$> metiers_data)
            end
        end
    end.

Definition Qlt_bool (x y : Q) : bool := negb (Qle_bool y x).

Definition cache_valid (o : oracle) (current_time file_mtime : Q) (c : cache) : bool :=
  (0 <? length (_metiers_cache c))%nat
  && Qlt_bool (current_time - _metiers_cache_timestamp c) (inject_Z (CACHE_TTL o))
  && Qle_bool file_mtime (_metiers_cache_timestamp c).

(** The result and the new value of the two globals. *)
Definition get_metiers_reference (o : oracle) (c : cache) : list value * cache :=
  let current_time := time_matching o in
  let file_mtime := default 0%Q (getmtime o) in
  if cache_valid o current_time file_mtime c
  then (_metiers_cache c, c)
  else
    let loaded := load_metiers_reference o in
    (loaded, Cache loaded current_time).

(** The body catches every exception, so a list always comes back; the
    result is a [res] because the caller wraps the call in a handler. *)
Definition find_matching_metiers_openai
    (o : oracle) (poste entreprise description : value) (metiers : list value)
    : res (list value) :=
  if negb (truthy poste) then Ok []
  else
    match OPENAI_API_KEY o with
    | None => Ok []
    | Some api_key =>
        if String.eqb api_key "" then Ok []
        else
          match chat_matching o api_key poste entreprise description metiers with
          | Raise _ => Ok []
          | Ok None => Ok []
          | Ok (Some response_content) =>
              match json_loads o response_content with
              | Some (VDict result) =>
                  if forallb (has_key result) ["id"; "code_rome"; "libelle"; "score"]
                  then
                    match float_of o (dict_get result "score" (VInt 0)) with
                    | Some score =>
                        Ok [VDict {[ "id" := dict_get result "id" VNone;
                                     "code_rome" := dict_get result "code_rome" VNone;
                                     "libelle" := dict_get result "libelle" VNone;
                                     "score" := VFloat score ]}]
                    | None => Ok []
                    end
                  else Ok []
              | _ => Ok []
              end
          end
    end.

(** One turn of the loop over the experiences: what is appended. *)
Definition match_experience (o : oracle) (metiers : list value) (experience : value)
    : res (list value) :=
  poste ← py_get experience "poste" VNone;
  entreprise ← py_get experience "entreprise" (VStr "");
  description ← py_get experience "description" (VStr "");
  if negb (truthy poste) then Ok []
  else
    match find_matching_metiers_openai o poste entreprise description metiers with
    | Ok matches =>
        if truthy (VList matches)
        then Ok [VDict {[ "poste" := poste; "matches" := VList matches ]}]
        else Ok [VDict {[ "poste" := poste; "matches" := VList [] ]}]
    | Raise e =>
        Ok [VDict {[ "poste" := poste; "matches" := VList [];
                     "error" := VStr (str_of_exn e) ]}]
    end.

Fixpoint match_experiences (o : oracle) (metiers : list value) (experiences : list value)
    : res (list value) :=
  match experiences with
  | [] => Ok []
  | experience :: rest =>
      entry ← match_experience o metiers experience;
      entries ← match_experiences o metiers rest;
      Ok ((entry ++ entries)%list)
  end.

Definition py_len (v : value) : res nat :=
  match v with
  | VList l => Ok (length l)
  | VStr s => Ok (String.length s)
  | VDict d => Ok (size d)
  | _ => Raise (has_no_len v)
  end.

(** [f"{x:.4f}"] formats numbers only. *)
Definition format_fixed (v : value) : res unit :=
  match v with
  | VInt _ | VFloat _ | VBool _ => Ok ()
  | VStr _ => Raise (Exn ValueError "Unknown format code 'f' for object of type 'str'")
  | _ => Raise (Exn TypeError
                  ("unsupported format string passed to " ++ type_name v ++ ".__format__"))
  end.

(** The summary written to the log for one entry: it yields nothing,
    but it evaluates expressions that can raise. *)
Definition log_match (entry : value) : res unit :=
  _ ← py_get entry "poste" (VStr "");
  matches ← py_get entry "matches" (VList []);
  nb_matches ← py_len matches;
  if (0 <? nb_matches)%nat
  then
    match matches with
    | VList (top_match :: _) =>
        _ ← py_get top_match "libelle" (VStr "");
        score ← py_get top_match "score" (VInt 0);
        format_fixed score
    | VStr _ => Raise (no_attribute matches "get")
    | _ => Raise (Exn KeyError "0")
    end
  else Ok ().

Fixpoint log_matches (entries : list value) : res unit :=
  match entries with
  | [] => Ok ()
  | entry :: rest => _ ← log_match entry; log_matches rest
  end.

Definition matching_response (section : dict) (success : bool) (data : dict) : dict :=
  spread_last
    {[ "openai_matching" := VDict section;
       "step" := VStr "openai_matching";
       "success" := VBool success ]}
    data.

Definition matching_error (message : string) (data : dict) : dict :=
  matching_response
    {[ "error" := VStr message; "status" := VStr "error"; "metiers_matches" := VList [] ]}
    false data.

Definition openai_matching (o : oracle) (c : cache) (data : dict) : res dict * cache :=
  if negb (truthy (dict_get data "success" (VBool false)))
     || negb (has_key data "openai_extracted")
  then (Ok (matching_error "Aucune donnée extraite par OpenAI disponible" data), c)
  else
    let openai_data := dict_get data "openai_extracted" (VDict ∅) in
    match py_get openai_data "experiences_professionnelles" (VList []) with
    | Raise e => (Raise e, c)
    | Ok experiences =>
        if negb (truthy experiences)
        then
          (Ok (matching_response
                 {[ "error" := VStr "Aucune expérience professionnelle trouvée";
                    "status" := VStr "warning";
                    "metiers_matches" := VList [] ]}
                 true data), c)
        else
          let '(metiers_reference, c') := get_metiers_reference o c in
          match metiers_reference with
          | [] => (Ok (matching_error "Impossible de charger les métiers de référence" data), c')
          | _ =>
              (try_except
                 (items ← py_iter experiences;
                  metiers_matches ← match_experiences o metiers_reference items;
                  _ ← log_matches metiers_matches;
                  Ok (matching_response
                        {[ "metiers_matches" := VList metiers_matches;
                           "status" := VStr "success" ]}
                        true data))
                 (fun e =>
                    Ok (matching_error
                          ("Erreur lors de l'extraction avec OpenAI: " ++ str_of_exn e) data)),
               c')
          end
    end.

End OpenAIMatching.
Import OpenAIMatching.

(** ** app/tasks/transformation/pdf_transformation.py *)

Module PdfTransformation.

(** The ten most frequent words of more than three characters, folded
    to lower case. *)
Definition keywords_of (text_content : string) : list value :=
  let word_count := length (split text_content) in
  if (0 <? word_count)%nat
  then
    let words :=
      lower <$> filter (fun word => (3 < String.length word)%nat) (split text_content) in
    let word_freq := most_common 10 (Counter words) in
    VStr <$> word_freq.*1
  else [].

(** [cv_data], after the two conditional assignments. *)
Definition cv_data_of (openai_data openai_matching_data : value) : res dict :=
  cv_data ←
    (if truthy openai_data
     then
       status ← py_get openai_data "status" VNone;
       if negb (eq_str status "error")
       then
         formations ← py_get openai_data "formations" (VList []);
         experiences ← py_get openai_data "experiences_professionnelles" (VList []);
         Ok ({[ "formations" := formations;
                "experiences_professionnelles" := experiences;
                "extracteur" := VStr "openai" ]} : dict)
       else Ok (∅ : dict)
     else Ok (∅ : dict));
  if truthy openai_matching_data
  then
    status ← py_get openai_matching_data "status" VNone;
    if negb (eq_str status "error")
    then
      metiers_matches ← py_get openai_matching_data "metiers_matches" (VList []);
      Ok (<["metiers_matches" := metiers_matches]> cv_data)
    else Ok cv_data
  else Ok cv_data.

(** ["fr" if "fr" in metadata.get("language", "").lower() else "en"] *)
Definition language_of (metadata : value) : res string :=
  language ← py_get metadata "language" (VStr "");
  match language with
  | VStr l => Ok (if is_substring "fr" (lower l) then "fr" else "en")
  | _ => Raise (no_attribute language "lower")
  end.

Definition transformation (o : oracle) (data : dict) : res dict :=
  let extracted_data := dict_get data "extracted" (VDict ∅) in
  let openai_data := dict_get data "openai_extracted" (VDict ∅) in
  let openai_matching_data := dict_get data "openai_matching" (VDict ∅) in
  if truthy (dict_get data "pdf_available" (VBool false))
  then
    match data !! "extraction_error" with
    | Some extraction_error =>
        Ok {[ "transformed" := VDict
                {[ "error" := VStr ("Erreur lors de l'extraction: "
                                      ++ py_str o extraction_error);
                   "status" := VStr "error" ]};
              "step" := VStr "transformation";
              "success" := VBool false ]}
    | None =>
        text_content ← py_get extracted_data "text_content" (VStr "");
        match text_content with
        | VStr text =>
            let word_count := length (split text) in
            let char_count := String.length text in
            let keywords := keywords_of text in
            cv_data ← cv_data_of openai_data openai_matching_data;
            original_filename ← py_get extracted_data "pdf_filename" (VStr "document.pdf");
            page_count ← py_get extracted_data "num_pages" (VInt 0);
            metadata ← py_get extracted_data "metadata" (VDict ∅);
            language ← language_of metadata;
            Ok {[ "transformed" := VDict
                    {[ "original_filename" := original_filename;
                       "statistics" := VDict
                         {[ "word_count" := VInt (Z.of_nat word_count);
                            "character_count" := VInt (Z.of_nat char_count);
                            "page_count" := page_count ]};
                       "content_analysis" := VDict
                         {[ "keywords" := VList keywords;
                            "language" := VStr language ]};
                       "cv_data" := VDict cv_data;
                       "metadata" := metadata;
                       "transformation_time" := VFloat (time_transformation o) ]};
                  "step" := VStr "transformation";
                  "success" := VBool true ]}
        | _ => Raise (no_attribute text_content "split")
        end
    end
  else Ok {[ "transformed" := VDict data; "step" := VStr "transformation" ]}.

End PdfTransformation.
Import PdfTransformation.

(** ** app/tasks/chargement/pdf_chargement.py *)

Module PdfChargement.

(** [result["loaded"]["analysis_summary"]] *)
Definition analysis_summary_of (transformed_data : value) : res dict :=
  filename ← py_get transformed_data "original_filename" (VStr "document.pdf");
  statistics ← py_get transformed_data "statistics" (VDict ∅);
  word_count ← py_get statistics "word_count" (VInt 0);
  page_count ← py_get statistics "page_count" (VInt 0);
  content_analysis ← py_get transformed_data "content_analysis" (VDict ∅);
  keywords ← py_get content_analysis "keywords" (VList []);
  top_keywords ← py_slice_to 5 keywords;
  language ← py_get content_analysis "language" (VStr "unknown");
  Ok ({[ "filename" := filename;
         "word_count" := word_count;
         "page_count" := page_count;
         "top_keywords" := top_keywords;
         "language" := language ]} : dict).

(** The ["loaded"] section of a successful load. *)
Definition loaded_of (o : oracle) (transformed_data : value) : res dict :=
  let loaded : dict :=
    {[ "original_data" := transformed_data;
       "load_status" := VStr "success";
       "load_time" := VFloat (time_chargement o);
       "storage_reference" := VStr ("pdf_analysis_" ++ uuid4 o) ]} in
  has_statistics ← py_in "statistics" transformed_data;
  if has_statistics : bool
  then
    analysis_summary ← analysis_summary_of transformed_data;
    let loaded := <["analysis_summary" := VDict analysis_summary]> loaded in
    cv_data ← py_get transformed_data "cv_data" (VDict ∅);
    has_matches ← py_in "metiers_matches" cv_data;
    if has_matches : bool
    then
      metiers_matches ← py_getitem cv_data "metiers_matches";
      Ok (<["metiers_matches" := metiers_matches]> loaded)
    else Ok loaded
  else Ok loaded.

Definition chargement (o : oracle) (data : dict) : res dict :=
  let transformed_data := dict_get data "transformed" (VDict ∅) in
  if truthy (dict_get data "success" (VBool true))
  then
    loaded ← loaded_of o transformed_data;
    Ok {[ "loaded" := VDict loaded;
          "step" := VStr "load_complete";
          "success" := VBool true ]}
  else
    original_error ← py_get transformed_data "error" (VStr "Erreur inconnue");
    Ok {[ "loaded" := VDict
            {[ "error" := VStr "Échec de la transformation des données";
               "original_error" := original_error;
               "load_status" := VStr "failed";
               "load_time" := VFloat (time_chargement o) ]};
          "step" := VStr "load_complete";
          "success" := VBool false ]}.

End PdfChargement.
Import PdfChargement.

(** ** app/workflows/pdf_workflow.py *)

Module PdfWorkflow.

(** The process-wide state a run works on: the registry
    [active_workflows] and whatever the tasks keep between calls. *)
Record process (S : Type) := Process {
  active_workflows : gmap string dict;
  task_state : S
}.
Arguments Process {S} _ _.
Arguments active_workflows {S} _.
Arguments task_state {S} _.

(** A computation that may raise and that updates the process state;
    the updates made before an exception stay. *)
Definition run (S A : Type) : Type := process S -> res A * process S.

#[global] Instance run_ret {S} : MRet (run S) := fun A a p => (Ok a, p).

#[global] Instance run_bind {S} : MBind (run S) := fun A B k m p =>
  match m p with
  | (Ok a, p') => k a p'
  | (Raise e, p') => (Raise e, p')
  end.

(** [active_workflows[workflow_id][field] = v] *)
Definition set_field {S} (workflow_id field : string) (v : value) : run S unit :=
  fun p =>
    match active_workflows p !! workflow_id with
    | Some info =>
        (Ok (), Process (<[workflow_id := <[field := v]> info]> (active_workflows p))
                         (task_state p))
    | None => (Raise (Exn KeyError ("'" ++ workflow_id ++ "'")), p)
    end.

(** A task called from the flow: it sees the task state only. *)
Definition call {S} (task : dict -> S -> res dict * S) (data : dict) : run S dict :=
  fun p =>
    let '(r, s) := task data (task_state p) in
    (r, Process (active_workflows p) s).

Section Flow.

Context {S : Type}.
Variables extraction_task openai_extraction_task openai_matching_task
          transformation_task chargement_task : dict -> S -> res dict * S.

(** The body of the [try]. *)
Definition workflow_body (workflow_id : string) (input_data : option dict) : run S dict :=
  let input_data := default ({[ "initial" := VStr "data" ]} : dict) input_data in
  _ ← set_field workflow_id "status" (VStr "extraction");
  data ← call extraction_task input_data;
  _ ← set_field workflow_id "status" (VStr "openai_extraction");
  data_with_extraction ← call openai_extraction_task data;
  _ ← set_field workflow_id "status" (VStr "openai_matching");
  data_with_metiers ← call openai_matching_task data_with_extraction;
  _ ← set_field workflow_id "status" (VStr "transformation");
  transformed ← call transformation_task data_with_metiers;
  _ ← set_field workflow_id "status" (VStr "chargement");
  result ← call chargement_task transformed;
  _ ← set_field workflow_id "status" (VStr "completed");
  mret result.

Definition workflow_process_with
    (workflow_id : string) (input_data : option dict) : run S dict :=
  fun p =>
    match workflow_body workflow_id input_data p with
    | (Ok result, p') => (Ok result, p')
    | (Raise e, p') =>
        match (_ ← set_field workflow_id "status" (VStr "failed");
               set_field workflow_id "error" (VStr (str_of_exn e))) p' with
        | (Ok _, p'') => (Raise e, p'')
        | (Raise e', p'') => (Raise e', p'')
        end
    end.

End Flow.

(** The flow with the five tasks of the repository; between calls they
    keep the catalog cache. *)
Definition workflow_process (o : oracle) : string -> option dict -> run cache dict :=
  workflow_process_with
    (fun data c => (Ok (extraction o data), c))
    (fun data c => (openai_extraction o data, c))
    (fun data c => openai_matching o c data)
    (fun data c => (transformation o data, c))
    (fun data c => (chargement o data, c)).

End PdfWorkflow.
Import PdfWorkflow.

(** ** Sample runs

    Concrete inputs on which the statements below are evaluated. *)

Module Samples.

(** The replies of the service, as [json.loads] decodes them. *)
Definition extraction_reply : value :=
  VDict {[ "formations" := VList
             [VDict {[ "periode" := VStr "2010-2013"; "diplome" := VStr "BTS Comptabilite" ]}];
           "experiences_professionnelles" := VList
             [VDict {[ "periode" := VStr "2015-2020"; "poste" := VStr "Comptable";
                       "entreprise" := VStr "SIB"; "description" := VStr "Tenue des comptes";
                       "competences" := VList [VStr "Sage"] ]};
              VDict {[ "periode" := VStr "2014"; "poste" := VStr "";
                       "entreprise" := VStr "Stage"; "description" := VStr "";
                       "competences" := VStr "aucune" ]};
              VStr "divers" ] ]}.

Definition matching_reply : value :=
  VDict {[ "id" := VStr "M1203"; "code_rome" := VStr "M1203";
           "libelle" := VStr "Comptabilite"; "score" := VFloat (9 # 10) ]}.

Definition catalog_row : csv_row :=
  CsvRow {[ "code_rome" := VStr "M1203"; "libelle_rome" := VStr "Comptabilite" ]} None.

(** A world whose PDF library reads every payload as a two-page
    document.  [now]: the clock of the Category Matcher; [credential]:
    whether the API key is set and the service answers; [catalog]:
    whether the reference file exists. *)
Definition world (now : Q) (credential catalog : bool) : oracle := {|
  time_extraction := 10; time_openai_extraction := 11; time_matching := now;
  time_transformation := 13; time_chargement := 14;
  read_pdf := fun _ =>
    PdfDocument 2048 (Some [("Author", VStr "A. Kone"); ("Producer", VStr "pdflatex")])
                ["Comptable senior Abidjan"; "comptable depuis 2015"];
  OPENAI_API_KEY := if credential then Some "sk-test" else None;
  chat_extraction := fun _ _ => Ok (Some "extraction");
  chat_matching := fun _ _ _ _ _ => Ok (Some "matching");
  json_loads := fun content =>
    if String.eqb content "extraction" then Some extraction_reply
    else if String.eqb content "matching" then Some matching_reply
    else None;
  float_of := fun v =>
    match v with VFloat q => Some q | VInt z => Some (inject_Z z) | _ => None end;
  getmtime := if catalog then Some 50%Q else None;
  path_exists := catalog;
  getsize := if catalog then Some 4096%Z else None;
  read_csv := fun _ =>
    if catalog then CsvRows [catalog_row] else CsvFault "No such file or directory";
  uuid4 := "7b0c2f3e-0000-4000-8000-000000000001";
  str_of := fun _ => "<object>";
  CACHE_TTL := 3600
|}.

(** The experiences of [extraction_reply], as validation leaves them. *)
Definition validated_experiences : list value :=
  [VDict {[ "periode" := VStr "2015-2020"; "poste" := VStr "Comptable";
            "entreprise" := VStr "SIB"; "description" := VStr "Tenue des comptes";
            "competences" := VList [VStr "Sage"] ]};
   VDict {[ "periode" := VStr "2014"; "poste" := VStr "";
            "entreprise" := VStr "Stage"; "description" := VStr "";
            "competences" := VList [] ]}].

(** The registry as the endpoint leaves it before it starts the run. *)
Definition run_info : dict :=
  {[ "workflow_name" := VStr "default_workflow";
     "start_time" := VFloat 9;
     "status" := VStr "initializing";
     "input_data" := VDict {[ "pdf_filename" := VStr "cv.pdf";
                              "content_type" := VStr "application/pdf" ]} ]}.

Definition registered : gmap string dict := {[ "run-1" := run_info ]}.

(** A task that the engine fails to run. *)
Definition crashing_task : dict -> cache -> res dict * cache :=
  fun _ c => (Raise (Exn OtherError "task run crashed"), c).

(** No credential, no reference file. *)
Definition offline : oracle := world 12 false false.

(** The cache after a load of the reference file at time 100. *)
Definition loaded_cache : cache :=
  Cache [VDict {[ "id" := VStr "M1203"; "code_rome" := VStr "M1203";
                  "libelle" := VStr "Comptabilite"; "definition" := VStr "";
                  "appellations" := VList [] ]}] 100.

(** What [prepare_pdf_input_data] builds for an upload, with one extra
    key supplied by the caller. *)
Definition upload : dict :=
  {[ "pdf_filename" := VStr "cv.pdf";
     "pdf_content_b64" := VStr "JVBERi0xLjQK";
     "content_type" := VStr "application/pdf";
     "sentinel" := VInt 1 ]}.

(** What the Field Extractor returns for [upload] in [world 12 true true]. *)
Definition fields_record : dict :=
  spread_last
    {[ "openai_extracted" := VDict
         {[ "formations" := VList
              [VDict {[ "periode" := VStr "2010-2013";
                        "diplome" := VStr "BTS Comptabilite";
                        "etablissement" := VStr "";
                        "description" := VStr "" ]}];
            "experiences_professionnelles" := VList validated_experiences;
            "status" := VStr "success";
            "extraction_time" := VFloat 11 ]};
       "step" := VStr "openai_extraction";
       "success" := VBool true ]}
    (extraction (world 12 true true) upload).

(** A record that is not document-derived. *)
Definition plain : dict := {[ "initial" := VStr "data"; "sentinel" := VInt 1 ]}.

End Samples.

(** What a stage returned, read by key: nothing when it raised. *)
Definition field (r : res dict) (k : string) : option value :=
  match r with
  | Ok d => d !! k
  | Raise _ => None
  end.

(** An entry of a section of what a stage returned. *)
Definition subfield (r : res dict) (section k : string) : option value :=
  match field r section with
  | Some (VDict d) => d !! k
  | _ => None
  end.

Definition returns {A} (r : res A) : bool :=
  match r with Ok _ => true | Raise _ => false end.

(** A stage keeps the keys of its input when every record it returns
    has at least the keys of the record it was given. *)
Definition keeps_keys (stage : dict -> res dict) : Prop :=
  forall data out, stage data = Ok out -> dom data ⊆ dom out.

(** C3 as it is stated: of two calls less than the time-to-live apart,
    the second, finding a non-empty cache and a file not modified since
    the load, returns what the first returned and leaves the cache as it
    is. *)
Definition second_call_within_ttl_reuses_cache : Prop :=
  forall o1 o2 c0,
    CACHE_TTL o1 = CACHE_TTL o2 ->
    (time_matching o1 <= time_matching o2)%Q ->
    (time_matching o2 - time_matching o1 < inject_Z (CACHE_TTL o2))%Q ->
    let '(r1, c1) := get_metiers_reference o1 c0 in
    _metiers_cache c1 <> [] ->
    (default 0%Q (getmtime o2) <= _metiers_cache_timestamp c1)%Q ->
    get_metiers_reference o2 c1 = (r1, c1).

(** The reload fails: the file is missing, or no encoding reads it. *)
Definition load_fails (o : oracle) : Prop :=
  path_exists o = false
  \/ forall encoding rows, encoding ∈ encodings -> read_csv o encoding <> CsvRows rows.

(** C4 as it is stated: a failed reload returns the empty catalog and
    leaves the cache as it was. *)
Definition failed_reload_keeps_cache : Prop :=
  forall o c,
    cache_valid o (time_matching o) (default 0%Q (getmtime o)) c = false ->
    load_fails o ->
    get_metiers_reference o c = ([], c).

(** The five tasks alone, without the registry: each is given what the
    previous one returned, and the first exception ends the chain. *)
Definition run_tasks {S : Type}
    (extraction_task openai_extraction_task openai_matching_task
     transformation_task chargement_task : dict -> S -> res dict * S)
    (input_data : option dict) (s : S) : res dict * S :=
  let input_data := default ({[ "initial" := VStr "data" ]} : dict) input_data in
  match extraction_task input_data s with
  | (Raise e, s) => (Raise e, s)
  | (Ok data, s) =>
  match openai_extraction_task data s with
  | (Raise e, s) => (Raise e, s)
  | (Ok data, s) =>
  match openai_matching_task data s with
  | (Raise e, s) => (Raise e, s)
  | (Ok data, s) =>
  match transformation_task data s with
  | (Raise e, s) => (Raise e, s)
  | (Ok data, s) => chargement_task data s
  end end end end.

(** A record carries every field of a schema. *)
Definition complete_record (schema : list string) (record : value) : bool :=
  match record with
  | VDict r => forallb (has_key r) schema
  | _ => false
  end.

(** C6 as it is stated: the validated lists hold one record for each
    input record that carries every required field, and none for the
    others. *)
Definition only_complete_records_kept : Prop :=
  forall records,
    (forall out, _validate_formations (VList records) = Ok out ->
                 length out = length (filter (fun r => complete_record FORMATION_SCHEMA r = true) records))
    /\ (forall out, _validate_experiences (VList records) = Ok out ->
                    length out = length (filter (fun r => complete_record EXPERIENCE_SCHEMA r = true) records)).

(** What validation makes of a record: nothing of an object that is not
    a mapping; of a mapping, the required fields, each with its value or
    with its default. *)
Definition formation_with_defaults (record : value) : option value :=
  match record with
  | VDict f =>
      Some (VDict {[ "periode" := dict_get f "periode" (VStr "");
                     "diplome" := dict_get f "diplome" (VStr "");
                     "etablissement" := dict_get f "etablissement" (VStr "");
                     "description" := dict_get f "description" (VStr "") ]})
  | _ => None
  end.

Definition experience_with_defaults (record : value) : option value :=
  match record with
  | VDict e =>
      Some (VDict {[ "periode" := dict_get e "periode" (VStr "");
                     "poste" := dict_get e "poste" (VStr "");
                     "entreprise" := dict_get e "entreprise" (VStr "");
                     "description" := dict_get e "description" (VStr "");
                     "competences" :=
                       match e !! "competences" with
                       | Some (VList c) => VList c
                       | _ => VList []
                       end ]})
  | _ => None
  end.

(** An experience has a title when its [poste] passes the test
    [if not poste]. *)
Definition has_title (experience : value) : bool :=
  match experience with
  | VDict e => truthy (dict_get e "poste" VNone)
  | _ => false
  end.

(** The [poste] of an experience, or of an entry of [metiers_matches]. *)
Definition title_of (record : value) : option value :=
  match record with
  | VDict r => r !! "poste"
  | _ => None
  end.

(** The entry the Category Matcher appends for an experience with a
    title: the title and what the matching call returned. *)
Definition entry_of (o : oracle) (metiers : list value) (experience : value) : value :=
  match experience with
  | VDict e =>
      let poste := dict_get e "poste" VNone in
      VDict {[ "poste" := poste;
               "matches" := VList
                 match find_matching_metiers_openai o poste
                         (dict_get e "entreprise" (VStr ""))
                         (dict_get e "description" (VStr "")) metiers with
                 | Ok matches => matches
                 | Raise _ => []
                 end ]}
  | _ => VNone
  end.

(** C7 as it is stated: whenever the Field Extractor returns at least
    one experience, the Category Matcher returns one entry for each
    experience with a title, in order. *)
Definition matcher_lists_every_titled_experience : Prop :=
  forall o c data experiences,
    let with_fields := openai_extraction o (extraction o data) in
    subfield with_fields "openai_extracted" "experiences_professionnelles"
    = Some (VList experiences) ->
    experiences <> [] ->
    exists entries,
      subfield (d ← with_fields; (openai_matching o c d).1)
               "openai_matching" "metiers_matches" = Some (VList entries)
      /\ title_of <$> entries = title_of <$> List.filter has_title experiences.


(** ** More sample worlds *)

Module MoreSamples.

(** A world like [Samples.world 12 true true] whose PDF library rejects
    every payload. *)
Definition garbled : oracle :=
  let w := Samples.world 12 true true in
  {| time_extraction := time_extraction w;
     time_openai_extraction := time_openai_extraction w;
     time_matching := time_matching w;
     time_transformation := time_transformation w;
     time_chargement := time_chargement w;
     read_pdf := fun _ => PdfFault "EOF marker not found";
     OPENAI_API_KEY := OPENAI_API_KEY w;
     chat_extraction := chat_extraction w;
     chat_matching := chat_matching w;
     json_loads := json_loads w;
     float_of := float_of w;
     getmtime := getmtime w;
     path_exists := path_exists w;
     getsize := getsize w;
     read_csv := read_csv w;
     uuid4 := uuid4 w;
     str_of := str_of w;
     CACHE_TTL := CACHE_TTL w |}.

(** A world like [Samples.offline] whose environment file still holds
    the placeholder of the API key. *)
Definition unconfigured : oracle :=
  let w := Samples.offline in
  {| time_extraction := time_extraction w;
     time_openai_extraction := time_openai_extraction w;
     time_matching := time_matching w;
     time_transformation := time_transformation w;
     time_chargement := time_chargement w;
     read_pdf := read_pdf w;
     OPENAI_API_KEY := Some PLACEHOLDER_API_KEY;
     chat_extraction := chat_extraction w;
     chat_matching := chat_matching w;
     json_loads := json_loads w;
     float_of := float_of w;
     getmtime := getmtime w;
     path_exists := path_exists w;
     getsize := getsize w;
     read_csv := read_csv w;
     uuid4 := uuid4 w;
     str_of := str_of w;
     CACHE_TTL := CACHE_TTL w |}.

(** A first row with one cell more than the header. *)
Definition ragged_row : csv_row :=
  CsvRow {[ "code_rome" := VStr "K1801"; "libelle_rome" := VStr "Conseil en emploi" ]}
         (Some ["surplus"]).

(** A world like [Samples.world 12 true true] whose reference file is
    not valid UTF-8 and has that first row. *)
Definition ragged : oracle :=
  let w := Samples.world 12 true true in
  {| time_extraction := time_extraction w;
     time_openai_extraction := time_openai_extraction w;
     time_matching := time_matching w;
     time_transformation := time_transformation w;
     time_chargement := time_chargement w;
     read_pdf := read_pdf w;
     OPENAI_API_KEY := OPENAI_API_KEY w;
     chat_extraction := chat_extraction w;
     chat_matching := chat_matching w;
     json_loads := json_loads w;
     float_of := float_of w;
     getmtime := getmtime w;
     path_exists := path_exists w;
     getsize := getsize w;
     read_csv := fun encoding =>
       if String.eqb encoding "utf-8"
       then UnicodeDecodeError "'utf-8' codec can't decode byte 0xe9"
       else CsvRows [ragged_row; Samples.catalog_row];
     uuid4 := uuid4 w;
     str_of := str_of w;
     CACHE_TTL := CACHE_TTL w |}.

End MoreSamples.

(** ** Successive calls of the catalog cache *)

(** The calls of [get_metiers_reference] made one after the other, each
    in the world it finds: what each returns, and the cache at the end. *)
Fixpoint get_metiers_reference_calls (worlds : list oracle) (c : cache)
    : list (list value) * cache :=
  match worlds with
  | [] => ([], c)
  | o :: rest =>
      let '(r, c1) := get_metiers_reference o c in
      let '(rs, c2) := get_metiers_reference_calls rest c1 in
      (r :: rs, c2)
  end.

(** ** app/utils/pdf_utils.py *)

Module PdfUtils.

(** What the endpoints take from their host: the Base64 encoder, what
    [dict.update] makes of an argument that is not a mapping, the
    identifier drawn for the request and the clock at the registration
    and at the reply. *)
Record host := {
  b64encode : string -> string;
  update_with : dict -> value -> res dict;
  request_uuid : string;
  time_of_request : Q;
  time_of_reply : Q
}.

Definition prepare_pdf_input_data (h : host) (o : oracle)
    (pdf_content filename content_type : string) (additional_data : option string)
    : res dict :=
  let pdf_content_b64 := b64encode h pdf_content in
  let input_data : dict :=
    {[ "pdf_filename" := VStr filename;
       "pdf_content_b64" := VStr pdf_content_b64;
       "content_type" := VStr content_type ]} in
  match additional_data with
  | None => Ok input_data
  | Some text =>
      if String.eqb text "" then Ok input_data
      else
        match json_loads o text with
        | None => Ok (<["additional_data" := VStr text]> input_data)
        | Some (VDict additional_json) => Ok (additional_json ∪ input_data)
        | Some other => update_with h input_data other
        end
  end.

End PdfUtils.
Import PdfUtils.

(** ** app/api/workflow_endpoints.py *)

Module WorkflowEndpoints.

(** How a request ends: a reply, an [HTTPException], or an exception
    that the endpoint does not handle. *)
Inductive http (A : Type) : Type :=
| Reply (a : A)
| HTTPException (status_code : Z) (detail : string)
| Unhandled (e : exn).
Arguments Reply {A} a.
Arguments HTTPException {A} status_code detail.
Arguments Unhandled {A} e.

Record upload_file := {
  filename : option string;
  content_type : option string;
  file_content : string
}.

(** [not pdf_file.filename or not pdf_file.content_type], negated *)
Definition named_upload (pdf_file : upload_file) : option (string * string) :=
  match filename pdf_file, content_type pdf_file with
  | Some name, Some type =>
      if String.eqb name "" || String.eqb type "" then None else Some (name, type)
  | _, _ => None
  end.

(** The entry stored for a run at its submission. *)
Definition new_entry (h : host) (workflow_name name type : string) : dict :=
  {[ "workflow_name" := VStr workflow_name;
     "start_time" := VFloat (time_of_request h);
     "status" := VStr "initializing";
     "input_data" := VDict {[ "pdf_filename" := VStr name; "content_type" := VStr type ]} ]}.

(** [active_workflows[workflow_id][field]] *)
Definition entry_field (reg : gmap string dict) (workflow_id field : string) : res value :=
  match reg !! workflow_id with
  | None => Raise (Exn KeyError ("'" ++ workflow_id ++ "'"))
  | Some info =>
      match info !! field with
      | None => Raise (Exn KeyError ("'" ++ field ++ "'"))
      | Some v => Ok v
      end
  end.

(** [workflow_id in active_workflows] *)
Definition is_registered (reg : gmap string dict) (workflow_id : string) : bool :=
  match reg !! workflow_id with Some _ => true | None => false end.

(** [time.time() - start_time] *)
Definition elapsed (now : Q) (start_time : value) : res value :=
  match start_time with
  | VFloat t => Ok (VFloat (now - t))
  | VInt z => Ok (VFloat (now - inject_Z z))
  | VBool b => Ok (VFloat (now - (if b then 1 else 0)))
  | _ => Raise (Exn TypeError
                  ("unsupported operand type(s) for -: 'float' and '"
                     ++ type_name start_time ++ "'"))
  end.

Definition run_workflow_sync (h : host) (o : oracle)
    (workflow_name : string) (pdf_file : upload_file) (additional_data : option string)
    (p : process cache) : http dict * process cache :=
  let workflow_id := request_uuid h in
  match named_upload pdf_file with
  | None =>
      (HTTPException 400 "Le fichier PDF doit avoir un nom et un type de contenu valides", p)
  | Some (name, type) =>
      match prepare_pdf_input_data h o (file_content pdf_file) name type additional_data with
      | Raise e => (Unhandled e, p)
      | Ok input_data =>
          let p1 :=
            Process (<[workflow_id := new_entry h workflow_name name type]>
                       (active_workflows p)) (task_state p) in
          let '(outcome, p2) := workflow_process o workflow_id (Some input_data) p1 in
          let attempt :=
            result ← outcome;
            start_time ← entry_field (active_workflows p2) workflow_id "start_time";
            execution_time ← elapsed (time_of_reply h) start_time;
            status ← entry_field (active_workflows p2) workflow_id "status";
            Ok (<["workflow_info" := VDict
                    {[ "workflow_id" := VStr workflow_id;
                       "workflow_name" := VStr workflow_name;
                       "execution_time" := execution_time;
                       "status" := status ]}]> result) in
          match attempt with
          | Ok result => (Reply result, p2)
          | Raise e =>
              match (if is_registered (active_workflows p2) workflow_id
                     then entry_field (active_workflows p2) workflow_id "status"
                     else Ok (VStr "failed")) with
              | Ok status =>
                  (Reply {[ "error" := VStr (str_of_exn e);
                            "workflow_id" := VStr workflow_id;
                            "workflow_name" := VStr workflow_name;
                            "status" := status ]}, p2)
              | Raise e' => (Unhandled e', p2)
              end
          end
      end
  end.

(** [run_workflow] up to its reply: the run is registered and its
    execution is left to a background task. *)
Definition run_workflow (h : host) (o : oracle)
    (workflow_name : string) (pdf_file : upload_file) (additional_data : option string)
    (p : process cache) : http dict * process cache :=
  let workflow_id := request_uuid h in
  match named_upload pdf_file with
  | None =>
      (HTTPException 400 "Le fichier PDF doit avoir un nom et un type de contenu valides", p)
  | Some (name, type) =>
      match prepare_pdf_input_data h o (file_content pdf_file) name type additional_data with
      | Raise e => (Unhandled e, p)
      | Ok input_data =>
          (Reply {[ "status" := VStr "Workflow lancé";
                    "workflow_name" := VStr workflow_name;
                    "workflow_id" := VStr workflow_id ]},
           Process (<[workflow_id := new_entry h workflow_name name type]>
                      (active_workflows p)) (task_state p))
      end
  end.

(** The background task of [run_workflow]: the flow, its exception
    dropped. *)
Definition execute_workflow (o : oracle) (workflow_id : string) (input_data : dict)
    (p : process cache) : process cache :=
  (workflow_process o workflow_id (Some input_data) p).2.

Definition get_workflow_status (workflow_id : string) (reg : gmap string dict) : http dict :=
  if is_registered reg workflow_id
  then
    match (status ← entry_field reg workflow_id "status";
           workflow_name ← entry_field reg workflow_id "workflow_name";
           start_time ← entry_field reg workflow_id "start_time";
           Ok ({[ "workflow_id" := VStr workflow_id;
                  "status" := status;
                  "workflow_name" := workflow_name;
                  "start_time" := start_time ]} : dict)) with
    | Ok reply => Reply reply
    | Raise e => Unhandled e
    end
  else HTTPException 404 ("Workflow non trouvé: " ++ workflow_id).

End WorkflowEndpoints.
Import WorkflowEndpoints.

(** ** A sample host and upload *)

Module EndpointSamples.

Definition server : host :=
  {| b64encode := fun content => "JVBERi0xLjQK";
     update_with := fun _ other =>
       Raise (Exn TypeError ("'" ++ type_name other ++ "' object is not iterable"));
     request_uuid := "7d1c5b52-3f0e-4a3b-9a51-0c2f6d8e4b17";
     time_of_request := 10;
     time_of_reply := 17 |}.

Definition cv : upload_file :=
  {| filename := Some "cv.pdf";
     content_type := Some "application/pdf";
     file_content := "%PDF-1.4" |}.

(** What [prepare_pdf_input_data] makes of [cv] alone. *)
Definition cv_input : dict :=
  {[ "pdf_filename" := VStr "cv.pdf";
     "pdf_content_b64" := VStr "JVBERi0xLjQK";
     "content_type" := VStr "application/pdf" ]}.

End EndpointSamples.

(** * Properties *)

Ltac unbind := unfold mbind, res_bind, mret, res_ret, try_except in *.

(** ** Dictionaries *)

Lemma spread_last_lookup_data (literal data : dict) k v :
  data !! k = Some v -> spread_last literal data !! k = Some v.
Proof. intros H. unfold spread_last. by apply lookup_union_Some_l. Qed.

Lemma spread_last_lookup_literal (literal data : dict) k :
  data !! k = None -> spread_last literal data !! k = literal !! k.
Proof. intros H. unfold spread_last. by rewrite lookup_union_r. Qed.

Lemma spread_last_dom (literal data : dict) :
  dom (spread_last literal data) = dom data ∪ dom literal.
Proof. unfold spread_last. by rewrite dom_union_L. Qed.

Lemma has_key_true (d : dict) k : has_key d k = true <-> is_Some (d !! k).
Proof.
  unfold has_key. destruct (d !! k) as [v|]; split; intros H.
  - by exists v.
  - done.
  - done.
  - by destruct H.
Qed.

Lemma has_key_false (d : dict) k : has_key d k = false <-> d !! k = None.
Proof. unfold has_key. destruct (d !! k); split; intros H; done. Qed.

(** ** The stages that spread their input *)

Lemma openai_extraction_spreads o data out :
  openai_extraction o data = Ok out ->
  exists section success,
    out = spread_last
            {[ "openai_extracted" := VDict section;
               "step" := VStr "openai_extraction";
               "success" := VBool success ]} data.
Proof.
  unfold openai_extraction, _create_error_response. intros H.
  destruct (_ || _).
  { injection H as <-. eauto. }
  destruct (py_get _ _ _) as [text|e]; unbind; [|done].
  destruct (negb (truthy text)).
  { injection H as <-. eauto. }
  destruct (key_missing _).
  { injection H as <-. eauto. }
  destruct (_perform_openai_extraction _ _ _); injection H as <-; eauto.
Qed.

Lemma openai_matching_spreads o c data out :
  (openai_matching o c data).1 = Ok out ->
  exists section success,
    out = spread_last
            {[ "openai_matching" := VDict section;
               "step" := VStr "openai_matching";
               "success" := VBool success ]} data.
Proof.
  unfold openai_matching, matching_error, matching_response. intros H.
  destruct (_ || _); simpl in H.
  { injection H as <-. eauto. }
  destruct (py_get _ _ _) as [experiences|e]; simpl in H; [|done].
  destruct (negb (truthy experiences)); simpl in H.
  { injection H as <-. eauto. }
  destruct (get_metiers_reference o c) as [metiers c']. 
  destruct metiers as [|m ms]; simpl in H.
  { injection H as <-. eauto. }
  unbind.
  destruct (py_iter experiences) as [items|e]; [|injection H as <-; eauto].
  destruct (match_experiences _ _ _) as [entries|e]; [|injection H as <-; eauto].
  destruct (log_matches _); injection H as <-; eauto.
Qed.

(** The entries of the input win over the literal ones. *)
Lemma openai_extraction_keeps_entry o data out k v :
  data !! k = Some v -> openai_extraction o data = Ok out -> out !! k = Some v.
Proof.
  intros Hk H. apply openai_extraction_spreads in H as (section & success & ->).
  by apply spread_last_lookup_data.
Qed.

Lemma openai_matching_keeps_entry o c data out k v :
  data !! k = Some v -> (openai_matching o c data).1 = Ok out -> out !! k = Some v.
Proof.
  intros Hk H. apply openai_matching_spreads in H as (section & success & ->).
  by apply spread_last_lookup_data.
Qed.

Lemma keeps_keys_refuted stage (data : dict) k v :
  data !! k = Some v -> returns (stage data) = true -> field (stage data) k = None ->
  ~ keeps_keys stage.
Proof.
  intros Hin Hret Hout K. destruct (stage data) as [out|e] eqn:E; [|done].
  simpl in Hout. apply not_elem_of_dom in Hout. apply Hout.
  apply (K _ _ E). apply elem_of_dom. by exists v.
Qed.

(** C1, as stated, fails: the Text Extractor, the Transformer and the
    Loader each return a fresh record.  A sentinel key of the input is
    absent from what they return. *)
Lemma fresh_record_stages_drop_keys :
  ~ keeps_keys (fun data => Ok (extraction Samples.offline data))
  /\ ~ keeps_keys (transformation Samples.offline)
  /\ ~ keeps_keys (chargement Samples.offline).
Proof.
  split; [|split].
  - apply (keeps_keys_refuted (fun data => Ok (extraction Samples.offline data))
             Samples.upload "sentinel" (VInt 1)); vm_compute; reflexivity.
  - apply (keeps_keys_refuted (transformation Samples.offline)
             Samples.plain "sentinel" (VInt 1)); vm_compute; reflexivity.
  - apply (keeps_keys_refuted (chargement Samples.offline)
             Samples.plain "sentinel" (VInt 1)); vm_compute; reflexivity.
Qed.

(** C1, amended: the Field Extractor and the Category Matcher spread
    their input over the record they return, so whenever one of them
    returns, every key of its input is a key of its output. *)
Theorem enrichment_stages_keep_keys o c data out :
  openai_extraction o data = Ok out \/ (openai_matching o c data).1 = Ok out ->
  dom data ⊆ dom out.
Proof.
  intros [H|H].
  - apply openai_extraction_spreads in H as (section & success & ->).
    rewrite spread_last_dom. set_solver.
  - apply openai_matching_spreads in H as (section & success & ->).
    rewrite spread_last_dom. set_solver.
Qed.

Lemma enrichment_stages_keep_keys_witness :
  dom (extraction Samples.offline Samples.upload)
  ⊆ dom (_create_error_response ERROR_API_KEY_MISSING
           (extraction Samples.offline Samples.upload)).
Proof.
  apply (enrichment_stages_keep_keys Samples.offline cache_at_import).
  left. reflexivity.
Defined.

(** C2 at the record the Text Extractor returns for an upload: it
    carries [step = "extraction"], and so do the records the Field
    Extractor and the Category Matcher return for it, although each
    writes its own name first. *)
Lemma openai_stages_report_the_input_step :
  let extracted := extraction Samples.offline Samples.upload in
  let with_fields := openai_extraction Samples.offline extracted in
  let with_matches :=
    data ← with_fields; (openai_matching Samples.offline cache_at_import data).1 in
  extracted !! "step" = Some (VStr "extraction")
  /\ field with_fields "step" = Some (VStr "extraction")
  /\ field with_matches "step" = Some (VStr "extraction").
Proof. repeat split; vm_compute; reflexivity. Qed.

(** ** The reference catalog cache *)

Lemma Qlt_bool_iff x y : Qlt_bool x y = true <-> (x < y)%Q.
Proof.
  unfold Qlt_bool. rewrite negb_true_iff. split.
  - intros H. apply Qnot_le_lt. intros Hle. apply Qle_bool_iff in Hle. congruence.
  - intros H. destruct (Qle_bool y x) eqn:E; [|done].
    apply Qle_bool_iff in E. exfalso. by apply (Qlt_not_le _ _ H).
Qed.

Lemma Qle_bool_false x y : Qle_bool x y = false <-> (y < x)%Q.
Proof.
  split.
  - intros H. apply Qnot_le_lt. intros Hle. apply Qle_bool_iff in Hle. congruence.
  - intros H. destruct (Qle_bool x y) eqn:E; [|done].
    apply Qle_bool_iff in E. exfalso. by apply (Qlt_not_le _ _ H).
Qed.

Lemma cache_valid_true o now mtime c :
  cache_valid o now mtime c = true <->
  _metiers_cache c <> []
  /\ (now - _metiers_cache_timestamp c < inject_Z (CACHE_TTL o))%Q
  /\ (mtime <= _metiers_cache_timestamp c)%Q.
Proof.
  unfold cache_valid. rewrite !andb_true_iff, Qlt_bool_iff, Qle_bool_iff.
  destruct (_metiers_cache c) as [|m ms]; simpl.
  - split; [intros [[H _] _]; discriminate | intros [H _]; by destruct H].
  - split; [intros [[_ H1] H2]; by repeat split | intros (_ & H1 & H2); by repeat split].
Qed.

(** Whatever a call finds, it returns the list it leaves in the cache. *)
Lemma get_metiers_reference_returns_cache o c :
  (get_metiers_reference o c).1 = _metiers_cache (get_metiers_reference o c).2.
Proof. unfold get_metiers_reference. by destruct (cache_valid _ _ _ _). Qed.

(** A call that loads stamps the cache with its own time. *)
Lemma get_metiers_reference_reload o c :
  cache_valid o (time_matching o) (default 0%Q (getmtime o)) c = false ->
  get_metiers_reference o c
  = (load_metiers_reference o, Cache (load_metiers_reference o) (time_matching o)).
Proof. unfold get_metiers_reference. by intros ->. Qed.

Lemma get_metiers_reference_hit o c :
  cache_valid o (time_matching o) (default 0%Q (getmtime o)) c = true ->
  get_metiers_reference o c = (_metiers_cache c, c).
Proof. unfold get_metiers_reference. by intros ->. Qed.

(** C3, as stated, fails: the age of the cache is counted from its load,
    not from the previous call.  A cache loaded at time 100 serves a call
    at time 3000; a call at time 4000, 1000 seconds later, reloads it. *)
Lemma ttl_counts_from_the_load : ~ second_call_within_ttl_reuses_cache.
Proof.
  intros K.
  specialize (K (Samples.world 3000 true true) (Samples.world 4000 true true)
                Samples.loaded_cache eq_refl).
  assert (H1 : (3000 <= 4000)%Q) by (by vm_compute).
  assert (H2 : (4000 - 3000 < inject_Z 3600)%Q) by (by vm_compute).
  specialize (K H1 H2).
  rewrite get_metiers_reference_hit in K by (by vm_compute).
  assert (H3 : (default 0%Q (Some 50%Q) <= 100)%Q) by (by vm_compute).
  specialize (K ltac:(done) H3).
  rewrite get_metiers_reference_reload in K by (by vm_compute).
  by injection K.
Qed.

(** C3, amended: the time-to-live runs from the load timestamp of the
    cache.  After a first call, a second call that finds a non-empty
    cache less than the time-to-live after its load timestamp, and a
    file whose modification time is not newer than that timestamp,
    returns the list the first call returned and leaves the cache as it
    is; in particular when the first call loaded the file and the second
    comes less than the time-to-live after the first.  A second call
    that finds a modification time newer than the load timestamp loads
    the file again and stamps the cache with its own time, whatever the
    age of the cache. *)
Theorem cache_reused_within_ttl_of_load o1 o2 c0 :
  let r1 := (get_metiers_reference o1 c0).1 in
  let c1 := (get_metiers_reference o1 c0).2 in
  (r1 <> [] ->
   (time_matching o2 - _metiers_cache_timestamp c1 < inject_Z (CACHE_TTL o2))%Q ->
   (default 0%Q (getmtime o2) <= _metiers_cache_timestamp c1)%Q ->
   get_metiers_reference o2 c1 = (r1, c1))
  /\ (cache_valid o1 (time_matching o1) (default 0%Q (getmtime o1)) c0 = false ->
      r1 <> [] ->
      (time_matching o2 - time_matching o1 < inject_Z (CACHE_TTL o2))%Q ->
      (default 0%Q (getmtime o2) <= time_matching o1)%Q ->
      get_metiers_reference o2 c1 = (r1, c1))
  /\ ((_metiers_cache_timestamp c1 < default 0%Q (getmtime o2))%Q ->
      get_metiers_reference o2 c1
      = (load_metiers_reference o2,
         Cache (load_metiers_reference o2) (time_matching o2))).
Proof.
  intros r1 c1.
  assert (Hhit : r1 <> [] ->
    (time_matching o2 - _metiers_cache_timestamp c1 < inject_Z (CACHE_TTL o2))%Q ->
    (default 0%Q (getmtime o2) <= _metiers_cache_timestamp c1)%Q ->
    get_metiers_reference o2 c1 = (r1, c1)).
  { intros Hne Hage Hmtime. subst r1 c1.
    rewrite get_metiers_reference_returns_cache in *.
    apply get_metiers_reference_hit, cache_valid_true. done. }
  split; [exact Hhit|split].
  - intros Hload Hne Hage Hmtime. apply Hhit; [done| |];
      subst c1; rewrite (get_metiers_reference_reload _ _ Hload); simpl; done.
  - intros Hnewer. apply get_metiers_reference_reload.
    destruct (cache_valid _ _ _ c1) eqn:E; [|done].
    apply cache_valid_true in E as (_ & _ & Hle).
    exfalso. by apply (Qlt_not_le _ _ Hnewer).
Qed.

Lemma cache_reused_within_ttl_of_load_witness :
  (* a cache loaded at 100 serves the calls at 200 and at 3000 *)
  get_metiers_reference (Samples.world 3000 true true)
    (get_metiers_reference (Samples.world 200 true true) Samples.loaded_cache).2
  = ((get_metiers_reference (Samples.world 200 true true) Samples.loaded_cache).1,
     (get_metiers_reference (Samples.world 200 true true) Samples.loaded_cache).2)
  (* the call at 200 loads, the call at 3000 is served from the cache *)
  /\ get_metiers_reference (Samples.world 3000 true true)
       (get_metiers_reference (Samples.world 200 true true) cache_at_import).2
     = ((get_metiers_reference (Samples.world 200 true true) cache_at_import).1,
        (get_metiers_reference (Samples.world 200 true true) cache_at_import).2)
  (* the file, modified at 50, is newer than a cache stamped 30 *)
  /\ get_metiers_reference (Samples.world 40 true true)
       (get_metiers_reference (Samples.world 30 true true) cache_at_import).2
     = (load_metiers_reference (Samples.world 40 true true),
        Cache (load_metiers_reference (Samples.world 40 true true)) 40).
Proof.
  split; [|split].
  - apply (proj1 (cache_reused_within_ttl_of_load
                    (Samples.world 200 true true) (Samples.world 3000 true true) Samples.loaded_cache));
      by vm_compute.
  - apply (proj1 (proj2 (cache_reused_within_ttl_of_load
                           (Samples.world 200 true true) (Samples.world 3000 true true) cache_at_import)));
      by vm_compute.
  - apply (proj2 (proj2 (cache_reused_within_ttl_of_load
                           (Samples.world 30 true true) (Samples.world 40 true true) cache_at_import))).
    by vm_compute.
Defined.

Lemma read_with_fails o encs :
  (forall encoding rows, encoding ∈ encs -> read_csv o encoding <> CsvRows rows) ->
  read_with o encs = [].
Proof.
  induction encs as [|encoding rest IH]; intros H; simpl; [done|].
  destruct (read_csv o encoding) as [msg|msg|rows] eqn:E.
  - apply IH. intros enc rows Hin. apply H. by right.
  - apply IH. intros enc rows Hin. apply H. by right.
  - exfalso. apply (H encoding rows); [by left|done].
Qed.

Lemma load_fails_empty o : load_fails o -> load_metiers_reference o = [].
Proof.
  unfold load_metiers_reference. intros [H|H].
  - by rewrite H.
  - destruct (negb (path_exists o)); [done|].
    destruct (getsize o); [|done]. by rewrite (read_with_fails _ _ H).
Qed.

(** C4, as stated, fails: a failed reload writes the empty list over the
    cache.  The cache loaded at time 100 has expired at time 5000 and
    the file is gone: the call returns the empty list and the loaded
    catalog is no longer in the cache. *)
Lemma failed_reload_destroys_cache : ~ failed_reload_keeps_cache.
Proof.
  intros K.
  specialize (K (Samples.world 5000 false false) Samples.loaded_cache).
  rewrite get_metiers_reference_reload in K by (by vm_compute).
  assert (H : ([] : list value, Cache [] 5000) = ([], Samples.loaded_cache));
    [|by injection H].
  apply K; [by vm_compute|by left].
Qed.

(** C4, amended: when a reload fails (the file is missing, or no
    encoding reads it), the caller receives the empty list, and the
    cache holds the empty list stamped with the time of the call,
    whatever it held before; an empty cache is never valid, so the next
    call loads again. *)
Theorem failed_reload_empties_cache o c :
  cache_valid o (time_matching o) (default 0%Q (getmtime o)) c = false ->
  load_fails o ->
  get_metiers_reference o c = ([], Cache [] (time_matching o))
  /\ forall o', cache_valid o' (time_matching o') (default 0%Q (getmtime o'))
                           (get_metiers_reference o c).2 = false.
Proof.
  intros Hinvalid Hfail.
  rewrite (get_metiers_reference_reload _ _ Hinvalid), (load_fails_empty _ Hfail).
  split; [done|]. intros o'. reflexivity.
Qed.

Lemma failed_reload_empties_cache_witness :
  get_metiers_reference (Samples.world 5000 false false) Samples.loaded_cache
  = ([], Cache [] 5000).
Proof.
  apply (failed_reload_empties_cache (Samples.world 5000 false false) Samples.loaded_cache).
  - by vm_compute.
  - by left.
Defined.

(** ** The orchestrator *)

Section FlowFacts.

Context {S : Type}.

Lemma set_field_registered wid field v (reg : gmap string dict) (s : S) info :
  reg !! wid = Some info ->
  set_field wid field v (Process reg s)
  = (Ok (), Process (<[wid := <[field := v]> info]> reg) s).
Proof. intros H. unfold set_field. simpl. by rewrite H. Qed.

Lemma set_field_inserted wid field v (reg : gmap string dict) (s : S) info :
  set_field wid field v (Process (<[wid := info]> reg) s)
  = (Ok (), Process (<[wid := <[field := v]> info]> reg) s).
Proof.
  rewrite (set_field_registered _ _ _ _ _ info) by apply lookup_insert_eq.
  by rewrite insert_insert_eq.
Qed.

End FlowFacts.

Ltac flow_step :=
  rewrite ?set_field_inserted; cbn [active_workflows task_state];
  rewrite ?insert_insert_eq.

(** C5.  For a registered run, whatever the five tasks do: when one of
    them raises, the flow raises the same exception and leaves the run
    with status "failed" and the text of the exception as its error;
    when none does, the flow returns what the Loader returned and leaves
    the run with status "completed".  In both cases the tasks have run
    in order, each on the output of the previous one. *)
Theorem workflow_process_outcome {S : Type}
    (extraction_task openai_extraction_task openai_matching_task
     transformation_task chargement_task : dict -> S -> res dict * S)
    workflow_id input_data (reg : gmap string dict) (s : S) info :
  reg !! workflow_id = Some info ->
  workflow_process_with extraction_task openai_extraction_task openai_matching_task
                        transformation_task chargement_task
                        workflow_id input_data (Process reg s)
  = match run_tasks extraction_task openai_extraction_task openai_matching_task
                    transformation_task chargement_task input_data s with
    | (Ok result, s') =>
        (Ok result,
         Process (<[workflow_id := <["status" := VStr "completed"]> info]> reg) s')
    | (Raise e, s') =>
        (Raise e,
         Process (<[workflow_id := <["error" := VStr (str_of_exn e)]>
                                     (<["status" := VStr "failed"]> info)]> reg) s')
    end.
Proof.
  intros Hreg.
  unfold workflow_process_with, workflow_body, run_tasks.
  unfold mbind, run_bind, mret, run_ret, call.
  rewrite (set_field_registered _ _ _ _ _ _ Hreg). cbn [active_workflows task_state].
  destruct (extraction_task _ s) as [[d1|e] s1]; flow_step; [|done].
  destruct (openai_extraction_task d1 s1) as [[d2|e] s2]; flow_step; [|done].
  destruct (openai_matching_task d2 s2) as [[d3|e] s3]; flow_step; [|done].
  destruct (transformation_task d3 s3) as [[d4|e] s4]; flow_step; [|done].
  destruct (chargement_task d4 s4) as [[d5|e] s5]; flow_step; done.
Qed.

Lemma workflow_process_outcome_witness :
  let completed :=
    workflow_process Samples.offline "run-1" (Some Samples.upload)
                     (Process Samples.registered cache_at_import) in
  let failed :=
    workflow_process_with
      (fun data c => (Ok (extraction Samples.offline data), c))
      (fun data c => (openai_extraction Samples.offline data, c))
      (fun data c => openai_matching Samples.offline c data)
      Samples.crashing_task
      (fun data c => (chargement Samples.offline data, c))
      "run-1" (Some Samples.upload) (Process Samples.registered cache_at_import) in
  (field completed.1 "step" = Some (VStr "load_complete")
   /\ (active_workflows completed.2 !! "run-1") ≫= (.!! "status")
      = Some (VStr "completed"))
  /\ (failed.1 = Raise (Exn OtherError "task run crashed")
      /\ (active_workflows failed.2 !! "run-1") ≫= (.!! "status") = Some (VStr "failed")
      /\ (active_workflows failed.2 !! "run-1") ≫= (.!! "error")
         = Some (VStr "task run crashed")).
Proof.
  intros completed failed. subst completed failed. unfold workflow_process.
  rewrite !(workflow_process_outcome _ _ _ _ _ "run-1" (Some Samples.upload)
              Samples.registered cache_at_import Samples.run_info
              (lookup_singleton_eq _ _)).
  repeat split; vm_compute; reflexivity.
Defined.

(** ** Validation of the service reply *)

Lemma validate_formation_defaults record :
  validate_formation record = option_list (formation_with_defaults record).
Proof. destruct record; try done. Qed.

Lemma validate_experience_defaults record :
  validate_experience record = option_list (experience_with_defaults record).
Proof.
  destruct record as [| | | | | |e]; try done.
  unfold validate_experience, experience_with_defaults, dict_get.
  destruct (e !! "competences") as [[]|]; done.
Qed.

Lemma concat_option_list {A B} (f : A -> option B) (l : list A) :
  concat (option_list <$> (f <$> l)) = omap f l.
Proof.
  induction l as [|x l IH]; [done|].
  rewrite !fmap_cons. cbn [concat]. rewrite IH. cbn [omap list_omap].
  by destruct (f x).
Qed.

Lemma formation_with_defaults_complete record out :
  formation_with_defaults record = Some out -> complete_record FORMATION_SCHEMA out = true.
Proof. destruct record; try done. intros [= <-]. done. Qed.

Lemma experience_with_defaults_complete record out :
  experience_with_defaults record = Some out -> complete_record EXPERIENCE_SCHEMA out = true.
Proof. destruct record; try done. intros [= <-]. done. Qed.

(** C6, as stated, fails: a formation that carries neither
    [etablissement] nor [description] is kept, the two fields filled
    with the empty string. *)
Lemma incomplete_formation_is_kept : ~ only_complete_records_kept.
Proof.
  intros K.
  destruct (K [VDict {[ "periode" := VStr "2010-2013";
                        "diplome" := VStr "BTS Comptabilite" ]}]) as [K1 _].
  specialize (K1 _ eq_refl). vm_compute in K1. discriminate.
Qed.

(** C6, amended: validation drops the entries that are not mappings and
    nothing else.  Every mapping is kept, in order, reduced to the
    required fields: a field it carries keeps its value, a field it
    lacks gets the empty string ([competences]: the empty list, also
    when its value is not a list).  Every record of the validated lists
    therefore carries all the required fields. *)
Theorem validation_fills_missing_fields records :
  _validate_formations (VList records) = Ok (omap formation_with_defaults records)
  /\ _validate_experiences (VList records) = Ok (omap experience_with_defaults records)
  /\ Forall (fun r => complete_record FORMATION_SCHEMA r = true)
            (omap formation_with_defaults records)
  /\ Forall (fun r => complete_record EXPERIENCE_SCHEMA r = true)
            (omap experience_with_defaults records).
Proof.
  unfold _validate_formations, _validate_experiences. simpl. unbind.
  repeat split.
  - rewrite <- concat_option_list. do 2 f_equal.
    rewrite <- list_fmap_compose. apply list_fmap_ext.
    intros i x _. apply validate_formation_defaults.
  - rewrite <- concat_option_list. do 2 f_equal.
    rewrite <- list_fmap_compose. apply list_fmap_ext.
    intros i x _. apply validate_experience_defaults.
  - apply Forall_forall. intros out Hin.
    apply list_elem_of_omap in Hin as (record & _ & H).
    by apply (formation_with_defaults_complete record).
  - apply Forall_forall. intros out Hin.
    apply list_elem_of_omap in Hin as (record & _ & H).
    by apply (experience_with_defaults_complete record).
Qed.

(** ** The Loader *)

Ltac lookup_through :=
  repeat first
    [ rewrite lookup_insert_ne by done
    | rewrite lookup_insert_eq
    | rewrite lookup_singleton_ne by done
    | rewrite lookup_singleton_eq ].

Ltac lookup_any :=
  rewrite ?lookup_insert, ?lookup_singleton; repeat case_decide; simplify_eq; try done.

(** Two loads of one payload differ in the time and in the storage
    reference at most. *)
Lemma loaded_of_agree o1 o2 transformed_data :
  match loaded_of o1 transformed_data, loaded_of o2 transformed_data with
  | Ok l1, Ok l2 =>
      forall k, k <> "load_time" -> k <> "storage_reference" -> l1 !! k = l2 !! k
  | Raise e1, Raise e2 => e1 = e2
  | _, _ => False
  end.
Proof.
  unfold loaded_of. unbind.
  destruct (py_in "statistics" transformed_data) as [[|]|e]; [| |done].
  - destruct (analysis_summary_of transformed_data) as [summary|e]; [|done].
    destruct (py_get transformed_data "cv_data" _) as [cv_data|e]; [|done].
    destruct (py_in "metiers_matches" cv_data) as [[|]|e]; [| |done].
    + destruct (py_getitem cv_data "metiers_matches") as [matches|e]; [|done].
      intros k H1 H2.
      destruct (decide (k = "metiers_matches")) as [->|]; [by lookup_through|].
      destruct (decide (k = "analysis_summary")) as [->|]; [by lookup_through|].
      destruct (decide (k = "original_data")) as [->|]; [by lookup_through|].
      destruct (decide (k = "load_status")) as [->|]; by lookup_through.
    + intros k H1 H2.
      destruct (decide (k = "analysis_summary")) as [->|]; [by lookup_through|].
      destruct (decide (k = "original_data")) as [->|]; [by lookup_through|].
      destruct (decide (k = "load_status")) as [->|]; by lookup_through.
  - intros k H1 H2.
    destruct (decide (k = "original_data")) as [->|]; [by lookup_through|].
    destruct (decide (k = "load_status")) as [->|]; by lookup_through.
Qed.

Lemma chargement_agree o1 o2 data :
  match chargement o1 data, chargement o2 data with
  | Ok r1, Ok r2 =>
      (forall k, k <> "loaded" -> r1 !! k = r2 !! k)
      /\ exists l1 l2,
          r1 !! "loaded" = Some (VDict l1) /\ r2 !! "loaded" = Some (VDict l2)
          /\ forall k, k <> "load_time" -> k <> "storage_reference" -> l1 !! k = l2 !! k
  | Raise e1, Raise e2 => e1 = e2
  | _, _ => False
  end.
Proof.
  unfold chargement. destruct (truthy _).
  - pose proof (loaded_of_agree o1 o2 (dict_get data "transformed" (VDict ∅))) as H.
    unbind.
    destruct (loaded_of o1 _) as [l1|e1], (loaded_of o2 _) as [l2|e2]; try done.
    split.
    + intros k Hk. by lookup_any.
    + exists l1, l2. by lookup_through.
  - unbind. destruct (py_get _ "error" _) as [original_error|e]; [|done].
    split.
    + intros k Hk. by lookup_any.
    + eexists _, _. split; [by lookup_through|]. split; [by lookup_through|].
      intros k H1 H2. by lookup_any.
Qed.

(** The shape of what the Transformer returns when it computes. *)
Lemma transformation_computed o data out :
  transformation o data = Ok out ->
  out !! "success" = Some (VBool true) ->
  exists filename statistics keywords language cv_data metadata time,
    out = {[ "transformed" := VDict
               {[ "original_filename" := filename;
                  "statistics" := VDict statistics;
                  "content_analysis" := VDict
                    {[ "keywords" := VList keywords; "language" := VStr language ]};
                  "cv_data" := VDict cv_data;
                  "metadata" := metadata;
                  "transformation_time" := time ]};
             "step" := VStr "transformation";
             "success" := VBool true ]}.
Proof.
  unfold transformation. intros H Hs.
  destruct (truthy _).
  - destruct (data !! "extraction_error").
    { injection H as <-. revert Hs. by lookup_through. }
    unbind.
    destruct (py_get _ "text_content" _) as [[| | | |text| |]|e]; try done.
    destruct (cv_data_of _ _) as [cv_data|e]; [|done].
    destruct (py_get _ "pdf_filename" _) as [filename|e]; [|done].
    destruct (py_get _ "num_pages" _) as [page_count|e]; [|done].
    destruct (py_get _ "metadata" _) as [metadata|e]; [|done].
    destruct (language_of metadata) as [language|e]; [|done].
    injection H as <-. by eexists _, _, _, _, _, _, _.
  - injection H as <-. revert Hs. by lookup_through.
Qed.

(** The Loader returns on what the Transformer returns, when the record
    was document-derived or had no ["statistics"] entry of its own. *)
Lemma chargement_returns_on_transformed o o' data out :
  transformation o data = Ok out ->
  truthy (dict_get data "pdf_available" (VBool false)) = true
  \/ data !! "statistics" = None ->
  exists result, chargement o' out = Ok result.
Proof.
  intros H Hshape.
  destruct (out !! "success") as [[| [|] | | | | |]|] eqn:Hs.
  2: { (* the Transformer computed *)
    destruct (transformation_computed _ _ _ H Hs)
      as (filename & statistics & keywords & language & cv_data & metadata & time & ->).
    unfold chargement, dict_get. lookup_through. simpl.
    unfold loaded_of, analysis_summary_of, py_in, py_get, has_key, dict_get.
    lookup_through. simpl. unbind.
    destruct (cv_data !! "metiers_matches") eqn:Hm; simpl; rewrite ?Hm; by eexists. }
  all: revert H Hs; unfold transformation;
    destruct (truthy (dict_get data "pdf_available" _)) eqn:Hpdf.
  all: try (destruct (data !! "extraction_error");
    [intros [= <-]; try (by lookup_through);
     intros _; unfold chargement, dict_get; lookup_through; simpl; unbind; by eexists
    | unbind;
      destruct (py_get _ "text_content" _) as [[| | | |text| |]|e]; try done;
      destruct (cv_data_of _ _) as [cv|e]; [|done];
      destruct (py_get _ "pdf_filename" _) as [filename|e]; [|done];
      destruct (py_get _ "num_pages" _) as [page_count|e]; [|done];
      destruct (py_get _ "metadata" _) as [metadata|e]; [|done];
      destruct (language_of metadata) as [language|e]; [|done];
      intros [= <-]; by lookup_through ]).
  all: intros [= <-]; try (by lookup_through); intros _.
  all: destruct Hshape as [?|Hstat]; [done|].
  all: unfold chargement, dict_get; lookup_through; simpl;
    unfold loaded_of, py_in, has_key; rewrite Hstat; unbind; by eexists.
Qed.

(** C9.  Two calls of the Loader on one record end alike: both raise the
    same exception, or both return, and then the two results agree on
    every entry but ["loaded"], and the two ["loaded"] sections agree on
    every entry but [load_time] and [storage_reference]: same
    [load_status], same [analysis_summary] (filename, word count, page
    count, five first keywords, language), same [metiers_matches], same
    [original_data].  On what the Transformer returns for a record that
    was document-derived, or that had no ["statistics"] entry of its
    own, both calls return. *)
Theorem chargement_repeatable o1 o2 data :
  match chargement o1 data, chargement o2 data with
  | Ok r1, Ok r2 =>
      (forall k, k <> "loaded" -> r1 !! k = r2 !! k)
      /\ exists l1 l2,
          r1 !! "loaded" = Some (VDict l1) /\ r2 !! "loaded" = Some (VDict l2)
          /\ forall k, k <> "load_time" -> k <> "storage_reference" -> l1 !! k = l2 !! k
  | Raise e1, Raise e2 => e1 = e2
  | _, _ => False
  end
  /\ forall o record,
       transformation o record = Ok data ->
       truthy (dict_get record "pdf_available" (VBool false)) = true
       \/ record !! "statistics" = None ->
       exists r1 r2, chargement o1 data = Ok r1 /\ chargement o2 data = Ok r2.
Proof.
  split; [apply chargement_agree|].
  intros o record H Hshape.
  destruct (chargement_returns_on_transformed o o1 _ _ H Hshape) as [r1 H1].
  destruct (chargement_returns_on_transformed o o2 _ _ H Hshape) as [r2 H2].
  by exists r1, r2.
Qed.

(** The Loader takes the failure branch exactly when the [success] flag
    of its input is there and false. *)
Lemma chargement_status o data result loaded :
  chargement o data = Ok result ->
  result !! "loaded" = Some (VDict loaded) ->
  loaded !! "load_status"
  = Some (VStr (if truthy (dict_get data "success" (VBool true))
                then "success" else "failed"))
  /\ result !! "success" = Some (VBool (truthy (dict_get data "success" (VBool true)))).
Proof.
  unfold chargement. destruct (truthy _); unbind.
  - destruct (loaded_of o _) as [l|e] eqn:E; [|done].
    intros [= <-]. lookup_through. intros [= <-]. split; [|done].
    revert E. unfold loaded_of. unbind.
    destruct (py_in "statistics" _) as [[|]|e]; [| |done].
    + destruct (analysis_summary_of _) as [summary|e]; [|done].
      destruct (py_get _ "cv_data" _) as [cv_data|e]; [|done].
      destruct (py_in "metiers_matches" cv_data) as [[|]|e]; [| |done].
      * destruct (py_getitem cv_data "metiers_matches") as [m|e]; [|done].
        intros [= <-]. by lookup_through.
      * intros [= <-]. by lookup_through.
    + intros [= <-]. by lookup_through.
  - destruct (py_get _ "error" _) as [original_error|e]; [|done].
    intros [= <-]. lookup_through. intros [= <-]. split; [|done]. by lookup_through.
Qed.

Lemma chargement_loaded_section o data result :
  chargement o data = Ok result -> exists loaded, result !! "loaded" = Some (VDict loaded).
Proof.
  unfold chargement. destruct (truthy _); unbind.
  - destruct (loaded_of o _) as [l|e]; [|done]. intros [= <-]. eexists. by lookup_through.
  - destruct (py_get _ "error" _) as [original_error|e]; [|done].
    intros [= <-]. eexists. by lookup_through.
Qed.

(** C10.  On a record without [success] entry the Loader takes the
    success branch: whatever it returns has [load_status = "success"]
    and [success = True]; and it does return when the ["transformed"]
    section is a mapping without ["statistics"] entry, as the
    Transformer's passthrough output is for a pipeline record.  The
    failure payload ([load_status = "failed"]) comes only from a record
    whose [success] entry is there and false. *)
Theorem chargement_without_success_key o data :
  data !! "success" = None ->
  (forall result, chargement o data = Ok result ->
     exists loaded,
       result !! "loaded" = Some (VDict loaded)
       /\ loaded !! "load_status" = Some (VStr "success")
       /\ result !! "success" = Some (VBool true))
  /\ (forall transformed_data,
        dict_get data "transformed" (VDict ∅) = VDict transformed_data ->
        transformed_data !! "statistics" = None ->
        exists result, chargement o data = Ok result)
  /\ (forall data' result loaded,
        chargement o data' = Ok result ->
        result !! "loaded" = Some (VDict loaded) ->
        loaded !! "load_status" = Some (VStr "failed") ->
        exists v, data' !! "success" = Some v /\ truthy v = false).
Proof.
  intros Hnone. split; [|split].
  - intros result H.
    destruct (chargement_loaded_section _ _ _ H) as [loaded Hl].
    destruct (chargement_status _ _ _ _ H Hl) as [Hstatus Hsuccess].
    unfold dict_get in Hstatus, Hsuccess. rewrite Hnone in Hstatus, Hsuccess.
    by exists loaded.
  - intros td Htd Hstat. unfold chargement, dict_get in *. rewrite Hnone. simpl.
    rewrite Htd. unfold loaded_of, py_in, has_key. rewrite Hstat. unbind. by eexists.
  - intros data' result loaded H Hl Hfailed.
    destruct (chargement_status _ _ _ _ H Hl) as [Hstatus _].
    rewrite Hfailed in Hstatus. unfold dict_get in Hstatus.
    destruct (data' !! "success") as [v|]; simpl in Hstatus.
    + exists v. split; [done|]. by destruct (truthy v).
    + done.
Qed.

Lemma chargement_without_success_key_witness :
  let passthrough : dict :=
    {[ "transformed" := VDict Samples.plain; "step" := VStr "transformation" ]} in
  transformation Samples.offline Samples.plain = Ok passthrough
  /\ exists result loaded,
      chargement Samples.offline passthrough = Ok result
      /\ result !! "loaded" = Some (VDict loaded)
      /\ loaded !! "load_status" = Some (VStr "success").
Proof.
  intros passthrough. split; [reflexivity|].
  assert (Hnone : passthrough !! "success" = None) by (vm_compute; reflexivity).
  destruct (chargement_without_success_key Samples.offline passthrough Hnone)
    as (Hsuccess & Hreturns & _).
  assert (Hstat : Samples.plain !! "statistics" = None) by (vm_compute; reflexivity).
  assert (Htd : dict_get passthrough "transformed" (VDict ∅) = VDict Samples.plain)
    by (vm_compute; reflexivity).
  destruct (Hreturns Samples.plain Htd Hstat) as [result H].
  destruct (Hsuccess result H) as (loaded & Hl & Hs & _).
  by exists result, loaded.
Defined.

(** ** A run without credential *)

Lemma append_empty (s t : string) : s ++ t = "" -> s = "" /\ t = "".
Proof. destruct s; simpl; [done|discriminate]. Qed.

Lemma join_pages_from_nonempty pages acc :
  acc <> "" -> fold_left (fun text page => text ++ page ++ page_separator) pages acc <> "".
Proof.
  revert acc. induction pages as [|page pages IH]; intros acc H; simpl; [done|].
  apply IH. intros E. by apply append_empty in E as [? _].
Qed.

(** A document with at least one page has a text: each page brings the
    separator with it. *)
Lemma join_pages_nonempty pages : pages <> [] -> join_pages pages <> "".
Proof.
  destruct pages as [|page pages]; [done|]. intros _. unfold join_pages. simpl.
  apply join_pages_from_nonempty. intros E.
  apply append_empty in E as [_ E]. apply append_empty in E as [_ E].
  unfold page_separator in E. discriminate.
Qed.

Lemma normalize_key_of_name name k :
  normalize_key ("/" ++ name) = k -> exists rest, k = String "_"%char rest.
Proof. intros <-. by eexists. Qed.

(** The normalised keys all start with an underscore: the metadata of a
    document never has an entry ["language"]. *)
Lemma normalize_metadata_language items : normalize_metadata items !! "language" = None.
Proof.
  unfold normalize_metadata.
  assert (H : forall acc : dict,
             acc !! "language" = None ->
             fold_left (fun acc kv => <[normalize_key ("/" ++ kv.1) := kv.2]> acc) items acc
               !! "language" = None); [|by apply H].
  induction items as [|[name v] items IH]; intros acc Hacc; simpl; [done|].
  apply IH. rewrite lookup_insert_ne; [done|].
  intros E. apply normalize_key_of_name in E as [rest E]. discriminate.
Qed.

Ltac lookup_spread :=
  unfold spread_last; rewrite ?lookup_union; lookup_through; simpl.

(** With a document and a text but no credential, the Field Extractor
    answers with the missing-credential error. *)
Lemma openai_extraction_without_key o (data extracted : dict) :
  truthy (dict_get data "pdf_available" (VBool false)) = true ->
  data !! "extraction_error" = None ->
  data !! "extracted" = Some (VDict extracted) ->
  truthy (dict_get extracted "text_content" (VStr "")) = true ->
  key_missing (OPENAI_API_KEY o) = true ->
  openai_extraction o data = Ok (_create_error_response ERROR_API_KEY_MISSING data).
Proof.
  intros Hpdf Herr Hext Htext Hkey.
  unfold openai_extraction, has_key, py_get, dict_get in *.
  rewrite Hpdf, Herr, Hext. simpl. unbind. rewrite Htext. simpl.
  by rewrite Hkey.
Qed.

(** After a failed field extraction the Category Matcher does not look
    at the catalog. *)
Lemma openai_matching_after_failure o c (data : dict) :
  truthy (dict_get data "success" (VBool false)) = false ->
  openai_matching o c data
  = (Ok (matching_error "Aucune donnée extraite par OpenAI disponible" data), c).
Proof. intros H. unfold openai_matching. by rewrite H. Qed.

Lemma cv_data_of_errors (extraction_section matching_section : dict) :
  extraction_section !! "status" = Some (VStr "error") ->
  matching_section !! "status" = Some (VStr "error") ->
  cv_data_of (VDict extraction_section) (VDict matching_section) = Ok ∅.
Proof.
  intros H1 H2. unfold cv_data_of, py_get, dict_get. rewrite H1, H2. unbind. simpl.
  destruct (map_to_list extraction_section), (map_to_list matching_section); done.
Qed.

(** The ["loaded"] section for a payload that has statistics: the
    summary is read off the payload, and the matches of [cv_data], when
    there are any, are forwarded as they are. *)
Lemma loaded_of_statistics o (payload statistics content_analysis cv_data : dict) keywords :
  payload !! "statistics" = Some (VDict statistics) ->
  dict_get payload "content_analysis" (VDict ∅) = VDict content_analysis ->
  dict_get content_analysis "keywords" (VList []) = VList keywords ->
  dict_get payload "cv_data" (VDict ∅) = VDict cv_data ->
  loaded_of o (VDict payload)
  = Ok (let loaded : dict :=
          <["analysis_summary" := VDict
              {[ "filename" := dict_get payload "original_filename" (VStr "document.pdf");
                 "word_count" := dict_get statistics "word_count" (VInt 0);
                 "page_count" := dict_get statistics "page_count" (VInt 0);
                 "top_keywords" := VList (take 5 keywords);
                 "language" := dict_get content_analysis "language" (VStr "unknown") ]}]>
            {[ "original_data" := VDict payload;
               "load_status" := VStr "success";
               "load_time" := VFloat (time_chargement o);
               "storage_reference" := VStr ("pdf_analysis_" ++ uuid4 o) ]} in
        match cv_data !! "metiers_matches" with
        | Some metiers_matches => <["metiers_matches" := metiers_matches]> loaded
        | None => loaded
        end).
Proof.
  intros Hstat Hca Hkw Hcv.
  unfold loaded_of, analysis_summary_of, py_in, py_get, has_key, dict_get in *.
  rewrite Hstat, Hca, Hcv. cbn [default]. unbind. rewrite Hkw. cbn [py_slice_to].
  unfold py_getitem. by destruct (cv_data !! "metiers_matches").
Qed.

(** The placeholder as Python holds it: 24 characters, the ninth of
    code point 233. *)
Lemma placeholder_api_key_code_points :
  String.length PLACEHOLDER_API_KEY = 24%nat
  /\ String.get 8 PLACEHOLDER_API_KEY = Some (ascii_of_nat 233)
  /\ replace_char (ascii_of_nat 233) "e"%char PLACEHOLDER_API_KEY
     = "votre_cle_api_openai_ici".
Proof. by vm_compute. Qed.

(** No credential is configured: the key is unset, empty, or the
    placeholder. *)
Lemma key_missing_iff api_key :
  key_missing api_key = true
  <-> api_key = None \/ api_key = Some "" \/ api_key = Some PLACEHOLDER_API_KEY.
Proof.
  destruct api_key as [k|]; simpl; [|by intuition].
  rewrite orb_true_iff, !String.eqb_eq. split.
  - intros [->| ->]; by eauto.
  - intros [[=]|[[= ->]|[= ->]]]; by eauto.
Qed.

(** C8.  A document of at least one page is submitted and no credential
    is configured (the key is unset, empty, or the placeholder).  The
    Field Extractor returns [openai_extracted] with status "error" and
    the missing-credential message; the Transformer computes the word
    count, the character count and the page count of the text and
    reports [success = True]; the Loader returns with
    [load_status = "success"], a summary of the analysis, and no
    [metiers_matches]. *)
Theorem run_without_credential o c (data : dict) payload size info pages :
  data !! "pdf_content_b64" = Some payload ->
  read_pdf o payload = PdfDocument size info pages ->
  pages <> [] ->
  key_missing (OPENAI_API_KEY o) = true ->
  let text := join_pages pages in
  let with_fields := openai_extraction o (extraction o data) in
  let with_matches := d ← with_fields; (openai_matching o c d).1 in
  let transformed := d ← with_matches; transformation o d in
  let loaded := d ← transformed; chargement o d in
  field with_fields "openai_extracted"
  = Some (VDict {[ "error" := VStr ERROR_API_KEY_MISSING; "status" := VStr "error" ]})
  /\ field transformed "success" = Some (VBool true)
  /\ subfield transformed "transformed" "statistics"
     = Some (VDict {[ "word_count" := VInt (Z.of_nat (length (split text)));
                      "character_count" := VInt (Z.of_nat (String.length text));
                      "page_count" := VInt (Z.of_nat (length pages)) ]})
  /\ returns loaded = true
  /\ subfield loaded "loaded" "load_status" = Some (VStr "success")
  /\ subfield loaded "loaded" "metiers_matches" = None
  /\ subfield loaded "loaded" "analysis_summary"
     = Some (VDict {[ "filename" := dict_get data "pdf_filename" (VStr "document.pdf");
                      "word_count" := VInt (Z.of_nat (length (split text)));
                      "page_count" := VInt (Z.of_nat (length pages));
                      "top_keywords" := VList (take 5 (keywords_of text));
                      "language" := VStr "en" ]}).
Proof.
  intros Hpayload Hread Hpages Hkey text with_fields with_matches transformed loaded.
  assert (Htext : truthy (VStr text) = true).
  { simpl. apply negb_true_iff, String.eqb_neq. by apply join_pages_nonempty. }
  (* the Text Extractor *)
  set (pdf_metadata := match info with
                       | Some (_ :: _ as items) => normalize_metadata items
                       | _ => ∅
                       end : dict).
  assert (Hlanguage : pdf_metadata !! "language" = None).
  { subst pdf_metadata. destruct info as [[|item items]|]; try done.
    apply normalize_metadata_language. }
  set (metadata := <["extraction_time" := VFloat (time_extraction o)]>
                     (<["source" := VStr "pdf_upload"]> pdf_metadata) : dict).
  set (extracted := {[ "pdf_filename" := dict_get data "pdf_filename" (VStr "document.pdf");
                       "content_type" := dict_get data "content_type" (VStr "application/pdf");
                       "pdf_size_bytes" := VInt size;
                       "num_pages" := VInt (Z.of_nat (length pages));
                       "text_content" := VStr text;
                       "metadata" := VDict metadata ]} : dict).
  assert (Hte : extraction o data
                = {[ "extracted" := VDict extracted;
                     "step" := VStr "extraction";
                     "pdf_available" := VBool true ]}).
  { unfold extraction. by rewrite Hpayload, Hread. }
  subst with_fields with_matches transformed loaded. rewrite Hte. clear Hte.
  set (te := {[ "extracted" := VDict extracted;
                "step" := VStr "extraction";
                "pdf_available" := VBool true ]} : dict).
  (* what the later stages read *)
  assert (Hm_language : metadata !! "language" = None).
  { subst metadata. by lookup_through. }
  assert (He_text : extracted !! "text_content" = Some (VStr text))
    by (subst extracted; by lookup_through).
  assert (He_name : extracted !! "pdf_filename"
                    = Some (dict_get data "pdf_filename" (VStr "document.pdf")))
    by (subst extracted; by lookup_through).
  assert (He_pages : extracted !! "num_pages" = Some (VInt (Z.of_nat (length pages))))
    by (subst extracted; by lookup_through).
  assert (He_meta : extracted !! "metadata" = Some (VDict metadata))
    by (subst extracted; by lookup_through).
  clearbody extracted metadata.
  assert (Ht_pdf : te !! "pdf_available" = Some (VBool true))
    by (subst te; by lookup_through).
  assert (Ht_ext : te !! "extracted" = Some (VDict extracted))
    by (subst te; by lookup_through).
  assert (Ht_err : te !! "extraction_error" = None) by (subst te; by lookup_through).
  assert (Ht_fields : te !! "openai_extracted" = None) by (subst te; by lookup_through).
  assert (Ht_success : te !! "success" = None) by (subst te; by lookup_through).
  assert (Ht_matching : te !! "openai_matching" = None) by (subst te; by lookup_through).
  clearbody te.
  (* the Field Extractor *)
  rewrite (openai_extraction_without_key o te extracted); cycle 1.
  { unfold dict_get. by rewrite Ht_pdf. }
  { done. }
  { done. }
  { unfold dict_get. by rewrite He_text. }
  { done. }
  set (fe := _create_error_response ERROR_API_KEY_MISSING te).
  assert (Hf_fields : fe !! "openai_extracted"
            = Some (VDict {[ "error" := VStr ERROR_API_KEY_MISSING;
                             "status" := VStr "error" ]})).
  { subst fe. unfold _create_error_response.
    rewrite spread_last_lookup_literal by done. by lookup_through. }
  assert (Hf_success : fe !! "success" = Some (VBool false)).
  { subst fe. unfold _create_error_response.
    rewrite spread_last_lookup_literal by done. by lookup_through. }
  assert (Hf_matching : fe !! "openai_matching" = None).
  { subst fe. unfold _create_error_response.
    rewrite spread_last_lookup_literal by done. by lookup_through. }
  assert (Hf_err : fe !! "extraction_error" = None).
  { subst fe. unfold _create_error_response.
    rewrite spread_last_lookup_literal by done. by lookup_through. }
  assert (Hf_pdf : fe !! "pdf_available" = Some (VBool true))
    by (by apply spread_last_lookup_data).
  assert (Hf_ext : fe !! "extracted" = Some (VDict extracted))
    by (by apply spread_last_lookup_data).
  clearbody fe.
  split; [done|].
  (* the Category Matcher *)
  unbind.
  rewrite (openai_matching_after_failure o c fe)
    by (unfold dict_get; by rewrite Hf_success).
  cbn [fst].
  set (cm := matching_error "Aucune donnée extraite par OpenAI disponible" fe).
  assert (Hc_matching : exists section : dict,
            cm !! "openai_matching" = Some (VDict section)
            /\ section !! "status" = Some (VStr "error")).
  { exists {[ "error" := VStr "Aucune donnée extraite par OpenAI disponible";
               "status" := VStr "error";
               "metiers_matches" := VList [] ]}.
    split; [|by lookup_through].
    subst cm. unfold matching_error, matching_response.
    rewrite spread_last_lookup_literal by done. by lookup_through. }
  destruct Hc_matching as (matching_section & Hc_matching & Hc_status).
  assert (Hc_fields : cm !! "openai_extracted"
            = Some (VDict {[ "error" := VStr ERROR_API_KEY_MISSING;
                             "status" := VStr "error" ]}))
    by (by apply spread_last_lookup_data).
  assert (Hc_pdf : cm !! "pdf_available" = Some (VBool true))
    by (by apply spread_last_lookup_data).
  assert (Hc_ext : cm !! "extracted" = Some (VDict extracted))
    by (by apply spread_last_lookup_data).
  assert (Hc_err : cm !! "extraction_error" = None).
  { subst cm. unfold matching_error, matching_response.
    rewrite spread_last_lookup_literal by done. by lookup_through. }
  clearbody cm.
  (* the Transformer *)
  assert (Htr : transformation o cm
    = Ok {[ "transformed" := VDict
              {[ "original_filename" := dict_get data "pdf_filename" (VStr "document.pdf");
                 "statistics" := VDict
                   {[ "word_count" := VInt (Z.of_nat (length (split text)));
                      "character_count" := VInt (Z.of_nat (String.length text));
                      "page_count" := VInt (Z.of_nat (length pages)) ]};
                 "content_analysis" := VDict
                   {[ "keywords" := VList (keywords_of text);
                      "language" := VStr "en" ]};
                 "cv_data" := VDict ∅;
                 "metadata" := VDict metadata;
                 "transformation_time" := VFloat (time_transformation o) ]};
            "step" := VStr "transformation";
            "success" := VBool true ]}).
  { unfold transformation, dict_get, py_get.
    rewrite Hc_pdf, Hc_err, Hc_ext, Hc_fields, Hc_matching. simpl.
    unfold dict_get. rewrite He_text, He_name, He_pages, He_meta. simpl. unbind.
    rewrite cv_data_of_errors by (done || by lookup_through).
    unfold language_of, py_get, dict_get. rewrite Hm_language. simpl. done. }
  rewrite Htr. clear Htr.
  split; [unfold field; by lookup_through|].
  split; [unfold subfield, field; by lookup_through|].
  (* the Loader *)
  unfold chargement, dict_get. lookup_through. cbn [default from_option id truthy].
  erewrite loaded_of_statistics; cycle 1.
  { by lookup_through. }
  { unfold dict_get. by lookup_through. }
  { unfold dict_get. by lookup_through. }
  { unfold dict_get. by lookup_through. }
  rewrite lookup_empty. cbv zeta. unbind.
  split; [done|].
  unfold subfield, field, dict_get. lookup_through.
  split; [done|]. split; [done|]. by lookup_through.
Qed.

Lemma run_without_credential_witness :
  let o := MoreSamples.unconfigured in
  let with_fields := openai_extraction o (extraction o Samples.upload) in
  let transformed :=
    d ← (d ← with_fields; (openai_matching o cache_at_import d).1); transformation o d in
  let loaded := d ← transformed; chargement o d in
  field with_fields "openai_extracted"
  = Some (VDict {[ "error" := VStr ERROR_API_KEY_MISSING; "status" := VStr "error" ]})
  /\ field transformed "success" = Some (VBool true)
  /\ subfield transformed "transformed" "statistics"
     = Some (VDict {[ "word_count" := VInt 6;
                      "character_count" := VInt 49;
                      "page_count" := VInt 2 ]})
  /\ subfield loaded "loaded" "load_status" = Some (VStr "success")
  /\ subfield loaded "loaded" "metiers_matches" = None
  /\ subfield loaded "loaded" "analysis_summary"
     = Some (VDict {[ "filename" := VStr "cv.pdf";
                      "word_count" := VInt 6;
                      "page_count" := VInt 2;
                      "top_keywords" := VList [VStr "comptable"; VStr "senior";
                                               VStr "abidjan"; VStr "depuis";
                                               VStr "2015"];
                      "language" := VStr "en" ]}).
Proof.
  intros o.
  destruct (run_without_credential o cache_at_import Samples.upload
              (VStr "JVBERi0xLjQK") 2048
              (Some [("Author", VStr "A. Kone"); ("Producer", VStr "pdflatex")])
              ["Comptable senior Abidjan"; "comptable depuis 2015"])
    as (Hfields & Hsuccess & Hstatistics & _ & Hstatus & Hmatches & Hsummary).
  - vm_compute. reflexivity.
  - reflexivity.
  - discriminate.
  - reflexivity.
  - split; [exact Hfields|]. split; [exact Hsuccess|]. split; [exact Hstatistics|].
    split; [exact Hstatus|]. split; [exact Hmatches|].
    exact Hsummary.
Defined.

(** ** The Category Matcher *)

(** C7, as stated, fails: the Field Extractor returns two experiences,
    one of them with the title "Comptable", but the reference file is
    missing; the Category Matcher then returns an empty list of
    matches. *)
Lemma no_entries_without_catalog : ~ matcher_lists_every_titled_experience.
Proof.
  intros K.
  destruct (K (Samples.world 12 true false) cache_at_import Samples.upload
              Samples.validated_experiences) as (entries & Hentries & Htitles).
  - vm_compute. reflexivity.
  - discriminate.
  - vm_compute in Hentries. injection Hentries as <-.
    vm_compute in Htitles. discriminate.
Qed.

(** The matching call returns no match or one, and a match has a number
    for score. *)
Lemma find_matching_metiers_openai_shape o poste entreprise description metiers :
  exists matches,
    find_matching_metiers_openai o poste entreprise description metiers = Ok matches
    /\ (matches = []
        \/ exists (m : dict) score,
             matches = [VDict m] /\ m !! "score" = Some (VFloat score)).
Proof.
  unfold find_matching_metiers_openai.
  destruct (negb (truthy poste)); [by eauto|].
  destruct (OPENAI_API_KEY o) as [api_key|]; [|by eauto].
  destruct (String.eqb api_key ""); [by eauto|].
  destruct (chat_matching _ _ _ _ _ _) as [[content|]|e]; [|by eauto..].
  destruct (json_loads o content) as [[| | | | | |result]|]; [by eauto..| |by eauto].
  destruct (forallb _ _); [|by eauto].
  destruct (float_of _ _) as [score|]; [|by eauto].
  eexists. split; [done|]. right. eexists _, score. split; [done|]. by lookup_through.
Qed.

Lemma match_experience_dict o metiers (e : dict) :
  match_experience o metiers (VDict e)
  = Ok (if has_title (VDict e) then [entry_of o metiers (VDict e)] else []).
Proof.
  unfold match_experience, has_title, entry_of, py_get. unbind.
  destruct (truthy (dict_get e "poste" VNone)); simpl; [|done].
  destruct (find_matching_metiers_openai_shape o (dict_get e "poste" VNone)
              (dict_get e "entreprise" (VStr "")) (dict_get e "description" (VStr ""))
              metiers) as (matches & -> & _).
  by destruct matches.
Qed.

Lemma match_experiences_dicts o metiers experiences :
  forallb is_dict experiences = true ->
  match_experiences o metiers experiences
  = Ok (entry_of o metiers <$> List.filter has_title experiences).
Proof.
  induction experiences as [|experience rest IH]; intros H; [done|].
  simpl in H. apply andb_true_iff in H as [Hd Hrest].
  destruct experience as [| | | | | |e]; try done.
  cbn [match_experiences List.filter]. rewrite match_experience_dict, (IH Hrest).
  unbind. by destruct (has_title (VDict e)).
Qed.

Lemma log_match_entry o metiers (e : dict) :
  log_match (entry_of o metiers (VDict e)) = Ok ().
Proof.
  unfold log_match, entry_of, py_get, dict_get. lookup_through. simpl. unbind.
  destruct (find_matching_metiers_openai_shape o (default VNone (e !! "poste"))
              (default (VStr "") (e !! "entreprise"))
              (default (VStr "") (e !! "description")) metiers)
    as (matches & -> & [->|(m & score & -> & Hscore)]); [done|].
  simpl. unfold dict_get. by rewrite Hscore.
Qed.

Lemma log_matches_entries o metiers experiences :
  forallb is_dict experiences = true ->
  log_matches (entry_of o metiers <$> experiences) = Ok ().
Proof.
  induction experiences as [|experience rest IH]; intros H; [done|].
  simpl in H. apply andb_true_iff in H as [Hd Hrest].
  destruct experience as [| | | | | |e]; try done.
  rewrite fmap_cons. cbn [log_matches]. rewrite log_match_entry. unbind. by apply IH.
Qed.

Lemma forallb_filter {A} (p q : A -> bool) l :
  forallb p l = true -> forallb p (List.filter q l) = true.
Proof.
  induction l as [|x l IH]; [done|]. simpl. intros H.
  apply andb_true_iff in H as [Hx Hl]. destruct (q x); simpl; [|by apply IH].
  by rewrite Hx, IH.
Qed.

(** C7, amended: the claim holds when the reference catalog is available.
    Given a record of a successful field extraction (a true [success]
    flag, an [openai_extracted] section whose experiences are a
    non-empty list of mappings, no [openai_matching] entry yet) and a
    non-empty catalog, the Category Matcher returns with status
    "success" and [metiers_matches] holds exactly one entry, made of
    [poste] and [matches] only, for each experience whose [poste] is
    neither missing nor empty, in the order of the experiences; the
    other experiences leave no entry and no error.  With an empty
    catalog the stage returns an error and an empty list. *)
Theorem one_entry_per_titled_experience o c (data : dict) experiences :
  truthy (dict_get data "success" (VBool false)) = true ->
  subfield (Ok data) "openai_extracted" "experiences_professionnelles"
  = Some (VList experiences) ->
  experiences <> [] ->
  forallb is_dict experiences = true ->
  data !! "openai_matching" = None ->
  (get_metiers_reference o c).1 <> [] ->
  let result := (openai_matching o c data).1 in
  subfield result "openai_matching" "metiers_matches"
  = Some (VList (entry_of o (get_metiers_reference o c).1
                   <$> List.filter has_title experiences))
  /\ subfield result "openai_matching" "status" = Some (VStr "success")
  /\ title_of <$> (entry_of o (get_metiers_reference o c).1
                     <$> List.filter has_title experiences)
     = title_of <$> List.filter has_title experiences.
Proof.
  intros Hsuccess Hexp Hne Hdicts Hfresh Hcatalog result.
  assert (Hdone : result
    = Ok (matching_response
            {[ "metiers_matches" := VList (entry_of o (get_metiers_reference o c).1
                                             <$> List.filter has_title experiences);
               "status" := VStr "success" ]} true data)).
  { subst result. unfold openai_matching.
    unfold subfield, field in Hexp.
    destruct (data !! "openai_extracted") as [[| | | | | |section]|] eqn:Hsection;
      try done.
    rewrite Hsuccess. unfold has_key, dict_get at 1. rewrite Hsection. simpl.
    unfold dict_get. rewrite Hexp. cbn [default from_option id py_get].
    assert (Ht : truthy (VList experiences) = true) by (by destruct experiences).
    rewrite Ht. cbn [negb py_iter].
    destruct (get_metiers_reference o c) as [metiers c'] eqn:Hget. cbn [fst] in *.
    destruct metiers as [|metier metiers]; [done|]. cbn [fst]. unbind.
    rewrite (match_experiences_dicts _ _ _ Hdicts).
    rewrite log_matches_entries by (by apply forallb_filter). done. }
  rewrite Hdone. unfold subfield, field, matching_response.
  rewrite spread_last_lookup_literal by done. lookup_through.
  split; [done|]. split; [by lookup_through|].
  rewrite <- list_fmap_compose. apply list_fmap_ext.
  intros i experience Hi. apply list_elem_of_lookup_2, list_elem_of_In in Hi.
  apply filter_In in Hi as [_ Htitle].
  destruct experience as [| | | | | |e]; try done.
  unfold has_title, dict_get in Htitle. simpl. lookup_through.
  unfold dict_get. by destruct (e !! "poste").
Qed.

(** The sample record is what the Field Extractor returns for the
    upload when the service answers. *)
Lemma fields_record_extracted :
  openai_extraction (Samples.world 12 true true)
                    (extraction (Samples.world 12 true true) Samples.upload)
  = Ok Samples.fields_record.
Proof. vm_cast_no_check (eq_refl (Ok Samples.fields_record)). Qed.

Lemma one_entry_per_titled_experience_witness :
  let o := Samples.world 12 true true in
  subfield (openai_matching o cache_at_import Samples.fields_record).1
           "openai_matching" "metiers_matches"
  = Some (VList (entry_of o (get_metiers_reference o cache_at_import).1
                   <$> List.filter has_title Samples.validated_experiences))
  /\ title_of <$> (entry_of o (get_metiers_reference o cache_at_import).1
                     <$> List.filter has_title Samples.validated_experiences)
     = [Some (VStr "Comptable")].
Proof.
  intros o.
  destruct (one_entry_per_titled_experience o cache_at_import Samples.fields_record
              Samples.validated_experiences) as (Hentries & _ & Htitles).
  - vm_compute. reflexivity.
  - vm_compute. reflexivity.
  - discriminate.
  - reflexivity.
  - vm_compute. reflexivity.
  - vm_compute. discriminate.
  - split; [exact Hentries|]. rewrite Htitles. vm_compute. reflexivity.
Defined.

Lemma chargement_repeatable_witness :
  let transformed : dict :=
    {[ "transformed" := VDict Samples.plain; "step" := VStr "transformation" ]} in
  exists r1 r2,
    chargement (Samples.world 12 false false) transformed = Ok r1
    /\ chargement (Samples.world 99 true true) transformed = Ok r2.
Proof.
  intros transformed.
  apply (proj2 (chargement_repeatable (Samples.world 12 false false)
                  (Samples.world 99 true true) transformed)
           Samples.offline Samples.plain).
  - reflexivity.
  - right. vm_compute. reflexivity.
Defined.

(** * Further properties *)

(** ** Records on their way through the pipeline *)

Lemma spread_last_lookup_other (literal data : dict) k :
  literal !! k = None -> spread_last literal data !! k = data !! k.
Proof.
  intros H. unfold spread_last. rewrite lookup_union, H.
  by destruct (data !! k).
Qed.

(** What every record of the Text Extractor looks like. *)
Lemma extraction_record o (data : dict) :
  exists (extracted : dict) (available : bool),
    extraction o data !! "extracted" = Some (VDict extracted)
    /\ extraction o data !! "pdf_available" = Some (VBool available)
    /\ extraction o data !! "openai_extracted" = None
    /\ extraction o data !! "openai_matching" = None
    /\ extraction o data !! "success" = None
    /\ extraction o data !! "statistics" = None
    /\ (available = true -> extraction o data !! "extraction_error" = None ->
        exists text (metadata : dict),
          extracted !! "text_content" = Some (VStr text)
          /\ extracted !! "metadata" = Some (VDict metadata)
          /\ metadata !! "language" = None).
Proof.
  unfold extraction.
  destruct (data !! "pdf_content_b64") as [payload|].
  - destruct (read_pdf o payload) as [msg|size info pages].
    + eexists _, true. split; [by lookup_through|].
      lookup_through. by repeat split.
    + eexists _, true. split; [by lookup_through|].
      lookup_through. repeat split; try done.
      intros _ _. eexists _, _. split; [by lookup_through|].
      split; [by lookup_through|]. lookup_through.
      destruct info as [[|item items]|]; try done.
      apply normalize_metadata_language.
  - eexists _, false. split; [by lookup_through|].
    lookup_through. repeat split; try done.
Qed.

(** The Field Extractor raises only when ["extracted"] is not a mapping. *)
Lemma openai_extraction_returns o (data extracted : dict) :
  dict_get data "extracted" (VDict ∅) = VDict extracted ->
  exists out, openai_extraction o data = Ok out.
Proof.
  intros H. unfold openai_extraction. rewrite H. simpl. unbind.
  destruct (_ || _); [by eexists|].
  destruct (negb _); [by eexists|].
  destruct (key_missing _); [by eexists|].
  destruct (_perform_openai_extraction _ _ _); by eexists.
Qed.

(** The Category Matcher raises only when ["openai_extracted"] is there
    and is not a mapping. *)
Lemma openai_matching_returns o c (data section : dict) :
  dict_get data "openai_extracted" (VDict ∅) = VDict section ->
  exists out, (openai_matching o c data).1 = Ok out.
Proof.
  intros H. unfold openai_matching. rewrite H. simpl.
  destruct (_ || _); [by eexists|].
  destruct (negb _); [by eexists|].
  destruct (get_metiers_reference o c) as [[|metier metiers] c']; [by eexists|].
  simpl. unbind.
  destruct (py_iter _) as [items|e]; [|by eexists].
  destruct (match_experiences _ _ _) as [entries|e]; [|by eexists].
  destruct (log_matches _); by eexists.
Qed.

Lemma cv_data_of_returns (extraction_section matching_section : dict) :
  exists cv_data,
    cv_data_of (VDict extraction_section) (VDict matching_section) = Ok cv_data.
Proof.
  unfold cv_data_of, py_get. unbind.
  destruct (truthy (VDict extraction_section)), (truthy (VDict matching_section));
    repeat (destruct (negb _)); by eexists.
Qed.

(** The Transformer returns on a record whose sections are mappings and
    whose text, when it is document-derived, is a string. *)
Lemma transformation_returns o (data extracted a b : dict) :
  dict_get data "extracted" (VDict ∅) = VDict extracted ->
  dict_get data "openai_extracted" (VDict ∅) = VDict a ->
  dict_get data "openai_matching" (VDict ∅) = VDict b ->
  (truthy (dict_get data "pdf_available" (VBool false)) = true ->
   data !! "extraction_error" = None ->
   exists text (metadata : dict),
     extracted !! "text_content" = Some (VStr text)
     /\ extracted !! "metadata" = Some (VDict metadata)
     /\ metadata !! "language" = None) ->
  exists out, transformation o data = Ok out.
Proof.
  intros He Ha Hb Hdoc. unfold transformation. rewrite He, Ha, Hb.
  destruct (truthy _); [|by eexists].
  destruct (data !! "extraction_error"); [by eexists|].
  destruct (Hdoc eq_refl eq_refl) as (text & metadata & Ht & Hm & Hl).
  unfold py_get, dict_get. rewrite Ht, Hm. simpl. unbind.
  destruct (cv_data_of_returns a b) as [cv_data ->].
  unfold language_of, py_get, dict_get. rewrite Hl. simpl. by eexists.
Qed.

(** The record that reaches the Transformer: the Field Extractor and the
    Category Matcher have returned, each has added its section, and the
    entries of the Text Extractor are still there. *)
Lemma pipeline_upto_matcher o c (data : dict) :
  exists (extracted section section' : dict) (available : bool) fields matches c',
    openai_extraction o (extraction o data) = Ok fields
    /\ openai_matching o c fields = (Ok matches, c')
    /\ extraction o data !! "extracted" = Some (VDict extracted)
    /\ extraction o data !! "pdf_available" = Some (VBool available)
    /\ fields !! "openai_extracted" = Some (VDict section)
    /\ matches !! "extracted" = Some (VDict extracted)
    /\ matches !! "pdf_available" = Some (VBool available)
    /\ matches !! "openai_extracted" = Some (VDict section)
    /\ matches !! "openai_matching" = Some (VDict section')
    /\ matches !! "statistics" = None
    /\ matches !! "extraction_error" = extraction o data !! "extraction_error"
    /\ (available = true -> extraction o data !! "extraction_error" = None ->
        exists text (metadata : dict),
          extracted !! "text_content" = Some (VStr text)
          /\ extracted !! "metadata" = Some (VDict metadata)
          /\ metadata !! "language" = None).
Proof.
  destruct (extraction_record o data)
    as (extracted & available & He & Hb & Hf & Hm & Hs & Hst & Hdoc).
  set (te := extraction o data) in *. clearbody te.
  (* the Field Extractor *)
  destruct (openai_extraction_returns o te extracted) as [fe Hfe].
  { unfold dict_get. by rewrite He. }
  destruct (openai_extraction_spreads _ _ _ Hfe) as (section & success & ->).
  set (fe := spread_last _ te) in *.
  assert (Hfe_ext : fe !! "extracted" = Some (VDict extracted))
    by (by apply spread_last_lookup_data).
  assert (Hfe_pdf : fe !! "pdf_available" = Some (VBool available))
    by (by apply spread_last_lookup_data).
  assert (Hfe_sec : fe !! "openai_extracted" = Some (VDict section)).
  { subst fe. rewrite spread_last_lookup_literal by done. by lookup_through. }
  assert (Hfe_m : fe !! "openai_matching" = None).
  { subst fe. rewrite spread_last_lookup_other by (by lookup_through). done. }
  assert (Hfe_st : fe !! "statistics" = None).
  { subst fe. rewrite spread_last_lookup_other by (by lookup_through). done. }
  assert (Hfe_err : fe !! "extraction_error" = te !! "extraction_error").
  { subst fe. by rewrite spread_last_lookup_other by (by lookup_through). }
  clearbody fe.
  (* the Category Matcher *)
  destruct (openai_matching_returns o c fe section) as [cm Hcm].
  { unfold dict_get. by rewrite Hfe_sec. }
  destruct (openai_matching_spreads _ _ _ _ Hcm) as (section' & success' & ->).
  set (cm := spread_last _ fe) in *.
  assert (Hcm_ext : cm !! "extracted" = Some (VDict extracted))
    by (by apply spread_last_lookup_data).
  assert (Hcm_pdf : cm !! "pdf_available" = Some (VBool available))
    by (by apply spread_last_lookup_data).
  assert (Hcm_sec : cm !! "openai_extracted" = Some (VDict section))
    by (by apply spread_last_lookup_data).
  assert (Hcm_m : cm !! "openai_matching" = Some (VDict section')).
  { subst cm. rewrite spread_last_lookup_literal by done. by lookup_through. }
  assert (Hcm_st : cm !! "statistics" = None).
  { subst cm. rewrite spread_last_lookup_other by (by lookup_through). done. }
  assert (Hcm_err : cm !! "extraction_error" = te !! "extraction_error").
  { subst cm. rewrite spread_last_lookup_other by (by lookup_through). done. }
  clearbody cm.
  exists extracted, section, section', available, fe, cm, (openai_matching o c fe).2.
  destruct (openai_matching o c fe) as [r c']. simpl in Hcm. subst r.
  by repeat split.
Qed.

(** The five stages of the repository, chained, never raise. *)
Lemma pipeline_returns o c (data : dict) :
  exists fields matches c' transformed loaded,
    openai_extraction o (extraction o data) = Ok fields
    /\ openai_matching o c fields = (Ok matches, c')
    /\ transformation o matches = Ok transformed
    /\ chargement o transformed = Ok loaded.
Proof.
  destruct (pipeline_upto_matcher o c data)
    as (extracted & section & section' & available & fe & cm & c'
        & Hfe & Hcm & _ & _ & _ & Hext & Hpdf & Hsec & Hm & Hst & Herr & Hdoc).
  destruct (transformation_returns o cm extracted section section') as [tr Htr].
  { unfold dict_get. by rewrite Hext. }
  { unfold dict_get. by rewrite Hsec. }
  { unfold dict_get. by rewrite Hm. }
  { unfold dict_get. rewrite Hpdf, Herr. simpl. intros -> Hnone. by apply Hdoc. }
  destruct (chargement_returns_on_transformed o o cm tr Htr) as [ld Hld]; [by right|].
  by exists fe, cm, c', tr, ld.
Qed.

(** ** The flow and the registry *)

(** The flow follows the chain of its tasks; the entry of the run
    records how the chain ended. *)
Lemma flow_follows_tasks {S : Type}
    (extraction_task openai_extraction_task openai_matching_task
     transformation_task chargement_task : dict -> S -> res dict * S)
    workflow_id input_data (reg : gmap string dict) (s : S) info :
  reg !! workflow_id = Some info ->
  workflow_process_with extraction_task openai_extraction_task openai_matching_task
                        transformation_task chargement_task
                        workflow_id input_data (Process reg s)
  = match run_tasks extraction_task openai_extraction_task openai_matching_task
                    transformation_task chargement_task input_data s with
    | (Ok result, s') =>
        (Ok result,
         Process (<[workflow_id := <["status" := VStr "completed"]> info]> reg) s')
    | (Raise e, s') =>
        (Raise e,
         Process (<[workflow_id := <["error" := VStr (str_of_exn e)]>
                                     (<["status" := VStr "failed"]> info)]> reg) s')
    end.
Proof.
  intros Hreg.
  unfold workflow_process_with, workflow_body, run_tasks.
  unfold mbind, run_bind, mret, run_ret, call.
  rewrite (set_field_registered _ _ _ _ _ _ Hreg). cbn [active_workflows task_state].
  destruct (extraction_task _ s) as [[d1|e] s1]; flow_step; [|done].
  destruct (openai_extraction_task d1 s1) as [[d2|e] s2]; flow_step; [|done].
  destruct (openai_matching_task d2 s2) as [[d3|e] s3]; flow_step; [|done].
  destruct (transformation_task d3 s3) as [[d4|e] s4]; flow_step; [|done].
  destruct (chargement_task d4 s4) as [[d5|e] s5]; flow_step; done.
Qed.

(** X1.  With the five tasks of the repository no exception leaves a
    registered run.  Whatever the input record and whatever the outside
    world does (unreadable document, no credential, failing service,
    missing catalog), the flow returns the record of the Loader and the
    run ends with status "completed"; the status "failed" is never
    written.  Faults of the stages are reported inside the record. *)
Theorem registered_run_completes o workflow_id input_data
    (reg : gmap string dict) (c : cache) info :
  reg !! workflow_id = Some info ->
  exists result c',
    workflow_process o workflow_id input_data (Process reg c)
    = (Ok result,
       Process (<[workflow_id := <["status" := VStr "completed"]> info]> reg) c')
    /\ result !! "step" = Some (VStr "load_complete")
    /\ exists status,
         subfield (Ok result) "loaded" "load_status" = Some (VStr status)
         /\ (status = "success" \/ status = "failed").
Proof.
  intros Hreg. unfold workflow_process.
  rewrite (flow_follows_tasks _ _ _ _ _ _ _ _ _ _ Hreg). unfold run_tasks.
  destruct (pipeline_returns o c (default {[ "initial" := VStr "data" ]} input_data))
    as (fe & cm & c' & tr & ld & Hfe & Hcm & Htr & Hld).
  rewrite Hfe, Hcm, Htr, Hld. exists ld, c'. split; [done|].
  destruct (chargement_loaded_section _ _ _ Hld) as [loaded Hloaded].
  destruct (chargement_status _ _ _ _ Hld Hloaded) as [Hstatus _].
  split.
  - revert Hld. unfold chargement. destruct (truthy _); unbind.
    + destruct (loaded_of _ _); [|done]. intros [= <-]. by lookup_through.
    + destruct (py_get _ _ _); [|done]. intros [= <-]. by lookup_through.
  - unfold subfield, field. rewrite Hloaded.
    eexists. split; [exact Hstatus|]. destruct (truthy _); by eauto.
Qed.

Lemma registered_run_completes_witness :
  exists result c',
    workflow_process Samples.offline "run-1" (Some Samples.upload)
                     (Process Samples.registered cache_at_import)
    = (Ok result,
       Process (<["run-1" := <["status" := VStr "completed"]> Samples.run_info]>
                  Samples.registered) c').
Proof.
  destruct (registered_run_completes Samples.offline "run-1" (Some Samples.upload)
              Samples.registered cache_at_import Samples.run_info
              (lookup_singleton_eq _ _)) as (result & c' & H & _).
  by exists result, c'.
Defined.

(** X2.  A run whose identifier is not in the registry fails with the
    lookup error of that identifier before any task is called: the flow
    raises [KeyError], the registry and the state of the tasks are as
    they were. *)
Theorem unregistered_run_fails {S : Type}
    (extraction_task openai_extraction_task openai_matching_task
     transformation_task chargement_task : dict -> S -> res dict * S)
    workflow_id input_data (reg : gmap string dict) (s : S) :
  reg !! workflow_id = None ->
  workflow_process_with extraction_task openai_extraction_task openai_matching_task
                        transformation_task chargement_task
                        workflow_id input_data (Process reg s)
  = (Raise (Exn KeyError ("'" ++ workflow_id ++ "'")), Process reg s).
Proof.
  intros Hreg. unfold workflow_process_with, workflow_body.
  unfold mbind, run_bind, set_field. cbn [active_workflows task_state].
  rewrite Hreg. cbn [active_workflows task_state]. by rewrite Hreg.
Qed.

Lemma unregistered_run_fails_witness :
  workflow_process Samples.offline "run-2" (Some Samples.upload)
                   (Process Samples.registered cache_at_import)
  = (Raise (Exn KeyError "'run-2'"), Process Samples.registered cache_at_import).
Proof.
  unfold workflow_process. apply unregistered_run_fails.
  vm_compute. reflexivity.
Defined.

(** X3.  A run touches its own entry only.  Whatever the tasks do, the
    entries of the other runs are as they were, and in the entry of the
    run every field but [status] and [error] keeps its value (the name,
    the start time, the stored input). *)
Theorem run_updates_own_entry_only {S : Type}
    (extraction_task openai_extraction_task openai_matching_task
     transformation_task chargement_task : dict -> S -> res dict * S)
    workflow_id input_data (reg : gmap string dict) (s : S) info :
  reg !! workflow_id = Some info ->
  let after :=
    active_workflows
      (workflow_process_with extraction_task openai_extraction_task openai_matching_task
                             transformation_task chargement_task
                             workflow_id input_data (Process reg s)).2 in
  (forall other, other <> workflow_id -> after !! other = reg !! other)
  /\ exists info',
      after !! workflow_id = Some info'
      /\ forall k, k <> "status" -> k <> "error" -> info' !! k = info !! k.
Proof.
  intros Hreg after. subst after.
  rewrite (flow_follows_tasks _ _ _ _ _ _ _ _ _ _ Hreg).
  destruct (run_tasks _ _ _ _ _ _ _) as [[result|e] s']; cbn [snd active_workflows].
  - split.
    + intros other Hother. by rewrite lookup_insert_ne.
    + eexists. split; [apply lookup_insert_eq|].
      intros k Hs _. by rewrite lookup_insert_ne.
  - split.
    + intros other Hother. by rewrite lookup_insert_ne.
    + eexists. split; [apply lookup_insert_eq|].
      intros k Hs He. by rewrite !lookup_insert_ne.
Qed.

Lemma run_updates_own_entry_only_witness :
  let after :=
    active_workflows
      (workflow_process Samples.offline "run-1" (Some Samples.upload)
         (Process Samples.registered cache_at_import)).2 in
  exists info',
    after !! "run-1" = Some info'
    /\ forall k, k <> "status" -> k <> "error" -> info' !! k = Samples.run_info !! k.
Proof.
  unfold workflow_process.
  apply (run_updates_own_entry_only _ _ _ _ _ "run-1" (Some Samples.upload)
           Samples.registered cache_at_import Samples.run_info).
  apply lookup_singleton_eq.
Defined.

(** ** Documents through the Transformer and the Loader *)

Lemma truthy_dict_with_entry (d : dict) k v : d !! k = Some v -> truthy (VDict d) = true.
Proof.
  intros H. simpl. destruct (map_to_list d) as [|kv l] eqn:E; [|done].
  apply map_to_list_empty_iff in E. subst d. by rewrite lookup_empty in H.
Qed.

(** What the Transformer computes for a document that was read. *)
Lemma transformation_document o (data extracted metadata a b cv_data : dict) text :
  truthy (dict_get data "pdf_available" (VBool false)) = true ->
  data !! "extraction_error" = None ->
  data !! "extracted" = Some (VDict extracted) ->
  extracted !! "text_content" = Some (VStr text) ->
  extracted !! "metadata" = Some (VDict metadata) ->
  metadata !! "language" = None ->
  dict_get data "openai_extracted" (VDict ∅) = VDict a ->
  dict_get data "openai_matching" (VDict ∅) = VDict b ->
  cv_data_of (VDict a) (VDict b) = Ok cv_data ->
  transformation o data
  = Ok {[ "transformed" := VDict
            {[ "original_filename" := dict_get extracted "pdf_filename" (VStr "document.pdf");
               "statistics" := VDict
                 {[ "word_count" := VInt (Z.of_nat (length (split text)));
                    "character_count" := VInt (Z.of_nat (String.length text));
                    "page_count" := dict_get extracted "num_pages" (VInt 0) ]};
               "content_analysis" := VDict
                 {[ "keywords" := VList (keywords_of text); "language" := VStr "en" ]};
               "cv_data" := VDict cv_data;
               "metadata" := VDict metadata;
               "transformation_time" := VFloat (time_transformation o) ]};
          "step" := VStr "transformation";
          "success" := VBool true ]}.
Proof.
  intros Hpdf Herr Hext Htext Hmeta Hlang Ha Hb Hcv.
  unfold transformation, language_of, py_get, dict_get in *.
  rewrite Hpdf, Herr, Ha, Hb, Hext. cbn [default from_option id].
  rewrite Htext, Hmeta. cbn [default from_option id]. unbind.
  rewrite Hcv, Hlang. done.
Qed.

(** The section the Category Matcher adds always has a status and a
    list of matches. *)
Lemma openai_matching_section o c (data out : dict) :
  (openai_matching o c data).1 = Ok out ->
  data !! "openai_matching" = None ->
  exists (section : dict) status entries,
    out !! "openai_matching" = Some (VDict section)
    /\ section !! "status" = Some (VStr status)
    /\ section !! "metiers_matches" = Some (VList entries)
    /\ (status = "error" \/ status = "warning" \/ status = "success").
Proof.
  intros H Hfresh.
  assert (Hall : forall (section : dict) success status entries,
    out = matching_response section success data ->
    section !! "status" = Some (VStr status) ->
    section !! "metiers_matches" = Some (VList entries) ->
    status = "error" \/ status = "warning" \/ status = "success" ->
    exists (section : dict) status entries,
      out !! "openai_matching" = Some (VDict section)
      /\ section !! "status" = Some (VStr status)
      /\ section !! "metiers_matches" = Some (VList entries)
      /\ (status = "error" \/ status = "warning" \/ status = "success")).
  { intros section success status entries -> Hs Hm Hcase.
    exists section, status, entries. split; [|done].
    unfold matching_response. rewrite spread_last_lookup_literal by done.
    by lookup_through. }
  revert H. unfold openai_matching, matching_error.
  destruct (_ || _); simpl.
  { intros [= <-]. eapply Hall; [done| | |]; [by lookup_through..|by left]. }
  destruct (py_get _ _ _) as [experiences|e]; simpl; [|done].
  destruct (negb (truthy experiences)); simpl.
  { intros [= <-]. eapply Hall; [done| | |]; [by lookup_through..|by right; left]. }
  destruct (get_metiers_reference o c) as [[|metier metiers] c']; simpl.
  { intros [= <-]. eapply Hall; [done| | |]; [by lookup_through..|by left]. }
  unbind.
  destruct (py_iter experiences) as [items|e].
  2: { intros [= <-]. eapply Hall; [done| | |]; [by lookup_through..|by left]. }
  destruct (match_experiences _ _ _) as [entries|e].
  2: { intros [= <-]. eapply Hall; [done| | |]; [by lookup_through..|by left]. }
  destruct (log_matches _).
  - intros [= <-]. eapply Hall; [done| | |]; [by lookup_through..|by right; right].
  - intros [= <-]. eapply Hall; [done| | |]; [by lookup_through..|by left].
Qed.

Lemma cv_data_of_matches (a b cv_data : dict) status matches :
  cv_data_of (VDict a) (VDict b) = Ok cv_data ->
  b !! "status" = Some (VStr status) ->
  b !! "metiers_matches" = Some matches ->
  cv_data !! "metiers_matches" = if String.eqb status "error" then None else Some matches.
Proof.
  intros H Hs Hm. revert H. unfold cv_data_of, py_get, dict_get. unbind.
  rewrite (truthy_dict_with_entry b _ _ Hs), Hs, Hm. cbn [default from_option id eq_str].
  assert (Hfirst : forall cv0 : dict,
    cv0 !! "metiers_matches" = None ->
    (if negb (String.eqb status "error")
     then Ok (<["metiers_matches" := matches]> cv0) else Ok cv0) = Ok cv_data ->
    cv_data !! "metiers_matches"
    = if String.eqb status "error" then None else Some matches).
  { intros cv0 H0. destruct (String.eqb status "error"); simpl; intros [= <-];
      [done|by lookup_through]. }
  destruct (truthy (VDict a)); [|by apply Hfirst].
  destruct (eq_str (default VNone (a !! "status")) "error"); cbn [negb];
    apply Hfirst; by lookup_through.
Qed.

(** A document that was read, on its way to the Transformer. *)
Lemma readable_document_transformed o c (data : dict) payload size info pages :
  data !! "pdf_content_b64" = Some payload ->
  read_pdf o payload = PdfDocument size info pages ->
  exists (extracted metadata section section' cv_data : dict) fields matches c',
    openai_extraction o (extraction o data) = Ok fields
    /\ openai_matching o c fields = (Ok matches, c')
    /\ fields !! "openai_extracted" = Some (VDict section)
    /\ matches !! "openai_matching" = Some (VDict section')
    /\ cv_data_of (VDict section) (VDict section') = Ok cv_data
    /\ extracted !! "num_pages" = Some (VInt (Z.of_nat (length pages)))
    /\ extracted !! "pdf_filename" = Some (dict_get data "pdf_filename" (VStr "document.pdf"))
    /\ transformation o matches
       = Ok {[ "transformed" := VDict
                 {[ "original_filename" :=
                      dict_get extracted "pdf_filename" (VStr "document.pdf");
                    "statistics" := VDict
                      {[ "word_count" :=
                           VInt (Z.of_nat (length (split (join_pages pages))));
                         "character_count" :=
                           VInt (Z.of_nat (String.length (join_pages pages)));
                         "page_count" := dict_get extracted "num_pages" (VInt 0) ]};
                    "content_analysis" := VDict
                      {[ "keywords" := VList (keywords_of (join_pages pages));
                         "language" := VStr "en" ]};
                    "cv_data" := VDict cv_data;
                    "metadata" := VDict metadata;
                    "transformation_time" := VFloat (time_transformation o) ]};
               "step" := VStr "transformation";
               "success" := VBool true ]}.
Proof.
  intros Hpayload Hread.
  destruct (pipeline_upto_matcher o c data)
    as (extracted & section & section' & available & fe & cm & c'
        & Hfe & Hcm & Hte_ext & Hte_pdf & Hfe_sec & Hext & Hpdf & Hsec & Hm & _ & Herr & Hdoc).
  assert (Hte : extraction o data !! "pdf_available" = Some (VBool true)
                /\ extraction o data !! "extraction_error" = None
                /\ subfield (Ok (extraction o data)) "extracted" "text_content"
                   = Some (VStr (join_pages pages))
                /\ subfield (Ok (extraction o data)) "extracted" "num_pages"
                   = Some (VInt (Z.of_nat (length pages)))
                /\ subfield (Ok (extraction o data)) "extracted" "pdf_filename"
                   = Some (dict_get data "pdf_filename" (VStr "document.pdf"))).
  { unfold extraction, subfield, field. rewrite Hpayload, Hread. lookup_through.
    repeat split; by lookup_through. }
  destruct Hte as (Havail & Hnone & Htext & Hpages & Hname).
  rewrite Hte_pdf in Havail. injection Havail as ->.
  unfold subfield, field in Htext, Hpages, Hname. rewrite Hte_ext in Htext, Hpages, Hname.
  destruct (Hdoc eq_refl Hnone) as (text & metadata & Htext' & Hmeta & Hlang).
  rewrite Htext in Htext'. injection Htext' as <-.
  destruct (cv_data_of_returns section section') as [cv_data Hcv].
  exists extracted, metadata, section, section', cv_data, fe, cm, c'.
  repeat split; try done.
  apply (transformation_document o cm extracted metadata section section'); try done.
  - unfold dict_get. by rewrite Hpdf.
  - by rewrite Herr.
  - unfold dict_get. by rewrite Hsec.
  - unfold dict_get. by rewrite Hm.
Qed.

(** X4.  The language guess of the Transformer is constant for uploaded
    documents.  The Text Extractor stores the document information under
    keys that start with an underscore, so the Transformer never finds a
    ["language"] entry: for every document that was read, whatever the
    other stages did, the analysis says ["en"]. *)
Theorem document_language_is_en o c (data : dict) payload size info pages :
  data !! "pdf_content_b64" = Some payload ->
  read_pdf o payload = PdfDocument size info pages ->
  let transformed :=
    d ← (d ← openai_extraction o (extraction o data); (openai_matching o c d).1);
    transformation o d in
  exists analysis : dict,
    subfield transformed "transformed" "content_analysis" = Some (VDict analysis)
    /\ analysis !! "language" = Some (VStr "en").
Proof.
  intros Hpayload Hread transformed. subst transformed.
  destruct (readable_document_transformed o c data payload size info pages Hpayload Hread)
    as (extracted & metadata & section & section' & cv_data & fe & cm & c'
        & Hfe & Hcm & _ & _ & _ & _ & _ & Htr).
  rewrite Hfe. unbind. rewrite Hcm. cbn [fst]. rewrite Htr.
  exists {[ "keywords" := VList (keywords_of (join_pages pages));
            "language" := VStr "en" ]}.
  unfold subfield, field. lookup_through. split; [reflexivity|].
  by lookup_through.
Qed.

Lemma document_language_is_en_witness :
  let o := Samples.world 12 true true in
  let transformed :=
    d ← (d ← openai_extraction o (extraction o Samples.upload);
         (openai_matching o cache_at_import d).1);
    transformation o d in
  exists analysis : dict,
    subfield transformed "transformed" "content_analysis" = Some (VDict analysis)
    /\ analysis !! "language" = Some (VStr "en").
Proof.
  intros o.
  apply (document_language_is_en o cache_at_import Samples.upload (VStr "JVBERi0xLjQK") 2048
           (Some [("Author", VStr "A. Kone"); ("Producer", VStr "pdflatex")])
           ["Comptable senior Abidjan"; "comptable depuis 2015"]).
  - vm_compute. reflexivity.
  - reflexivity.
Defined.

(** X5.  What the Category Matcher found reaches the loaded record as it
    is.  For every document that was read, the ["loaded"] section has
    [load_status = "success"], and its [metiers_matches] is the list of
    the Category Matcher's section when the status of that section is
    "success" or "warning"; when that status is "error" the loaded
    record has no [metiers_matches]. *)
Theorem matches_reach_the_loaded_record o c (data : dict) payload size info pages :
  data !! "pdf_content_b64" = Some payload ->
  read_pdf o payload = PdfDocument size info pages ->
  let matched := d ← openai_extraction o (extraction o data); (openai_matching o c d).1 in
  let loaded := d ← (d ← matched; transformation o d); chargement o d in
  exists status,
    subfield matched "openai_matching" "status" = Some (VStr status)
    /\ subfield loaded "loaded" "load_status" = Some (VStr "success")
    /\ subfield loaded "loaded" "metiers_matches"
       = if String.eqb status "error" then None
         else subfield matched "openai_matching" "metiers_matches".
Proof.
  intros Hpayload Hread matched loaded. subst matched loaded.
  destruct (readable_document_transformed o c data payload size info pages Hpayload Hread)
    as (extracted & metadata & section & section' & cv_data & fe & cm & c'
        & Hfe & Hcm & Hfe_sec & Hm & Hcv & _ & _ & Htr).
  assert (Hcm' : (openai_matching o c fe).1 = Ok cm) by (by rewrite Hcm).
  assert (Hfresh : fe !! "openai_matching" = None).
  { destruct (openai_extraction_spreads _ _ _ Hfe) as (s & b & ->).
    rewrite spread_last_lookup_other by (by lookup_through).
    unfold extraction. rewrite Hpayload, Hread. by lookup_through. }
  destruct (openai_matching_section o c fe cm Hcm' Hfresh)
    as (section'' & status & entries & Hm' & Hstatus & Hentries & _).
  rewrite Hm in Hm'. injection Hm' as <-.
  rewrite Hfe. unbind. rewrite Hcm. cbn [fst]. rewrite Htr.
  exists status. unfold subfield, field. rewrite Hm. split; [done|].
  unfold chargement, dict_get. lookup_through. cbn [default from_option id truthy].
  erewrite loaded_of_statistics; cycle 1.
  { by lookup_through. }
  { unfold dict_get. by lookup_through. }
  { unfold dict_get. by lookup_through. }
  { unfold dict_get. by lookup_through. }
  rewrite (cv_data_of_matches _ _ _ _ _ Hcv Hstatus Hentries). cbv zeta. unbind.
  lookup_through.
  destruct (String.eqb status "error"); lookup_through; by rewrite ?Hentries.
Qed.

Lemma matches_reach_the_loaded_record_witness :
  let o := Samples.world 12 true true in
  let matched :=
    d ← openai_extraction o (extraction o Samples.upload);
    (openai_matching o cache_at_import d).1 in
  let loaded := d ← (d ← matched; transformation o d); chargement o d in
  subfield matched "openai_matching" "status" = Some (VStr "success")
  /\ subfield loaded "loaded" "metiers_matches"
     = subfield matched "openai_matching" "metiers_matches".
Proof.
  intros o matched loaded.
  destruct (matches_reach_the_loaded_record o cache_at_import Samples.upload
              (VStr "JVBERi0xLjQK") 2048
              (Some [("Author", VStr "A. Kone"); ("Producer", VStr "pdflatex")])
              ["Comptable senior Abidjan"; "comptable depuis 2015"])
    as (status & Hstatus & _ & Hmatches).
  - vm_compute. reflexivity.
  - reflexivity.
  - assert (Hs : subfield matched "openai_matching" "status" = Some (VStr "success"))
      by (vm_compute; reflexivity).
    split; [exact Hs|].
    fold matched in Hstatus. rewrite Hs in Hstatus. injection Hstatus as <-.
    exact Hmatches.
Defined.

(** X6.  A payload that cannot be read fails the load, and says why.
    The Text Extractor records the message of the fault and no text; the
    Field Extractor and the Category Matcher report an error without
    calling the service; the Transformer reports [success = False] and
    computes no statistics; the Loader returns [load_status = "failed"]
    with the message of the fault in [original_error]. *)
Theorem unreadable_document_fails_the_load o c (data : dict) payload msg :
  data !! "pdf_content_b64" = Some payload ->
  read_pdf o payload = PdfFault msg ->
  let fields := openai_extraction o (extraction o data) in
  let matched := d ← fields; (openai_matching o c d).1 in
  let transformed := d ← matched; transformation o d in
  let loaded := d ← transformed; chargement o d in
  extraction o data !! "extraction_error" = Some (VStr msg)
  /\ subfield (Ok (extraction o data)) "extracted" "text_content" = None
  /\ subfield fields "openai_extracted" "error" = Some (VStr ERROR_NO_PDF_DATA)
  /\ subfield matched "openai_matching" "status" = Some (VStr "error")
  /\ field transformed "success" = Some (VBool false)
  /\ subfield transformed "transformed" "statistics" = None
  /\ subfield loaded "loaded" "load_status" = Some (VStr "failed")
  /\ subfield loaded "loaded" "original_error"
     = Some (VStr ("Erreur lors de l'extraction: " ++ msg))
  /\ field loaded "success" = Some (VBool false).
Proof.
  intros Hpayload Hread fields matched transformed loaded.
  subst fields matched transformed loaded.
  assert (Hte : extraction o data !! "extraction_error" = Some (VStr msg)
                /\ subfield (Ok (extraction o data)) "extracted" "text_content" = None
                /\ extraction o data !! "pdf_available" = Some (VBool true)
                /\ extraction o data !! "success" = None
                /\ extraction o data !! "openai_extracted" = None
                /\ extraction o data !! "openai_matching" = None).
  { unfold extraction, subfield, field. rewrite Hpayload, Hread. lookup_through.
    repeat split; by lookup_through. }
  destruct Hte as (Herr & Htext & Hpdf & Hsuccess & Hfields & Hmatching).
  set (te := extraction o data) in *. clearbody te.
  split; [done|]. split; [done|].
  (* the Field Extractor *)
  assert (Hfe : openai_extraction o te = Ok (_create_error_response ERROR_NO_PDF_DATA te)).
  { unfold openai_extraction, has_key. rewrite Herr. by rewrite orb_true_r. }
  rewrite Hfe. clear Hfe. unbind.
  set (fe := _create_error_response ERROR_NO_PDF_DATA te).
  assert (Hfe_sec : fe !! "openai_extracted"
            = Some (VDict {[ "error" := VStr ERROR_NO_PDF_DATA; "status" := VStr "error" ]})).
  { subst fe. unfold _create_error_response.
    rewrite spread_last_lookup_literal by done. by lookup_through. }
  assert (Hfe_success : fe !! "success" = Some (VBool false)).
  { subst fe. unfold _create_error_response.
    rewrite spread_last_lookup_literal by done. by lookup_through. }
  assert (Hfe_m : fe !! "openai_matching" = None).
  { subst fe. unfold _create_error_response.
    rewrite spread_last_lookup_other by (by lookup_through). done. }
  assert (Hfe_err : fe !! "extraction_error" = Some (VStr msg))
    by (by apply spread_last_lookup_data).
  assert (Hfe_pdf : fe !! "pdf_available" = Some (VBool true))
    by (by apply spread_last_lookup_data).
  clearbody fe.
  split. { unfold subfield, field. rewrite Hfe_sec. by lookup_through. }
  (* the Category Matcher *)
  rewrite (openai_matching_after_failure o c fe)
    by (unfold dict_get; by rewrite Hfe_success).
  cbn [fst].
  set (cm := matching_error "Aucune donnée extraite par OpenAI disponible" fe).
  assert (Hcm_m : subfield (Ok cm) "openai_matching" "status" = Some (VStr "error")).
  { subst cm. unfold subfield, field, matching_error, matching_response.
    rewrite spread_last_lookup_literal by done. by lookup_through. }
  assert (Hcm_err : cm !! "extraction_error" = Some (VStr msg))
    by (by apply spread_last_lookup_data).
  assert (Hcm_pdf : cm !! "pdf_available" = Some (VBool true))
    by (by apply spread_last_lookup_data).
  clearbody cm.
  split; [done|].
  (* the Transformer *)
  assert (Htr : transformation o cm
    = Ok {[ "transformed" := VDict
              {[ "error" := VStr ("Erreur lors de l'extraction: " ++ msg);
                 "status" := VStr "error" ]};
            "step" := VStr "transformation";
            "success" := VBool false ]}).
  { unfold transformation, dict_get. by rewrite Hcm_pdf, Hcm_err. }
  rewrite Htr. clear Htr.
  split; [unfold field; by lookup_through|].
  split; [unfold subfield, field; by lookup_through|].
  (* the Loader *)
  unfold chargement, py_get, dict_get. lookup_through.
  cbn [default from_option id truthy]. unbind. lookup_through.
  unfold subfield, field. lookup_through.
  split; [by lookup_through|]. split; by lookup_through.
Qed.

Lemma unreadable_document_fails_the_load_witness :
  let o := MoreSamples.garbled in
  let loaded :=
    d ← (d ← (d ← openai_extraction o (extraction o Samples.upload);
              (openai_matching o cache_at_import d).1);
         transformation o d);
    chargement o d in
  subfield loaded "loaded" "load_status" = Some (VStr "failed")
  /\ subfield loaded "loaded" "original_error"
     = Some (VStr "Erreur lors de l'extraction: EOF marker not found").
Proof.
  intros o loaded.
  destruct (unreadable_document_fails_the_load o cache_at_import Samples.upload
              (VStr "JVBERi0xLjQK") "EOF marker not found")
    as (_ & _ & _ & _ & _ & _ & Hstatus & Herror & _).
  - vm_compute. reflexivity.
  - reflexivity.
  - by split.
Defined.

(** ** Keywords *)

Lemma count_add_keys w (acc : list (string * nat)) :
  (count_add w acc).*1 = if decide (w ∈ acc.*1) then acc.*1 else (acc.*1 ++ [w])%list.
Proof.
  induction acc as [|[w' n] acc IH]; [done|]. cbn [count_add].
  destruct (String.eqb_spec w w') as [->|Hne]; rewrite !fmap_cons; cbn [fst].
  - rewrite decide_True; [done|]. by left.
  - rewrite IH. destruct (decide (w ∈ acc.*1)) as [Hin|Hnin].
    + rewrite decide_True; [done|]. by right.
    + rewrite decide_False; [done|].
      intros Hin. apply elem_of_cons in Hin as [?|?]; done.
Qed.

Lemma Counter_from_keys (words : list string) (acc : list (string * nat)) :
  NoDup acc.*1 ->
  NoDup (fold_left (fun acc w => count_add w acc) words acc).*1
  /\ forall k, k ∈ (fold_left (fun acc w => count_add w acc) words acc).*1
               <-> k ∈ acc.*1 \/ k ∈ words.
Proof.
  revert acc. induction words as [|w words IH]; intros acc Hacc; simpl.
  - split; [done|]. intros k. split; [by left|]. intros [?|H]; [done|]. by inversion H.
  - assert (Hstep : NoDup (count_add w acc).*1
                    /\ forall k, k ∈ (count_add w acc).*1 <-> k ∈ acc.*1 \/ k = w).
    { rewrite count_add_keys. destruct (decide (w ∈ acc.*1)) as [Hin|Hnin].
      - split; [done|]. intros k. split; [by left|]. by intros [?| ->].
      - split.
        + apply NoDup_app. split; [done|]. split; [|apply NoDup_singleton].
          intros x Hx Hw. apply list_elem_of_singleton in Hw. by subst.
        + intros k. rewrite elem_of_app, list_elem_of_singleton. done. }
    destruct Hstep as [Hnd Hmem]. destruct (IH _ Hnd) as [IH1 IH2].
    split; [done|]. intros k. rewrite IH2, Hmem, elem_of_cons. tauto.
Qed.

Lemma insert_by_count_perm x l : insert_by_count x l ≡ₚ x :: l.
Proof.
  induction l as [|y l IH]; [done|]. simpl.
  destruct (x.2 <=? y.2)%nat; [|done].
  rewrite IH. apply Permutation_swap.
Qed.

Lemma sort_by_count_perm (c acc : list (string * nat)) :
  fold_left (fun sorted x => insert_by_count x sorted) c acc ≡ₚ (c ++ acc)%list.
Proof.
  revert acc. induction c as [|x c IH]; intros acc; simpl; [done|].
  rewrite IH, insert_by_count_perm. by rewrite Permutation_middle.
Qed.

(** X7.  The keywords of a text: at most ten, no word twice, and each
    one is the lower-case form of a word of the text that has more than
    three characters. *)
Theorem keywords_of_text text :
  (length (keywords_of text) <= 10)%nat
  /\ NoDup (keywords_of text)
  /\ forall k, k ∈ keywords_of text ->
       exists word,
         word ∈ split text /\ (3 < String.length word)%nat /\ k = VStr (lower word).
Proof.
  unfold keywords_of. destruct (0 <? length (split text))%nat.
  2: { split; [simpl; lia|]. split; [apply NoDup_nil_2|]. intros k H. by inversion H. }
  set (words := lower <$> filter (fun word => (3 < String.length word)%nat) (split text)).
  destruct (Counter_from_keys words [] (NoDup_nil_2)) as [Hnd Hmem].
  fold (Counter words) in Hnd, Hmem.
  unfold most_common.
  set (sorted := fold_left (fun sorted x => insert_by_count x sorted) (Counter words) []).
  assert (Hperm : sorted.*1 ≡ₚ (Counter words).*1).
  { subst sorted. rewrite sort_by_count_perm, app_nil_r. done. }
  rewrite fmap_take. split; [|split].
  - rewrite length_fmap, length_take. lia.
  - apply NoDup_fmap_2; [by intros ?? [=]|].
    apply (sublist_NoDup (take 10 sorted.*1) sorted.*1);
      [by rewrite Hperm | apply sublist_take].
  - intros k Hk. apply list_elem_of_fmap in Hk as (key & -> & Hkey).
    apply subseteq_take in Hkey. rewrite Hperm in Hkey.
    apply Hmem in Hkey as [Hkey|Hkey]; [by inversion Hkey|].
    subst words. apply list_elem_of_fmap in Hkey as (word & -> & Hword).
    apply list_elem_of_filter in Hword as [Hlen Hword]. by exists word.
Qed.

(** ** The text of a document *)

Lemma string_app_assoc (a b c : string) : (a ++ b) ++ c = a ++ (b ++ c).
Proof.
  induction a as [|x a IH]; [done|].
  change (String x ((a ++ b) ++ c) = String x (a ++ (b ++ c))). by f_equal.
Qed.

Lemma string_app_nil_r (a : string) : a ++ "" = a.
Proof.
  induction a as [|x a IH]; [done|].
  change (String x (a ++ "") = String x a). by f_equal.
Qed.

Lemma string_app_length (a b : string) :
  String.length (a ++ b) = (String.length a + String.length b)%nat.
Proof.
  induction a as [|x a IH]; [done|].
  change (S (String.length (a ++ b)) = S (String.length a + String.length b)).
  by f_equal.
Qed.

Lemma join_pages_from pages acc :
  fold_left (fun text page => text ++ page ++ page_separator) pages acc
  = acc ++ fold_right (fun page rest => page ++ page_separator ++ rest) "" pages.
Proof.
  revert acc. induction pages as [|page pages IH]; intros acc;
    cbn [fold_left fold_right].
  - by rewrite string_app_nil_r.
  - by rewrite IH, !string_app_assoc.
Qed.

(** X8.  The text of a document that was read is its pages in order,
    each followed by a blank line; the page count is the number of
    pages, and the text has two characters more per page than the pages
    have together. *)
Theorem text_follows_the_pages o (data : dict) payload size info pages :
  data !! "pdf_content_b64" = Some payload ->
  read_pdf o payload = PdfDocument size info pages ->
  let text := fold_right (fun page rest => page ++ page_separator ++ rest) "" pages in
  subfield (Ok (extraction o data)) "extracted" "text_content" = Some (VStr text)
  /\ subfield (Ok (extraction o data)) "extracted" "num_pages"
     = Some (VInt (Z.of_nat (length pages)))
  /\ String.length text
     = (list_sum (String.length <$> pages) + 2 * length pages)%nat.
Proof.
  intros Hpayload Hread text. subst text.
  unfold extraction, subfield, field. rewrite Hpayload, Hread. lookup_through.
  split; [|split].
  - unfold join_pages. by rewrite join_pages_from.
  - done.
  - clear Hread. induction pages as [|page pages IH]; [done|].
    cbn [fold_right]. rewrite !string_app_length, IH. rewrite fmap_cons.
    cbn [list_sum length]. unfold page_separator. simpl. lia.
Qed.

Lemma text_follows_the_pages_witness :
  subfield (Ok (extraction Samples.offline Samples.upload)) "extracted" "text_content"
  = Some (VStr ("Comptable senior Abidjan" ++ page_separator
                ++ "comptable depuis 2015" ++ page_separator ++ "")).
Proof.
  apply (text_follows_the_pages Samples.offline Samples.upload (VStr "JVBERi0xLjQK") 2048
           (Some [("Author", VStr "A. Kone"); ("Producer", VStr "pdflatex")])
           ["Comptable senior Abidjan"; "comptable depuis 2015"]).
  - vm_compute. reflexivity.
  - reflexivity.
Defined.

(** ** The reply of the extraction service *)

Lemma validated_formations_complete v out :
  _validate_formations v = Ok out ->
  Forall (fun r => complete_record FORMATION_SCHEMA r = true) out.
Proof.
  unfold _validate_formations. unbind.
  destruct (py_iter v) as [items|e]; [|done]. intros [= <-].
  apply Forall_forall. intros r Hr.
  apply list_elem_of_In, in_concat in Hr as (l & Hl & Hr).
  apply list_elem_of_In in Hl, Hr.
  apply list_elem_of_fmap in Hl as (record & -> & _).
  rewrite validate_formation_defaults in Hr.
  destruct (formation_with_defaults record) as [r'|] eqn:E; [|by inversion Hr].
  apply list_elem_of_singleton in Hr as ->.
  by apply (formation_with_defaults_complete record).
Qed.

Lemma validated_experiences_complete v out :
  _validate_experiences v = Ok out ->
  Forall (fun r => complete_record EXPERIENCE_SCHEMA r = true) out.
Proof.
  unfold _validate_experiences. unbind.
  destruct (py_iter v) as [items|e]; [|done]. intros [= <-].
  apply Forall_forall. intros r Hr.
  apply list_elem_of_In, in_concat in Hr as (l & Hl & Hr).
  apply list_elem_of_In in Hl, Hr.
  apply list_elem_of_fmap in Hl as (record & -> & _).
  rewrite validate_experience_defaults in Hr.
  destruct (experience_with_defaults record) as [r'|] eqn:E; [|by inversion Hr].
  apply list_elem_of_singleton in Hr as ->.
  by apply (experience_with_defaults_complete record).
Qed.

(** X9.  Whatever the service replies, parsing yields the two lists and
    nothing else, and every record in them carries all the fields of its
    schema.  A reply that is not JSON, or that is not a mapping, gives
    two empty lists. *)
Theorem parse_openai_response_shape o response_content :
  exists formations experiences,
    parse_openai_response o response_content
    = {[ "formations" := VList formations;
         "experiences_professionnelles" := VList experiences ]}
    /\ Forall (fun r => complete_record FORMATION_SCHEMA r = true) formations
    /\ Forall (fun r => complete_record EXPERIENCE_SCHEMA r = true) experiences
    /\ ((forall extracted_data,
           json_loads o response_content <> Some (VDict extracted_data)) ->
        formations = [] /\ experiences = []).
Proof.
  unfold parse_openai_response.
  destruct (json_loads o response_content) as [[| | | | | |extracted_data]|];
    try (by exists [], []).
  unbind.
  destruct (_validate_formations _) as [formations|e] eqn:Ef.
  2: { by exists [], []. }
  destruct (_validate_experiences _) as [experiences|e] eqn:Ee.
  2: { by exists [], []. }
  exists formations, experiences. split; [done|].
  split; [by eapply validated_formations_complete|].
  split; [by eapply validated_experiences_complete|].
  intros H. by destruct (H extracted_data).
Qed.

(** X10.  Validation is idempotent: validating a validated list returns
    it unchanged. *)
Theorem validation_is_idempotent records :
  (forall out, _validate_formations (VList records) = Ok out ->
               _validate_formations (VList out) = Ok out)
  /\ (forall out, _validate_experiences (VList records) = Ok out ->
                  _validate_experiences (VList out) = Ok out).
Proof.
  assert (Hf : forall r out, formation_with_defaults r = Some out ->
                             formation_with_defaults out = Some out).
  { intros [| | | | | |f] out; try done. intros [= <-].
    unfold formation_with_defaults, dict_get. by lookup_through. }
  assert (He : forall r out, experience_with_defaults r = Some out ->
                             experience_with_defaults out = Some out).
  { intros [| | | | | |e] out; try done. intros [= <-].
    unfold experience_with_defaults, dict_get. lookup_through.
    cbn [default from_option id]. by destruct (e !! "competences") as [[]|]. }
  assert (Hfix : forall (g : value -> option value) (l : list value),
            (forall r out, g r = Some out -> g out = Some out) ->
            omap g (omap g l) = omap g l).
  { intros g l Hg. induction l as [|r l IH]; [done|]. cbn [omap list_omap].
    destruct (g r) as [out|] eqn:E; [|done].
    cbn [omap list_omap]. rewrite (Hg _ _ E). by f_equal. }
  unfold _validate_formations, _validate_experiences. cbn [py_iter]. unbind.
  split; intros out [= <-].
  - f_equal.
    rewrite !(list_fmap_ext validate_formation (option_list ∘ formation_with_defaults))
      by (intros; apply validate_formation_defaults).
    rewrite !list_fmap_compose, !concat_option_list. by apply Hfix.
  - f_equal.
    rewrite !(list_fmap_ext validate_experience (option_list ∘ experience_with_defaults))
      by (intros; apply validate_experience_defaults).
    rewrite !list_fmap_compose, !concat_option_list. by apply Hfix.
Qed.

Lemma validation_is_idempotent_witness :
  _validate_experiences (VList Samples.validated_experiences)
  = Ok Samples.validated_experiences.
Proof.
  apply (proj2 (validation_is_idempotent
                  [VDict {[ "periode" := VStr "2015-2020"; "poste" := VStr "Comptable";
                            "entreprise" := VStr "SIB";
                            "description" := VStr "Tenue des comptes";
                            "competences" := VList [VStr "Sage"] ]};
                   VDict {[ "periode" := VStr "2014"; "poste" := VStr "";
                            "entreprise" := VStr "Stage"; "description" := VStr "";
                            "competences" := VStr "aucune" ]};
                   VStr "divers"])).
  vm_compute. reflexivity.
Defined.

(** ** The reference file *)

Lemma read_with_first_encoding o failed encoding rest rows :
  Forall (fun e => forall r, read_csv o e <> CsvRows r) failed ->
  read_csv o encoding = CsvRows rows ->
  read_with o (failed ++ encoding :: rest) = rows.
Proof.
  intros Hfailed Hread. induction failed as [|e failed IH]; simpl.
  - by rewrite Hread.
  - apply Forall_cons in Hfailed as [He Hfailed].
    destruct (read_csv o e) as [msg|msg|r]; [by apply IH..|]. by destruct (He r).
Qed.

Lemma standardize_entry metier entry :
  entry ∈ standardize metier ->
  exists code,
    cells metier !! "code_rome" = Some code
    /\ entry = VDict {[ "id" := code; "code_rome" := code;
                        "libelle" := dict_get (cells metier) "libelle_rome" VNone;
                        "definition" := VStr ""; "appellations" := VList [] ]}.
Proof.
  unfold standardize, has_key, dict_get.
  destruct (cells metier !! "code_rome") as [code|] eqn:E; [|intros H; by inversion H].
  intros H. apply list_elem_of_singleton in H as ->. by exists code.
Qed.

(** X11.  The catalog is read under the first encoding, in the order
    utf-8, utf-8-sig, latin-1, iso-8859-1, cp1252, that reads the file;
    the later ones are not consulted.  When the first row of that
    reading is longer than the header, the log of its keys raises and
    the catalog is empty.  Otherwise the catalog has one entry for each
    row that has a [code_rome] column, in order, and no entry for the
    others; in an entry [id] and [code_rome] are the code of the row,
    [libelle] is its [libelle_rome] (or [None]), the definition is empty
    and there are no aliases. *)
Theorem catalog_follows_first_readable_encoding o failed encoding rest rows size :
  encodings = (failed ++ encoding :: rest)%list ->
  Forall (fun e => forall r, read_csv o e <> CsvRows r) failed ->
  read_csv o encoding = CsvRows rows ->
  path_exists o = true ->
  getsize o = Some size ->
  ((forall sample, head rows = Some sample -> surplus sample = None) ->
   load_metiers_reference o = concat (standardize <$> rows))
  /\ ((exists sample cut, head rows = Some sample /\ surplus sample = Some cut) ->
      load_metiers_reference o = [])
  /\ (length (load_metiers_reference o) <= length rows)%nat
  /\ Forall (fun entry =>
               exists row code,
                 row ∈ rows /\ cells row !! "code_rome" = Some code
                 /\ entry = VDict {[ "id" := code; "code_rome" := code;
                                     "libelle" := dict_get (cells row) "libelle_rome" VNone;
                                     "definition" := VStr "";
                                     "appellations" := VList [] ]})
            (load_metiers_reference o).
Proof.
  intros Henc Hfailed Hread Hexists Hsize.
  assert (Hload : load_metiers_reference o
                  = match log_sample rows with
                    | Raise _ => []
                    | Ok _ => concat (standardize <$> rows)
                    end).
  { unfold load_metiers_reference. rewrite Hexists, Hsize, Henc. simpl.
    rewrite (read_with_first_encoding _ _ _ _ _ Hfailed Hread). by destruct rows. }
  rewrite Hload. split; [|split; [|split]].
  - intros Hfirst. destruct rows as [|sample rows']; [done|].
    cbn [log_sample]. unfold join_keys. by rewrite (Hfirst sample eq_refl).
  - intros (sample & cut & Hhead & Hcut). destruct rows as [|sample' rows']; [done|].
    injection Hhead as ->. cbn [log_sample]. unfold join_keys. by rewrite Hcut.
  - destruct (log_sample rows); [|simpl; lia].
    clear. induction rows as [|row rows IH]; [done|].
    rewrite fmap_cons. cbn [concat]. rewrite length_app. simpl.
    assert (length (standardize row) <= 1)%nat; [|lia].
    unfold standardize. destruct (has_key _ _); simpl; lia.
  - destruct (log_sample rows); [|by apply Forall_nil_2].
    apply Forall_forall. intros entry Hentry.
    apply list_elem_of_In, in_concat in Hentry as (l & Hl & Hentry).
    apply list_elem_of_In in Hl, Hentry.
    apply list_elem_of_fmap in Hl as (metier & -> & Hmetier).
    apply standardize_entry in Hentry as (code & Hcode & ->).
    by exists metier, code.
Qed.

Lemma catalog_follows_first_readable_encoding_witness :
  load_metiers_reference (Samples.world 12 true true)
  = concat (standardize <$> [Samples.catalog_row])
  /\ load_metiers_reference MoreSamples.ragged = [].
Proof.
  split.
  - apply (catalog_follows_first_readable_encoding (Samples.world 12 true true) []
             "utf-8" ["utf-8-sig"; "latin-1"; "iso-8859-1"; "cp1252"]
             [Samples.catalog_row] 4096 eq_refl (Forall_nil_2 _) eq_refl eq_refl eq_refl).
    by intros sample [= <-].
  - apply (catalog_follows_first_readable_encoding MoreSamples.ragged ["utf-8"]
             "utf-8-sig" ["latin-1"; "iso-8859-1"; "cp1252"]
             [MoreSamples.ragged_row; Samples.catalog_row] 4096 eq_refl).
    + apply Forall_singleton. intros r. discriminate.
    + reflexivity.
    + reflexivity.
    + reflexivity.
    + by exists MoreSamples.ragged_row, ["surplus"].
Defined.

(** ** The catalog cache over several calls *)

(** X12.  Any number of calls made while the cache is non-empty, younger
    than the time-to-live counted from its load, and not older than the
    file, are served from the cache: each returns the cached list, none
    loads, and the cache, its timestamp included, is as it was. *)
Theorem calls_within_ttl_are_served_from_cache worlds c :
  _metiers_cache c <> [] ->
  Forall (fun o =>
            (time_matching o - _metiers_cache_timestamp c < inject_Z (CACHE_TTL o))%Q
            /\ (default 0%Q (getmtime o) <= _metiers_cache_timestamp c)%Q) worlds ->
  get_metiers_reference_calls worlds c
  = (replicate (length worlds) (_metiers_cache c), c).
Proof.
  intros Hne Hall. induction worlds as [|o worlds IH]; [done|].
  apply Forall_cons in Hall as [[Hage Hmtime] Hall].
  cbn [get_metiers_reference_calls].
  rewrite get_metiers_reference_hit by (by apply cache_valid_true).
  by rewrite (IH Hall).
Qed.

Lemma calls_within_ttl_are_served_from_cache_witness :
  get_metiers_reference_calls
    [Samples.world 200 true true; Samples.world 3000 true false;
     Samples.world 3600 false true] Samples.loaded_cache
  = (replicate 3 (_metiers_cache Samples.loaded_cache), Samples.loaded_cache).
Proof.
  apply (calls_within_ttl_are_served_from_cache
           [Samples.world 200 true true; Samples.world 3000 true false;
            Samples.world 3600 false true] Samples.loaded_cache).
  - discriminate.
  - repeat constructor; by vm_compute.
Defined.

(** ** The Category Matcher and its faults *)

(** X13.  The Category Matcher raises in one case only: the record has a
    true [success] flag and an [openai_extracted] entry that is not a
    mapping.  Every other fault (a list of experiences that cannot be
    iterated, an experience that is not a mapping, a failing service) is
    caught and reported in the record.  When it raises, the cache is as
    it was. *)
Theorem openai_matching_raises_only_on_malformed_section o c (data : dict) :
  (returns (openai_matching o c data).1 = false
   <-> truthy (dict_get data "success" (VBool false)) = true
       /\ exists v, data !! "openai_extracted" = Some v /\ is_dict v = false)
  /\ (returns (openai_matching o c data).1 = false -> (openai_matching o c data).2 = c).
Proof.
  split; [split|].
  - intros Hraise.
    destruct (truthy (dict_get data "success" (VBool false))) eqn:Hs.
    2: { unfold openai_matching in Hraise. by rewrite Hs in Hraise. }
    split; [done|].
    destruct (data !! "openai_extracted") as [v|] eqn:Hv.
    2: { unfold openai_matching, has_key in Hraise. rewrite Hs, Hv in Hraise. done. }
    exists v. split; [done|]. destruct v as [| | | | | |section]; try done.
    destruct (openai_matching_returns o c data section) as [out Hout].
    { unfold dict_get. by rewrite Hv. }
    by rewrite Hout in Hraise.
  - intros (Hs & v & Hv & Hnot).
    unfold openai_matching, has_key, dict_get in *. rewrite Hs, Hv. simpl.
    by destruct v.
  - unfold openai_matching.
    destruct (_ || _); [done|].
    destruct (py_get _ _ _) as [experiences|e]; [|done].
    destruct (negb (truthy experiences)); [done|].
    destruct (get_metiers_reference o c) as [[|metier metiers] c']; [done|].
    simpl. unbind.
    destruct (py_iter experiences); [|done].
    destruct (match_experiences _ _ _); [|done].
    by destruct (log_matches _).
Qed.

(** X14.  When the catalog cannot be loaded the Category Matcher reports
    an error, with an empty list of matches, but the [success] flag of
    the record stays true: the flag written by the stage is replaced by
    the one of its input. *)
Theorem empty_catalog_keeps_success_flag o c (data section : dict) :
  truthy (dict_get data "success" (VBool false)) = true ->
  data !! "openai_extracted" = Some (VDict section) ->
  truthy (dict_get section "experiences_professionnelles" (VList [])) = true ->
  data !! "openai_matching" = None ->
  (get_metiers_reference o c).1 = [] ->
  let result := (openai_matching o c data).1 in
  subfield result "openai_matching" "status" = Some (VStr "error")
  /\ subfield result "openai_matching" "metiers_matches" = Some (VList [])
  /\ field result "success" = data !! "success"
  /\ (exists flag, field result "success" = Some flag /\ truthy flag = true).
Proof.
  intros Hs Hsec Hexp Hfresh Hcatalog result.
  assert (Hresult : result
    = Ok (matching_error "Impossible de charger les métiers de référence" data)).
  { subst result. unfold openai_matching, has_key, py_get.
    rewrite Hs. unfold dict_get at 1. rewrite Hsec. cbn [default from_option id negb orb].
    rewrite Hexp. cbn [negb].
    destruct (get_metiers_reference o c) as [metiers c']. simpl in Hcatalog.
    by subst metiers. }
  rewrite Hresult. unfold subfield, field, matching_error, matching_response.
  rewrite spread_last_lookup_literal by done. lookup_through.
  split; [by lookup_through|]. split; [by lookup_through|].
  unfold dict_get in Hs. destruct (data !! "success") as [flag|] eqn:Hflag; [|done].
  rewrite (spread_last_lookup_data _ _ _ _ Hflag). split; [done|]. by exists flag.
Qed.

Lemma empty_catalog_keeps_success_flag_witness :
  let result :=
    (openai_matching (Samples.world 12 true false) cache_at_import Samples.fields_record).1 in
  subfield result "openai_matching" "status" = Some (VStr "error")
  /\ field result "success" = Samples.fields_record !! "success".
Proof.
  intros result.
  destruct (empty_catalog_keeps_success_flag (Samples.world 12 true false) cache_at_import
              Samples.fields_record
              {[ "formations" := VList
                   [VDict {[ "periode" := VStr "2010-2013";
                             "diplome" := VStr "BTS Comptabilite";
                             "etablissement" := VStr "";
                             "description" := VStr "" ]}];
                 "experiences_professionnelles" := VList Samples.validated_experiences;
                 "status" := VStr "success";
                 "extraction_time" := VFloat 11 ]})
    as (Hstatus & _ & Hflag & _).
  - vm_compute. reflexivity.
  - unfold Samples.fields_record. rewrite spread_last_lookup_literal by (by vm_compute).
    by lookup_through.
  - vm_compute. reflexivity.
  - vm_compute. reflexivity.
  - vm_compute. reflexivity.
  - by split.
Defined.

(** X15.  The matching call never raises and returns at most one match.
    Without a title, or without an API key, it returns no match and does
    not call the service; a match has exactly the entries [id],
    [code_rome], [libelle] and [score], the score being a number. *)
Theorem find_matching_metiers_openai_result o poste entreprise description metiers :
  exists matches,
    find_matching_metiers_openai o poste entreprise description metiers = Ok matches
    /\ (length matches <= 1)%nat
    /\ Forall (fun m => exists (d : dict) score,
                 m = VDict d
                 /\ dom d = {[ "id"; "code_rome"; "libelle"; "score" ]}
                 /\ d !! "score" = Some (VFloat score)) matches
    /\ (truthy poste = false \/ OPENAI_API_KEY o = None \/ OPENAI_API_KEY o = Some ""
        -> matches = []).
Proof.
  unfold find_matching_metiers_openai.
  destruct (truthy poste); cbn [negb].
  2: { exists []. repeat split; simpl; try lia; done. }
  destruct (OPENAI_API_KEY o) as [api_key|].
  2: { exists []. repeat split; simpl; try lia; done. }
  destruct (String.eqb_spec api_key "") as [->|Hkey].
  { exists []. repeat split; simpl; try lia; done. }
  assert (Hnone : exists matches : list value,
    Ok [] = Ok matches /\ (length matches <= 1)%nat
    /\ Forall (fun m => exists (d : dict) score,
                 m = VDict d
                 /\ dom d = {[ "id"; "code_rome"; "libelle"; "score" ]}
                 /\ d !! "score" = Some (VFloat score)) matches
    /\ (true = false \/ Some api_key = None \/ Some api_key = Some "" -> matches = [])).
  { exists []. repeat split; simpl; try lia; done. }
  destruct (chat_matching _ _ _ _ _ _) as [[content|]|e]; [|done..].
  destruct (json_loads o content) as [[| | | | | |result]|]; try done.
  destruct (forallb _ _); [|done].
  destruct (float_of _ _) as [score|]; [|done].
  eexists. split; [done|]. split; [simpl; lia|]. split.
  - apply Forall_singleton. eexists _, score. split; [done|]. split.
    + rewrite !dom_insert_L, dom_singleton_L. set_solver.
    + by lookup_through.
  - intros [?|[?|[= ->]]]; done.
Qed.

(** X16.  The Category Matcher consults the catalog, and so may change
    the cache, only for a record with a true [success] flag, an
    [openai_extracted] section and experiences; in every other case the
    cache is as it was.  When it does consult it, the cache is the one
    [get_metiers_reference] leaves. *)
Theorem openai_matching_cache o c (data : dict) :
  let consults :=
    truthy (dict_get data "success" (VBool false))
    && has_key data "openai_extracted"
    && match py_get (dict_get data "openai_extracted" (VDict ∅))
                    "experiences_professionnelles" (VList []) with
       | Ok experiences => truthy experiences
       | Raise _ => false
       end in
  (openai_matching o c data).2 = if consults then (get_metiers_reference o c).2 else c.
Proof.
  intros consults. subst consults. unfold openai_matching.
  destruct (truthy (dict_get data "success" _)); [|done].
  destruct (has_key data "openai_extracted"); [|done]. cbn [negb orb andb].
  destruct (py_get _ _ _) as [experiences|e]; [|done].
  destruct (truthy experiences); [|done]. cbn [negb].
  destruct (get_metiers_reference o c) as [[|metier metiers] c']; done.
Qed.

(** ** The endpoints *)

(** A registered run of the repository's flow ends completed. *)
Lemma flow_completes o workflow_id input_data (reg : gmap string dict) (c : cache) info :
  reg !! workflow_id = Some info ->
  exists result c',
    workflow_process o workflow_id input_data (Process reg c)
    = (Ok result,
       Process (<[workflow_id := <["status" := VStr "completed"]> info]> reg) c')
    /\ result !! "step" = Some (VStr "load_complete")
    /\ result !! "workflow_info" = None.
Proof.
  intros Hreg. unfold workflow_process.
  rewrite (flow_follows_tasks _ _ _ _ _ _ _ _ _ _ Hreg). unfold run_tasks.
  destruct (pipeline_returns o c (default {[ "initial" := VStr "data" ]} input_data))
    as (fe & cm & c' & tr & ld & Hfe & Hcm & Htr & Hld).
  rewrite Hfe, Hcm, Htr, Hld. exists ld, c'. split; [done|].
  revert Hld. unfold chargement. destruct (truthy _); unbind.
  - destruct (loaded_of _ _); [|done]. intros [= <-]. by lookup_through.
  - destruct (py_get _ _ _); [|done]. intros [= <-]. by lookup_through.
Qed.

Lemma entry_field_inserted (reg : gmap string dict) workflow_id (info : dict) field v :
  info !! field = Some v ->
  entry_field (<[workflow_id := info]> reg) workflow_id field = Ok v.
Proof. intros H. unfold entry_field. by rewrite lookup_insert_eq, H. Qed.

(** X17.  A synchronous run of an upload that has a name and a content
    type always replies, and the reply and the registry agree: the reply
    is the Loader's record with a [workflow_info] whose status is
    "completed" and whose execution time is the time between the
    registration and the reply; the run is in the registry with status
    "completed", its name and its start time, which is what the status
    endpoint then answers; the other runs are untouched. *)
Theorem sync_run_replies_completed h o workflow_name pdf_file additional_data
    name type input_data (reg : gmap string dict) (c : cache) :
  named_upload pdf_file = Some (name, type) ->
  prepare_pdf_input_data h o (file_content pdf_file) name type additional_data
  = Ok input_data ->
  exists result c',
    let reg' :=
      <[request_uuid h := <["status" := VStr "completed"]>
                            (new_entry h workflow_name name type)]> reg in
    run_workflow_sync h o workflow_name pdf_file additional_data (Process reg c)
    = (Reply result, Process reg' c')
    /\ result !! "step" = Some (VStr "load_complete")
    /\ subfield (Ok result) "workflow_info" "status" = Some (VStr "completed")
    /\ subfield (Ok result) "workflow_info" "execution_time"
       = Some (VFloat (time_of_reply h - time_of_request h))
    /\ get_workflow_status (request_uuid h) reg'
       = Reply {[ "workflow_id" := VStr (request_uuid h);
                  "status" := VStr "completed";
                  "workflow_name" := VStr workflow_name;
                  "start_time" := VFloat (time_of_request h) ]}
    /\ forall other, other <> request_uuid h -> reg' !! other = reg !! other.
Proof.
  intros Hnamed Hprepare.
  destruct (flow_completes o (request_uuid h) (Some input_data)
              (<[request_uuid h := new_entry h workflow_name name type]> reg) c
              (new_entry h workflow_name name type) (lookup_insert_eq _ _ _))
    as (result & c' & Hflow & Hstep & Hinfo).
  rewrite insert_insert_eq in Hflow.
  set (entry := <["status" := VStr "completed"]> (new_entry h workflow_name name type)).
  assert (Hstatus : entry !! "status" = Some (VStr "completed"))
    by (subst entry; by lookup_through).
  assert (Hstart : entry !! "start_time" = Some (VFloat (time_of_request h)))
    by (subst entry; unfold new_entry; by lookup_through).
  assert (Hname : entry !! "workflow_name" = Some (VStr workflow_name))
    by (subst entry; unfold new_entry; by lookup_through).
  exists (<["workflow_info" := VDict
             {[ "workflow_id" := VStr (request_uuid h);
                "workflow_name" := VStr workflow_name;
                "execution_time" := VFloat (time_of_reply h - time_of_request h);
                "status" := VStr "completed" ]}]> result), c'.
  cbv zeta. fold entry in Hflow |- *. split; [|split; [|split; [|split; [|split]]]].
  - unfold run_workflow_sync. rewrite Hnamed, Hprepare.
    cbn [active_workflows task_state]. rewrite Hflow.
    cbn [active_workflows]. unbind.
    rewrite (entry_field_inserted _ _ _ _ _ Hstart). cbn [elapsed].
    by rewrite (entry_field_inserted _ _ _ _ _ Hstatus).
  - by rewrite lookup_insert_ne.
  - unfold subfield, field. by lookup_through.
  - unfold subfield, field. by lookup_through.
  - unfold get_workflow_status, is_registered. rewrite lookup_insert_eq. unbind.
    rewrite (entry_field_inserted _ _ _ _ _ Hstatus),
      (entry_field_inserted _ _ _ _ _ Hname), (entry_field_inserted _ _ _ _ _ Hstart).
    done.
  - intros other Hother. by rewrite lookup_insert_ne.
Qed.

(** X18.  A run submitted to the asynchronous endpoint is in the
    registry, and the status endpoint answers "initializing" for it,
    until its background task has run; after that the status endpoint
    answers "completed".  The background task changes no other run. *)
Theorem submitted_run_initializing_then_completed h o workflow_name pdf_file
    additional_data name type input_data (reg : gmap string dict) (c : cache) :
  named_upload pdf_file = Some (name, type) ->
  prepare_pdf_input_data h o (file_content pdf_file) name type additional_data
  = Ok input_data ->
  let submitted :=
    run_workflow h o workflow_name pdf_file additional_data (Process reg c) in
  let finished := execute_workflow o (request_uuid h) input_data submitted.2 in
  let answer status : dict :=
    {[ "workflow_id" := VStr (request_uuid h);
       "status" := VStr status;
       "workflow_name" := VStr workflow_name;
       "start_time" := VFloat (time_of_request h) ]} in
  submitted.1 = Reply {[ "status" := VStr "Workflow lancé";
                         "workflow_name" := VStr workflow_name;
                         "workflow_id" := VStr (request_uuid h) ]}
  /\ get_workflow_status (request_uuid h) (active_workflows submitted.2)
     = Reply (answer "initializing")
  /\ get_workflow_status (request_uuid h) (active_workflows finished)
     = Reply (answer "completed")
  /\ forall other, other <> request_uuid h ->
       active_workflows finished !! other = reg !! other.
Proof.
  intros Hnamed Hprepare submitted finished answer. subst submitted finished answer.
  unfold run_workflow. rewrite Hnamed, Hprepare. cbn [fst snd active_workflows task_state].
  split; [done|].
  assert (Hstatus0 : new_entry h workflow_name name type !! "status"
                     = Some (VStr "initializing")) by (unfold new_entry; by lookup_through).
  assert (Hstart0 : new_entry h workflow_name name type !! "start_time"
                    = Some (VFloat (time_of_request h)))
    by (unfold new_entry; by lookup_through).
  assert (Hname0 : new_entry h workflow_name name type !! "workflow_name"
                   = Some (VStr workflow_name)) by (unfold new_entry; by lookup_through).
  split.
  { unfold get_workflow_status, is_registered. rewrite lookup_insert_eq. unbind.
    rewrite (entry_field_inserted _ _ _ _ _ Hstatus0),
      (entry_field_inserted _ _ _ _ _ Hname0), (entry_field_inserted _ _ _ _ _ Hstart0).
    done. }
  destruct (flow_completes o (request_uuid h) (Some input_data)
              (<[request_uuid h := new_entry h workflow_name name type]> reg) c
              (new_entry h workflow_name name type) (lookup_insert_eq _ _ _))
    as (result & c' & Hflow & _ & _).
  rewrite insert_insert_eq in Hflow.
  unfold execute_workflow. rewrite Hflow. cbn [snd active_workflows].
  set (entry := <["status" := VStr "completed"]> (new_entry h workflow_name name type)).
  assert (Hstatus : entry !! "status" = Some (VStr "completed"))
    by (subst entry; by lookup_through).
  assert (Hstart : entry !! "start_time" = Some (VFloat (time_of_request h)))
    by (subst entry; unfold new_entry; by lookup_through).
  assert (Hname : entry !! "workflow_name" = Some (VStr workflow_name))
    by (subst entry; unfold new_entry; by lookup_through).
  split.
  - unfold get_workflow_status, is_registered. rewrite lookup_insert_eq. unbind.
    rewrite (entry_field_inserted _ _ _ _ _ Hstatus),
      (entry_field_inserted _ _ _ _ _ Hname), (entry_field_inserted _ _ _ _ _ Hstart).
    done.
  - intros other Hother. by rewrite lookup_insert_ne.
Qed.

(** X19.  What [prepare_pdf_input_data] builds always reaches the Text
    Extractor as a document.  When the additional data is absent, empty,
    not JSON, or a JSON object, the record has the three entries of the
    upload; a JSON object is merged over them, so that a key of the
    caller replaces an entry of the upload; text that is not JSON is
    kept as it is under ["additional_data"]; and the Text Extractor
    finds a payload in the record. *)
Theorem prepared_upload_is_a_document h o pdf_content name type additional_data input_data :
  prepare_pdf_input_data h o pdf_content name type additional_data = Ok input_data ->
  (forall text v, additional_data = Some text -> json_loads o text = Some v ->
                  is_dict v = true) ->
  (forall k, k ∈ ({[ "pdf_filename"; "pdf_content_b64"; "content_type" ]} : gset string) ->
             is_Some (input_data !! k))
  /\ (forall text (additional_json : dict) k v,
        additional_data = Some text -> text <> "" ->
        json_loads o text = Some (VDict additional_json) ->
        additional_json !! k = Some v -> input_data !! k = Some v)
  /\ (forall text,
        additional_data = Some text -> text <> "" -> json_loads o text = None ->
        input_data !! "additional_data" = Some (VStr text)
        /\ input_data !! "pdf_content_b64" = Some (VStr (b64encode h pdf_content)))
  /\ (forall o', extraction o' input_data !! "pdf_available" = Some (VBool true)).
Proof.
  intros Hprepare Hobject.
  assert (Hkeys : forall k,
            k ∈ ({[ "pdf_filename"; "pdf_content_b64"; "content_type" ]} : gset string) ->
            is_Some (input_data !! k)).
  { revert Hprepare. unfold prepare_pdf_input_data.
    set (base := {[ "pdf_filename" := VStr name;
                    "pdf_content_b64" := VStr (b64encode h pdf_content);
                    "content_type" := VStr type ]} : dict).
    assert (Hbase : forall k,
              k ∈ ({[ "pdf_filename"; "pdf_content_b64"; "content_type" ]} : gset string) ->
              is_Some (base !! k)).
    { intros k Hk. subst base.
      apply elem_of_union in Hk as [Hk|Hk]; [apply elem_of_union in Hk as [Hk|Hk]|];
        apply elem_of_singleton in Hk as ->; lookup_through; by eexists. }
    destruct additional_data as [text|]; [|by intros [= <-]].
    destruct (String.eqb text ""); [by intros [= <-]|].
    destruct (json_loads o text) as [v|] eqn:Hjson.
    - specialize (Hobject text v eq_refl Hjson).
      destruct v as [| | | | | |additional_json]; try done.
      intros [= <-] k Hk. apply lookup_union_is_Some. right. by apply Hbase.
    - intros [= <-] k Hk. apply lookup_insert_is_Some'. right. by apply Hbase. }
  split; [done|]. split; [|split].
  - intros text additional_json k v -> Hne Hjson Hk. revert Hprepare.
    unfold prepare_pdf_input_data. apply String.eqb_neq in Hne. rewrite Hne, Hjson.
    intros [= <-]. by apply lookup_union_Some_l.
  - intros text -> Hne Hjson. revert Hprepare.
    unfold prepare_pdf_input_data. apply String.eqb_neq in Hne. rewrite Hne, Hjson.
    intros [= <-]. split; by lookup_through.
  - intros o'. unfold extraction.
    destruct (Hkeys "pdf_content_b64") as [payload ->]; [set_solver|].
    destruct (read_pdf o' payload); by lookup_through.
Qed.

Lemma sync_run_replies_completed_witness :
  exists result c',
    run_workflow_sync EndpointSamples.server (Samples.world 12 true true)
      "default_workflow" EndpointSamples.cv None (Process ∅ cache_at_import)
    = (Reply result,
       Process (<[request_uuid EndpointSamples.server :=
                    <["status" := VStr "completed"]>
                      (new_entry EndpointSamples.server "default_workflow"
                         "cv.pdf" "application/pdf")]> ∅) c')
    /\ subfield (Ok result) "workflow_info" "status" = Some (VStr "completed").
Proof.
  destruct (sync_run_replies_completed EndpointSamples.server (Samples.world 12 true true)
              "default_workflow" EndpointSamples.cv None "cv.pdf" "application/pdf"
              EndpointSamples.cv_input ∅ cache_at_import eq_refl eq_refl)
    as (result & c' & Hrun & _ & Hstatus & _).
  exists result, c'.
  split; [exact Hrun | exact Hstatus].
Defined.

Lemma submitted_run_initializing_then_completed_witness :
  let submitted :=
    run_workflow EndpointSamples.server (Samples.world 12 true true)
      "default_workflow" EndpointSamples.cv None (Process ∅ cache_at_import) in
  get_workflow_status (request_uuid EndpointSamples.server) (active_workflows submitted.2)
  = Reply {[ "workflow_id" := VStr (request_uuid EndpointSamples.server);
             "status" := VStr "initializing";
             "workflow_name" := VStr "default_workflow";
             "start_time" := VFloat (time_of_request EndpointSamples.server) ]}
  /\ get_workflow_status (request_uuid EndpointSamples.server)
       (active_workflows
          (execute_workflow (Samples.world 12 true true)
             (request_uuid EndpointSamples.server) EndpointSamples.cv_input submitted.2))
     = Reply {[ "workflow_id" := VStr (request_uuid EndpointSamples.server);
                "status" := VStr "completed";
                "workflow_name" := VStr "default_workflow";
                "start_time" := VFloat (time_of_request EndpointSamples.server) ]}.
Proof.
  destruct (submitted_run_initializing_then_completed EndpointSamples.server
              (Samples.world 12 true true) "default_workflow" EndpointSamples.cv None
              "cv.pdf" "application/pdf" EndpointSamples.cv_input ∅ cache_at_import
              eq_refl eq_refl)
    as (_ & Hbefore & Hafter & _).
  split; [exact Hbefore | exact Hafter].
Defined.

Lemma prepared_upload_is_a_document_witness :
  let input_data := <["additional_data" := VStr "urgent"]> EndpointSamples.cv_input in
  input_data !! "additional_data" = Some (VStr "urgent")
  /\ forall o', extraction o' input_data !! "pdf_available" = Some (VBool true).
Proof.
  intros input_data.
  destruct (prepared_upload_is_a_document EndpointSamples.server (Samples.world 12 true true)
              "%PDF-1.4" "cv.pdf" "application/pdf" (Some "urgent") input_data eq_refl)
    as (_ & _ & Hraw & Hdocument).
  - intros text v [= <-] Hjson. discriminate Hjson.
  - split; [|exact Hdocument].
    destruct (Hraw "urgent" eq_refl) as [Hkept _]; [discriminate|reflexivity|exact Hkept].
Defined.

(** ** The Field Extractor after the Text Extractor *)

(** What parsing returns: the two lists, of complete records. *)
Lemma parse_openai_response_records o response_content :
  exists formations experiences,
    parse_openai_response o response_content
    = {[ "formations" := VList formations;
         "experiences_professionnelles" := VList experiences ]}
    /\ Forall (fun r => complete_record FORMATION_SCHEMA r = true) formations
    /\ Forall (fun r => complete_record EXPERIENCE_SCHEMA r = true) experiences.
Proof.
  unfold parse_openai_response.
  destruct (json_loads o response_content) as [[| | | | | |extracted_data]|];
    try (by exists [], []).
  unbind.
  destruct (_validate_formations _) as [formations|e] eqn:Ef.
  2: { by exists [], []. }
  destruct (_validate_experiences _) as [experiences|e] eqn:Ee.
  2: { by exists [], []. }
  exists formations, experiences. split; [done|].
  split; [by eapply validated_formations_complete|by eapply validated_experiences_complete].
Qed.

(** The error that a record of the Field Extractor reports. *)
Lemma error_of_section (section rest record : dict) :
  record !! "openai_extracted" = None ->
  subfield (Ok (spread_last (<["openai_extracted" := VDict section]> rest) record))
    "openai_extracted" "error" = section !! "error".
Proof.
  intros H. unfold subfield, field. rewrite spread_last_lookup_literal by done.
  by lookup_through.
Qed.

(** X20.  For a record with a payload, the error of the Field Extractor
    tells how the Text Extractor read the document: it is the missing
    document error exactly when the PDF library rejected the payload,
    and the missing text error exactly when the document has no page. A
    document with a page always has a text, since each page brings its
    separator. *)
Theorem field_extractor_error_follows_the_reading o (data : dict) payload :
  data !! "pdf_content_b64" = Some payload ->
  let error :=
    subfield (openai_extraction o (extraction o data)) "openai_extracted" "error" in
  (error = Some (VStr ERROR_NO_PDF_DATA) <-> exists msg, read_pdf o payload = PdfFault msg)
  /\ (error = Some (VStr ERROR_NO_TEXT_CONTENT)
      <-> exists size info, read_pdf o payload = PdfDocument size info []).
Proof.
  intros Hpayload error. subst error. unfold extraction. rewrite Hpayload.
  destruct (read_pdf o payload) as [msg|size info pages] eqn:Hread.
  - unfold openai_extraction, has_key, dict_get. lookup_through.
    cbn [default from_option id truthy negb orb].
    unfold subfield, field, _create_error_response.
    rewrite spread_last_lookup_literal by (by lookup_through). lookup_through.
    split; split.
    + intros _. by exists msg.
    + done.
    + by intros [=].
    + intros (? & ? & [=]).
  - unfold openai_extraction, has_key, dict_get. lookup_through.
    cbn [default from_option id truthy negb orb py_get]. unbind.
    unfold dict_get. lookup_through. cbn [default from_option id truthy].
    destruct pages as [|page pages].
    + cbn [join_pages fold_left String.eqb negb].
      unfold subfield, field, _create_error_response.
      rewrite spread_last_lookup_literal by (by lookup_through). lookup_through.
      split; split.
      * by intros [=].
      * intros (? & [=]).
      * intros _. by exists size, info.
      * done.
    + assert (Htext : String.eqb (join_pages (page :: pages)) "" = false).
      { apply String.eqb_neq. by apply join_pages_nonempty. }
      rewrite Htext. cbn [negb].
      match goal with |- context [_create_error_response _ ?d] => set (record := d) end.
      assert (Hrecord : record !! "openai_extracted" = None)
        by (subst record; by lookup_through).
      destruct (key_missing _); [|destruct (_perform_openai_extraction _ _ _)];
        unfold _create_error_response; rewrite error_of_section by done; lookup_through;
        (split; split; [by intros [=] | intros (? & [=]) | by intros [=] | intros (? & ? & [=])]).
Qed.

Lemma field_extractor_error_follows_the_reading_witness :
  subfield (openai_extraction MoreSamples.garbled
              (extraction MoreSamples.garbled EndpointSamples.cv_input))
    "openai_extracted" "error" = Some (VStr ERROR_NO_PDF_DATA).
Proof.
  apply (proj1 (field_extractor_error_follows_the_reading MoreSamples.garbled
                  EndpointSamples.cv_input (VStr "JVBERi0xLjQK") eq_refl)).
  by exists "EOF marker not found".
Defined.

(** X21.  For a record that has no [success] and no [openai_extracted]
    entry of its own, the Field Extractor sets the [success] flag
    exactly when it reports the status "success", and then its section
    holds the two lists, every record of which carries all the fields of
    its schema. *)
Theorem successful_extraction_holds_complete_records o (data : dict) :
  data !! "openai_extracted" = None ->
  data !! "success" = None ->
  let result := openai_extraction o data in
  (field result "success" = Some (VBool true)
   <-> subfield result "openai_extracted" "status" = Some (VStr "success"))
  /\ (field result "success" = Some (VBool true) ->
      exists formations experiences,
        subfield result "openai_extracted" "formations" = Some (VList formations)
        /\ subfield result "openai_extracted" "experiences_professionnelles"
           = Some (VList experiences)
        /\ Forall (fun r => complete_record FORMATION_SCHEMA r = true) formations
        /\ Forall (fun r => complete_record EXPERIENCE_SCHEMA r = true) experiences).
Proof.
  intros Hsection Hflag result. subst result.
  assert (Herror : forall msg,
    (field (Ok (_create_error_response msg data)) "success" = Some (VBool true)
     <-> subfield (Ok (_create_error_response msg data)) "openai_extracted" "status"
         = Some (VStr "success"))
    /\ (field (Ok (_create_error_response msg data)) "success" = Some (VBool true) ->
        exists formations experiences,
          subfield (Ok (_create_error_response msg data)) "openai_extracted" "formations"
          = Some (VList formations)
          /\ subfield (Ok (_create_error_response msg data)) "openai_extracted"
               "experiences_professionnelles" = Some (VList experiences)
          /\ Forall (fun r => complete_record FORMATION_SCHEMA r = true) formations
          /\ Forall (fun r => complete_record EXPERIENCE_SCHEMA r = true) experiences)).
  { intros msg. unfold subfield, field, _create_error_response.
    rewrite !spread_last_lookup_literal by done. lookup_through.
    split; [split|]; intros [=]. }
  unfold openai_extraction.
  destruct (_ || _); [apply Herror|].
  destruct (py_get _ _ _) as [text_content|e]; unbind.
  2: { unfold subfield, field. split; [split|]; intros [=]. }
  destruct (negb (truthy text_content)); [apply Herror|].
  destruct (key_missing _); [apply Herror|].
  unfold _perform_openai_extraction. unbind.
  destruct (chat_extraction _ _ _) as [[content|]|e]; [|apply Herror..].
  destruct (parse_openai_response_records o content)
    as (formations & experiences & -> & Hf & He).
  unfold subfield, field. rewrite !spread_last_lookup_literal by done.
  unfold dict_get. lookup_through. cbn [default from_option id].
  split; [done|]. intros _. by exists formations, experiences.
Qed.

Lemma successful_extraction_holds_complete_records_witness :
  let result := openai_extraction (Samples.world 12 true true)
                  (extraction (Samples.world 12 true true) Samples.upload) in
  field result "success" = Some (VBool true)
  <-> subfield result "openai_extracted" "status" = Some (VStr "success").
Proof.
  intros result.
  destruct (extraction_record (Samples.world 12 true true) Samples.upload)
    as (extracted & available & _ & _ & Hsection & _ & Hflag & _).
  exact (proj1 (successful_extraction_holds_complete_records (Samples.world 12 true true)
                  (extraction (Samples.world 12 true true) Samples.upload)
                  Hsection Hflag)).
Defined.
